(** * pandasai.smart_dataframe: the dataframe state holder, the sample head
      and the column hash

    A shallow embedding of [pandasai/smart_dataframe/__init__.py]:
    [SmartDataframeCore] (loading, engine detection, the copy-on-read
    [dataframe] property, connector load and unload) and the parts of
    [SmartDataframe] built on it ([column_hash], [_truncate_head_columns],
    [_get_sample_head], [__eq__]).

    Python objects live in a heap of locations, so that a copy is told apart
    from the object it was copied from, and a cell of dtype object holds a
    reference into the heap, so that the objects two tables share are told
    apart from those they do not.  Methods are state-passing functions
    that either return a value or raise; an exception leaves in place the
    assignments made before it, as in Python.  What the module imports from
    elsewhere (the pandas readers, the sampler, the connectors) is taken as a
    parameter. *)

From Stdlib Require Import ZArith NArith List String Ascii Bool Lia.
From stdpp Require Import base option list gmap.
Import ListNotations.

Local Open Scope Z_scope.

(** ** Python strings

    A [str] is a sequence of Unicode code points; [len] counts them and a slice
    cuts between them.  [py] reads a literal, one code point per character. *)

Abbreviation str := (list N).

Definition py (s : string) : str :=
  map N_of_ascii (list_ascii_of_string s).

(** [s.endswith(p)] and [s.startswith(p)]. *)
Definition endswith (s p : list N) : bool := bool_decide (p `suffix_of` s).
Definition startswith (s p : list N) : bool := bool_decide (p `prefix_of` s).

(** [p in s] for strings: [p] occurs somewhere in [s]. *)
Fixpoint contains (s p : list N) : bool :=
  startswith s p ||
  match s with
  | [] => false
  | _ :: s' => contains s' p
  end.

(** [s.encode()]: UTF-8.  A lone surrogate has no encoding (Python raises
    [UnicodeEncodeError]); code points past U+10FFFF are not characters. *)
Definition utf8_char (c : N) : option (list Z) :=
  let z := Z.of_N c in
  if z <? 128 then Some [z]
  else if z <? 2048 then
    Some [Z.lor 192 (Z.shiftr z 6); Z.lor 128 (Z.land z 63)]
  else if z <? 65536 then
    if (55296 <=? z) && (z <=? 57343) then None
    else Some [Z.lor 224 (Z.shiftr z 12);
               Z.lor 128 (Z.land (Z.shiftr z 6) 63);
               Z.lor 128 (Z.land z 63)]
  else if z <? 1114112 then
    Some [Z.lor 240 (Z.shiftr z 18);
          Z.lor 128 (Z.land (Z.shiftr z 12) 63);
          Z.lor 128 (Z.land (Z.shiftr z 6) 63);
          Z.lor 128 (Z.land z 63)]
  else None.

Fixpoint encode (s : list N) : option (list Z) :=
  match s with
  | [] => Some []
  | c :: s' =>
      match utf8_char c, encode s' with
      | Some bs, Some rest => Some (bs ++ rest)
      | _, _ => None
      end
  end.

(** ** hashlib.sha256

    SHA-256 (FIPS 180-4) over bytes; 32-bit words are integers reduced modulo
    2^32 after every addition. *)
Module SHA256.

Definition w32 (x : Z) : Z := x mod 4294967296.
Definition add32 (x y : Z) : Z := w32 (x + y).
Definition rotr (n x : Z) : Z :=
  Z.lor (Z.shiftr x n) (w32 (Z.shiftl x (32 - n))).
Definition shr (n x : Z) : Z := Z.shiftr x n.

Definition Ch (x y z : Z) : Z :=
  Z.lxor (Z.land x y) (Z.land (Z.lnot x) z).
Definition Maj (x y z : Z) : Z :=
  Z.lxor (Z.lxor (Z.land x y) (Z.land x z)) (Z.land y z).
Definition Sigma0 (x : Z) : Z := Z.lxor (Z.lxor (rotr 2 x) (rotr 13 x)) (rotr 22 x).
Definition Sigma1 (x : Z) : Z := Z.lxor (Z.lxor (rotr 6 x) (rotr 11 x)) (rotr 25 x).
Definition sigma0 (x : Z) : Z := Z.lxor (Z.lxor (rotr 7 x) (rotr 18 x)) (shr 3 x).
Definition sigma1 (x : Z) : Z := Z.lxor (Z.lxor (rotr 17 x) (rotr 19 x)) (shr 10 x).

(** The round constants are the first 32 bits of the fractional parts of the
    cube roots of the first 64 primes, and the initial hash value those of the
    square roots of the first 8. *)
Definition primes : list Z :=
  [2; 3; 5; 7; 11; 13; 17; 19; 23; 29; 31; 37; 41; 43; 47; 53; 59; 61; 67; 71;
   73; 79; 83; 89; 97; 101; 103; 107; 109; 113; 127; 131; 137; 139; 149; 151;
   157; 163; 167; 173; 179; 181; 191; 193; 197; 199; 211; 223; 227; 229; 233;
   239; 241; 251; 257; 263; 269; 271; 277; 281; 283; 293; 307; 311].

(** The largest [r] in [lo, hi) with [r^3 <= n], by bisection. *)
Fixpoint cube_root (steps : nat) (lo hi n : Z) : Z :=
  match steps with
  | O => lo
  | S steps' =>
      let mid := (lo + hi) / 2 in
      if mid =? lo then lo
      else if mid * mid * mid <=? n then cube_root steps' mid hi n
      else cube_root steps' lo mid n
  end.

Definition frac_cube_root (p : Z) : Z :=
  w32 (cube_root 40 0 (2 ^ 36) (p * 2 ^ 96)).
Definition frac_square_root (p : Z) : Z :=
  w32 (Z.sqrt (p * 2 ^ 64)).

Definition K : list Z := Eval vm_compute in map frac_cube_root primes.

(** The message, a 1 bit, zeros up to 56 modulo 64 bytes, and the length in
    bits as 8 big-endian bytes. *)
Definition be_bytes (n : nat) (x : Z) : list Z :=
  map (fun i => Z.land (Z.shiftr x (8 * Z.of_nat i)) 255) (rev (seq 0 n)).

Definition pad (msg : list Z) : list Z :=
  let len := Z.of_nat (length msg) in
  msg ++ [128] ++ repeat 0 (Z.to_nat ((55 - len) mod 64)) ++ be_bytes 8 (8 * len).

Definition be_word (bs : list Z) : Z :=
  fold_left (fun acc b => acc * 256 + b) bs 0.

(** [chunks k n l]: the first [n] pieces of [l], [k] items each. *)
Fixpoint chunks {A} (k n : nat) (l : list A) : list (list A) :=
  match n with
  | O => []
  | S n' => firstn k l :: chunks k n' (skipn k l)
  end.

Definition words_of_block (block : list Z) : list Z :=
  map be_word (chunks 4 16 block).

(** The message schedule: 16 words of the block, then 48 derived ones. *)
Definition schedule_step (w : list Z) : list Z :=
  let t := length w in
  let at_ (i : nat) := nth (t - i) w 0 in
  w ++ [add32 (add32 (sigma1 (at_ 2%nat)) (at_ 7%nat))
              (add32 (sigma0 (at_ 15%nat)) (at_ 16%nat))].

Definition schedule (block : list Z) : list Z :=
  Nat.iter 48 schedule_step (words_of_block block).

Record regs := Regs { ra : Z; rb : Z; rc : Z; rd : Z; re : Z; rf : Z; rg : Z; rh : Z }.

Definition round (r : regs) (kw : Z * Z) : regs :=
  let '(k, w) := kw in
  let t1 := add32 (add32 (add32 (rh r) (Sigma1 (re r)))
                         (add32 (Ch (re r) (rf r) (rg r)) k)) w in
  let t2 := add32 (Sigma0 (ra r)) (Maj (ra r) (rb r) (rc r)) in
  Regs (add32 t1 t2) (ra r) (rb r) (rc r) (add32 (rd r) t1) (re r) (rf r) (rg r).

Definition compress (h : regs) (block : list Z) : regs :=
  let r := fold_left round (combine K (schedule block)) h in
  Regs (add32 (ra h) (ra r)) (add32 (rb h) (rb r)) (add32 (rc h) (rc r))
       (add32 (rd h) (rd r)) (add32 (re h) (re r)) (add32 (rf h) (rf r))
       (add32 (rg h) (rg r)) (add32 (rh h) (rh r)).

Definition init : regs :=
  match map frac_square_root (firstn 8 primes) with
  | [a; b; c; d; e; f; g; h] => Regs a b c d e f g h
  | _ => Regs 0 0 0 0 0 0 0 0
  end.

(** [hashlib.sha256(msg).digest()] as 32 bytes. *)
Definition digest (msg : list Z) : list Z :=
  let p := pad msg in
  let r := fold_left compress (chunks 64 (Nat.div (length p) 64) p) init in
  flat_map (be_bytes 4) [ra r; rb r; rc r; rd r; re r; rf r; rg r; rh r].

(** Lowercase hexadecimal digits, as code points. *)
Definition hex_digit (d : Z) : N :=
  if d <? 10 then Z.to_N (48 + d) else Z.to_N (87 + d).

Definition hex_byte (b : Z) : list N :=
  [hex_digit (Z.shiftr b 4); hex_digit (Z.land b 15)].

(** [hashlib.sha256(msg).hexdigest()]. *)
Definition hexdigest (msg : list Z) : list N := flat_map hex_byte (digest msg).

End SHA256.

(** ** Exceptions

    The module raises [ValueError] with different messages; the first six
    constructors stand for them, named as the specification names them.  The
    others are Python's own, raised by the interpreter or by a collaborator. *)
Inductive Exception :=
| InvalidFileFormat      (* ValueError: Invalid file format. *)
| UnconvertibleInput     (* ValueError: Invalid input data. We cannot convert it to a dataframe. *)
| UnrecognizedEngine     (* ValueError: Invalid input data. Must be a Pandas, Modin or Polars dataframe. *)
| EngineMismatch         (* ValueError: The provided dataframe is a ... dataframe, but the current pandasai engine is ... *)
| UnsupportedEngine      (* ValueError: Unrecognized engine ... It must either be pandas, modin or polars. *)
| ConfigNotFound         (* ValueError: Could not find a saved dataframe configuration with the given name. *)
| AttributeError
| IndexError
| TypeError
| UnicodeEncodeError
| ComputeError           (* polars.exceptions.ComputeError *)
| ExternalError (code : nat).  (* whatever a reader or an importer raises *)

Inductive Outcome (A : Type) :=
| Return (a : A)
| Raise (e : Exception).
Arguments Return {A} a.
Arguments Raise {A} e.

(** ** Tables *)

(** The engine tags ["pandas"], ["modin"] and ["polars"]; they also name the
    three DataFrame classes. *)
Inductive Backend := pandas | modin | polars.

(** [pandasai.pandas], the module the process is configured to use: pandas
    itself or [modin.pandas]. *)
Inductive Eager := use_pandas | use_modin.

Definition eager_backend (e : Eager) : Backend :=
  match e with use_pandas => pandas | use_modin => modin end.

Inductive Cell :=
| CStr (s : str)
| CInt (z : Z)
| CNaN                   (* NaN, None, null *)
| CObj (ref : positive). (* any other Python object: the cell holds a reference
                            to it, and the object has its place in the heap *)

Inductive Dtype := dtype_object | dtype_Utf8 | dtype_int64 | dtype_float64 | dtype_bool.

(** A column label is any hashable; strings and integers are what readers
    and [pd.DataFrame] produce. *)
Inductive Label :=
| LStr (s : str)
| LInt (z : Z).

Record Column := mkColumn {
  col_label : Label;
  col_dtype : Dtype;
  col_values : list Cell
}.

Record DataFrame := mkDataFrame {
  df_backend : Backend;
  df_rows : nat;                 (* shape[0] *)
  df_columns : list Column
}.

(** A list or a dict handed to [pd.DataFrame]. *)
Inductive Raw :=
| RawList (rows : list (list Cell))
| RawDict (cols : list (str * list Cell)).

(** A connector, by the answers it gives: the table [execute()] returns, the
    preview [head()] returns, its [column_hash], and what tells it from other
    connectors. *)
Record ConnectorData := mkConnector {
  conn_execute : DataFrame;
  conn_head : option DataFrame;
  conn_column_hash : str;
  conn_ident : nat
}.

#[global] Instance Backend_eq_dec : EqDecision Backend.
Proof. solve_decision. Defined.
#[global] Instance Dtype_eq_dec : EqDecision Dtype.
Proof. solve_decision. Defined.
#[global] Instance Cell_eq_dec : EqDecision Cell.
Proof. solve_decision. Defined.
#[global] Instance Label_eq_dec : EqDecision Label.
Proof. solve_decision. Defined.
#[global] Instance Column_eq_dec : EqDecision Column.
Proof. solve_decision. Defined.
#[global] Instance DataFrame_eq_dec : EqDecision DataFrame.
Proof. solve_decision. Defined.

(** ** The heap *)

Abbreviation loc := positive.

Inductive PyObj :=
| ODataFrame (df : DataFrame)
| OSeries (s : Column)                     (* a pd.Series *)
| OConnector (c : ConnectorData)           (* a BaseConnector *)
| OList (items : list Cell)                (* a list, as a cell of dtype object may hold *)
| Opaque (has_copy has_clone : bool).      (* an object of any other class *)

Abbreviation Heap := (gmap loc PyObj).

(** A reference always leads to an object; outside the heap the model reads
    an object without methods. *)
Definition deref (h : Heap) (l : loc) : PyObj :=
  default (Opaque false false) (h !! l).

(** What a caller passes where the code expects [DataFrameType]. *)
Inductive Value :=
| VNone
| VStr (s : str)
| VRaw (r : Raw)           (* a list or a dict *)
| VRef (l : loc).          (* any other object *)

(** ** Methods: state and exceptions

    A method of an object with fields [S] reads and writes the fields and the
    heap.  [Raise] keeps the state reached so far. *)
Definition M (S A : Type) : Type := S * Heap -> Outcome A * (S * Heap).

Definition ret {S A} (a : A) : M S A := fun st => (Return a, st).
Definition raise {S A} (e : Exception) : M S A := fun st => (Raise e, st).
Definition bind {S A B} (m : M S A) (k : A -> M S B) : M S B :=
  fun st =>
    match m st with
    | (Return a, st') => k a st'
    | (Raise e, st') => (Raise e, st')
    end.
Definition get_self {S} : M S S := fun st => (Return (fst st), st).
Definition put_self {S} (s : S) : M S unit := fun st => (Return tt, (s, snd st)).
Definition get_heap {S} : M S Heap := fun st => (Return (snd st), st).

(** A new object, at a location not in use. *)
Definition alloc {S} (o : PyObj) : M S loc :=
  fun st =>
    let l := fresh (dom (snd st)) in
    (Return l, (fst st, <[l := o]> (snd st))).

(** A change of an object in place: the object at [l] becomes [o], its
    identity stays. *)
Definition store {S} (l : loc) (o : PyObj) : M S unit :=
  fun st => (Return tt, (fst st, <[l := o]> (snd st))).

(** Running a method of a field on the field. *)
Definition zoom {S T A} (proj : S -> T) (upd : T -> S -> S) (m : M T A) : M S A :=
  fun st =>
    let '(r, (t', h')) := m (proj (fst st), snd st) in
    (r, (upd t' (fst st), h')).

Declare Scope method_scope.
Delimit Scope method_scope with method.
Notation "x <- m ;; k" := (bind m (fun x => k))
  (at level 100, m at next level, right associativity) : method_scope.
Notation "m ;; k" := (bind m (fun _ => k))
  (at level 100, right associativity) : method_scope.
Local Open Scope method_scope.

Definition call {S A} (r : Outcome A) : M S A := fun st => (r, st).

(** The [ValueError]s among the exceptions. *)
Definition is_ValueError (e : Exception) : bool :=
  match e with
  | InvalidFileFormat | UnconvertibleInput | UnrecognizedEngine
  | EngineMismatch | UnsupportedEngine | ConfigNotFound => true
  | _ => false
  end.

(** [try: m except ValueError as e: raise e' from e]. *)
Definition except_ValueError {S A} (m : M S A) (e' : Exception) : M S A :=
  fun st =>
    match m st with
    | (Raise e, st') => (Raise (if is_ValueError e then e' else e), st')
    | r => r
    end.

(** [Class(args)]: [__init__] runs on an object that has the class
    attributes; the caller gets the object only if it returns. *)
Definition construct {S A} (defaults : S) (init : M S A) : M unit S :=
  fun st =>
    match init (defaults, snd st) with
    | (Return _, (self, h)) => (Return self, (tt, h))
    | (Raise e, (_, h)) => (Raise e, (tt, h))
    end.

(** ** What the module imports

    The pandas functions it calls, and the helpers of the package that are not
    part of this file. *)

Class Collaborators := {
  (** [pandasai.pandas] *)
  pd : Eager;
  read_csv : str -> Outcome DataFrame;
  read_parquet : str -> Outcome DataFrame;
  read_excel : str -> Outcome DataFrame;
  (** [pd.read_csv(StringIO(text))] *)
  read_csv_text : str -> Outcome DataFrame;
  (** [pd.DataFrame(data)]; [None] when it raises [ValueError] *)
  pd_DataFrame : Raw -> option DataFrame;
  (** [series.to_frame()] *)
  to_frame : Column -> DataFrame;
  (** [df.to_csv(index=False)] *)
  to_csv : DataFrame -> str;
  (** [str(series)], which is what an f-string puts in place of [{series}] *)
  series_str : Column -> str;
  (** [helpers.from_google_sheets.from_google_sheets] *)
  from_google_sheets : str -> Outcome (list DataFrame);
  (** [DataSampler(df).sample(n)], for the random choices it makes *)
  sample : DataFrame -> nat -> DataFrame;
  (** [connector.equals(other)] *)
  connector_equals : ConnectorData -> ConnectorData -> bool;
  (** [DfConfigManager(self).load(name)]: the saved [import_path], if any *)
  load_from_config : str -> option str;
  (** [SmartDataframe._instantiate_connector]: the connector class named by
      the import path, instantiated *)
  instantiate_connector : str -> Outcome ConnectorData;
  (** what a function of [pd] returns is an instance of [pd.DataFrame], the
      class [_load_engine] tests for *)
  pd_makes_its_own : forall d,
    (exists src, read_csv src = Return d \/ read_parquet src = Return d
                 \/ read_excel src = Return d \/ read_csv_text src = Return d)
    \/ (exists data, pd_DataFrame data = Some d) ->
    df_backend d = eager_backend pd
}.

(** Modelled from the spec: [df_type] of [helpers/df_info.py], which is not part
    of the sources.  Section 4.1: it "inspects its concrete backend type and
    returns the matching Engine tag"; the result is [None] for an object of
    no known backend, which is what [_load_engine] tests for. *)
Definition df_type (o : PyObj) : option Backend :=
  match o with
  | ODataFrame df => Some (df_backend df)
  | _ => None
  end.

(** [obj.copy()]: pandas and modin DataFrames and Series have it.  The copy is
    a table of its own with the same cells: [copy(deep=True)] copies the data
    and the index, and not the Python objects that cells of dtype object refer
    to, so a cell [CObj r] of the copy refers to the object the original
    refers to.  The table is a new object because the caller allocates it. *)
Definition method_copy (o : PyObj) : option PyObj :=
  match o with
  | ODataFrame df =>
      match df_backend df with
      | pandas | modin => Some o
      | polars => None
      end
  | OSeries _ => Some o
  | OConnector _ => None
  | OList _ => Some o
  | Opaque has_copy _ => if has_copy then Some o else None
  end.

(** [obj.clone()]: polars DataFrames have it. *)
Definition method_clone (o : PyObj) : option PyObj :=
  match o with
  | ODataFrame df =>
      match df_backend df with
      | polars => Some o
      | pandas | modin => None
      end
  | OSeries _ => None
  | OConnector _ => None
  | OList _ => None
  | Opaque _ has_clone => if has_clone then Some o else None
  end.

(** Calling a method on the value of an attribute that may be [None]: the
    result is a new object. *)
Definition call_method {S} (meth : PyObj -> option PyObj) (target : option loc) : M S loc :=
  match target with
  | None => raise AttributeError
  | Some l =>
      h <- get_heap ;;
      match meth (deref h l) with
      | Some o => alloc o
      | None => raise AttributeError
      end
  end.

(** ** What a table shows, and what a caller can do to it

    A cell of dtype object holds a reference, and what the table shows in that
    cell is the state of the object referred to. *)
Definition cell_shows (h : Heap) (c : Cell) : Cell + PyObj :=
  match c with
  | CObj r => inr (deref h r)
  | _ => inl c
  end.

Definition table_shows (h : Heap) (d : DataFrame) : list (Label * list (Cell + PyObj)) :=
  map (fun col => (col_label col, map (cell_shows h) (col_values col))) (df_columns d).

(** The objects the cells of a table refer to. *)
Definition cell_refs (d : DataFrame) : list loc :=
  flat_map (fun col => flat_map (fun c => match c with CObj r => [r] | _ => [] end)
                         (col_values col))
    (df_columns d).

(** [df.iat[row, column]] *)
Definition cell_at (d : DataFrame) (column row : nat) : option Cell :=
  match df_columns d !! column with
  | Some col => col_values col !! row
  | None => None
  end.

(** [df.iat[row, column].method(...)] on the table at [l], for a method that
    changes its object in place: the object the cell refers to changes, the
    table does not. *)
Definition call_on_cell {S} (l : loc) (column row : nat) (method : PyObj -> option PyObj)
  : M S unit :=
  h <- get_heap ;;
  match deref h l with
  | ODataFrame d =>
      match cell_at d column row with
      | Some (CObj r) =>
          match method (deref h r) with
          | Some o => store r o
          | None => raise AttributeError
          end
      | Some _ => raise AttributeError
      | None => raise IndexError
      end
  | _ => raise AttributeError
  end.

(** [list.append(x)] *)
Definition list_append (x : Cell) (o : PyObj) : option PyObj :=
  match o with
  | OList items => Some (OList (items ++ [x]))
  | _ => None
  end.

(** ** class SmartDataframeCore *)
Module SmartDataframeCore.

Record state := mkCore {
  _df : option loc;
  _df_loaded : bool;
  _temporary_loaded : bool;
  _connector : option loc;
  _engine : option Backend
}.

(** The class attributes. *)
Definition defaults : state :=
  {| _df := None; _df_loaded := true; _temporary_loaded := false;
     _connector := None; _engine := None |}.

Definition set_df (v : option loc) (self : state) : state :=
  mkCore v (_df_loaded self) (_temporary_loaded self) (_connector self) (_engine self).
Definition set_df_loaded (b : bool) (self : state) : state :=
  mkCore (_df self) b (_temporary_loaded self) (_connector self) (_engine self).
Definition set_temporary_loaded (b : bool) (self : state) : state :=
  mkCore (_df self) (_df_loaded self) b (_connector self) (_engine self).
Definition set_connector (c : option loc) (self : state) : state :=
  mkCore (_df self) (_df_loaded self) (_temporary_loaded self) c (_engine self).
Definition set_engine (e : option Backend) (self : state) : state :=
  mkCore (_df self) (_df_loaded self) (_temporary_loaded self) (_connector self) e.

Definition assign (f : state -> state) : M state unit :=
  self <- get_self ;; put_self (f self).

Section Methods.
Context `{Collaborators}.

(** [isinstance(obj, pd.DataFrame)]: the three DataFrame classes are not
    subclasses of one another. *)
Definition isinstance_pd_DataFrame (o : PyObj) : bool :=
  match o with
  | ODataFrame df => bool_decide (df_backend df = eager_backend pd)
  | _ => false
  end.

(** The readers hand back a new DataFrame; it gets its place in the heap
    where the caller stores it. *)
Definition _import_from_file (file_path : str) : Outcome DataFrame :=
  if endswith file_path (py ".csv") then
    read_csv file_path
  else if endswith file_path (py ".parquet") then
    read_parquet file_path
  else if endswith file_path (py ".xlsx") then
    read_excel file_path
  else if startswith file_path (py "https://docs.google.com/spreadsheets/") then
    match from_google_sheets file_path with
    | Return (df :: _) => Return df             (* [0] *)
    | Return [] => Raise IndexError
    | Raise e => Raise e
    end
  else
    Raise InvalidFileFormat.

Definition _load_engine : M state unit :=
  self <- get_self ;;
  h <- get_heap ;;
  match _df self with
  | None => raise UnrecognizedEngine          (* df_type(None) is None *)
  | Some l =>
      match df_type (deref h l) with
      | None => raise UnrecognizedEngine
      | Some df_engine =>
          if bool_decide (df_engine <> polars)
             && negb (isinstance_pd_DataFrame (deref h l))
          then raise EngineMismatch
          else assign (set_engine (Some df_engine))
      end
  end.

(** The result is [None] or a reference: a path or a list has been read
    into a new DataFrame. *)
Definition _validate_and_convert_dataframe (df : Value) : M state (option loc) :=
  match df with
  | VStr s =>
      d <- call (_import_from_file s) ;; l <- alloc (ODataFrame d) ;; ret (Some l)
  | VRaw r =>
      match pd_DataFrame r with
      | Some d => l <- alloc (ODataFrame d) ;; ret (Some l)
      | None => raise UnconvertibleInput
      end
  | VRef l => ret (Some l)
  | VNone => ret None
  end.

Definition has_connector (self : state) : bool :=
  bool_decide (_connector self <> None).

Definition _unload_connector : M state unit :=
  assign (set_df None) ;;
  assign (set_df_loaded false) ;;
  assign (set_temporary_loaded false).

(** The [dataframe] property. *)
Definition dataframe : M state (option loc) :=
  self <- get_self ;;
  if _df_loaded self then
    return_df <-
      match _engine self with
      | Some polars => l <- call_method method_clone (_df self) ;; ret (Some l)
      | Some pandas | Some modin => l <- call_method method_copy (_df self) ;; ret (Some l)
      | None => ret None
      end ;;
    (if has_connector self && _df_loaded self && _temporary_loaded self
     then _unload_connector else ret tt) ;;
    ret return_df
  else if has_connector self then
    ret None
  else
    ret None.

(** Its setter. *)
Definition dataframe_setter (df : Value) : M state unit :=
  df <- _validate_and_convert_dataframe df ;;
  assign (set_df df) ;;
  match df with
  | Some _ => _load_engine
  | None => ret tt
  end.

Definition engine (self : state) : option Backend := _engine self.
Definition connector (self : state) : option loc := _connector self.
Definition connector_setter (c : option loc) : M state unit := assign (set_connector c).

(** [self.connector.execute()] and the like: the connector's data, when the
    attribute holds a connector. *)
Definition the_connector {S} (c : option loc) : M S ConnectorData :=
  h <- get_heap ;;
  match c with
  | Some l => match deref h l with
              | OConnector c => ret c
              | _ => raise AttributeError
              end
  | None => raise AttributeError
  end.

Definition load_connector (temporary : bool) : M state unit :=
  self <- get_self ;;
  c <- the_connector (connector self) ;;
  l <- alloc (ODataFrame (conn_execute c)) ;;
  dataframe_setter (VRef l) ;;
  assign (set_df_loaded true) ;;
  assign (set_temporary_loaded temporary).

Definition _load_dataframe (df : Value) : M state unit :=
  h <- get_heap ;;
  match df with
  | VStr s =>
      d <- call (_import_from_file s) ;;
      l <- alloc (ODataFrame d) ;;
      dataframe_setter (VRef l)
  | VRaw r =>
      except_ValueError
        match pd_DataFrame r with
        | Some d => l <- alloc (ODataFrame d) ;; dataframe_setter (VRef l)
        | None => raise UnconvertibleInput
        end
        UnconvertibleInput
  | VRef l =>
      match deref h l with
      | OConnector _ =>
          dataframe_setter VNone ;;
          connector_setter (Some l) ;;
          assign (set_df_loaded false)
      | OSeries s =>
          l' <- alloc (ODataFrame (to_frame s)) ;; dataframe_setter (VRef l')
      | _ => dataframe_setter df
      end
  | VNone => dataframe_setter df
  end.

(** [SmartDataframeCore(df, logger)]: a new object, or the exception. *)
Definition __init__ (df : Value) : M unit state :=
  construct defaults (_load_dataframe df).

End Methods.
End SmartDataframeCore.

(** ** class SmartDataframe *)
Module SmartDataframe.

Record state := mkSmartDataframe {
  _core : SmartDataframeCore.state;
  _custom_head : option str;           (* the custom head as CSV text *)
  lake_config_enforce_privacy : bool   (* self.lake.config.enforce_privacy *)
}.

Definition set_core (c : SmartDataframeCore.state) (self : state) : state :=
  mkSmartDataframe c (_custom_head self) (lake_config_enforce_privacy self).
Definition set_custom_head (v : option str) (self : state) : state :=
  mkSmartDataframe (_core self) v (lake_config_enforce_privacy self).

(** What [__eq__] may be compared with. *)
Inductive Operand :=
| a_SmartDataframe (other : state)
| another_object.

(** [series.str.slice(0, stop)]: element-wise on strings, NaN elsewhere.  A
    negative [stop] counts from the end. *)
Definition slice0 (stop : Z) (s : str) : str :=
  if stop <? 0 then firstn (length s - Z.to_nat (- stop)) s
  else firstn (Z.to_nat stop) s.

Definition str_slice (stop : Z) (s : Column) : Column :=
  mkColumn (col_label s) (col_dtype s)
    (map (fun c => match c with CStr v => CStr (slice0 stop v) | _ => CNaN end)
         (col_values s)).

(** How many columns carry the label: [df[col]] is a Series only if one does. *)
Definition occurrences (lbl : Label) (df : DataFrame) : nat :=
  length (filter (fun c => bool_decide (col_label c = lbl)) (df_columns df)).

Fixpoint for_each {A B} (f : A -> Outcome B) (l : list A) : Outcome (list B) :=
  match l with
  | [] => Return []
  | x :: l' =>
      match f x with
      | Raise e => Raise e
      | Return y =>
          match for_each f l' with
          | Raise e => Raise e
          | Return ys => Return (y :: ys)
          end
      end
  end.

Section Methods.
Context `{Collaborators}.

Definition dataframe : M state (option loc) :=
  zoom _core set_core SmartDataframeCore.dataframe.

Definition connector (self : state) : option loc :=
  SmartDataframeCore.connector (_core self).

Definition load_connector (temporary : bool) : M state unit :=
  zoom _core set_core (SmartDataframeCore.load_connector temporary).

(** [self.dataframe.columns]. *)
Definition columns_of {S} (r : option loc) : M S (list Label) :=
  h <- get_heap ;;
  match r with
  | Some l =>
      match deref h l with
      | ODataFrame df => ret (map col_label (df_columns df))
      | _ => raise AttributeError
      end
  | None => raise AttributeError
  end.

(** ["".join(labels)]: every item must be a [str]. *)
Fixpoint join (labels : list Label) : Outcome str :=
  match labels with
  | [] => Return []
  | LStr s :: rest =>
      match join rest with
      | Return t => Return (s ++ t)
      | Raise e => Raise e
      end
  | LInt _ :: _ => Raise TypeError
  end.

Definition column_hash : M state str :=
  self <- get_self ;;
  if negb (SmartDataframeCore._df_loaded (_core self))
     && bool_decide (connector self <> None)
  then
    c <- SmartDataframeCore.the_connector (connector self) ;;
    ret (conn_column_hash c)
  else
    r <- dataframe ;;
    columns <- columns_of r ;;
    columns_str <- call (join columns) ;;
    match encode columns_str with
    | Some bytes => ret (SHA256.hexdigest bytes)
    | None => raise UnicodeEncodeError
    end.

(** The pandas and modin branch of [_truncate_head_columns], for one column
    of the loop.  The f-string formats the sliced Series as a whole, and the
    assignment gives that one string to every row. *)
Definition truncate_column_eager (df : DataFrame) (max_size : Z) (col : Column)
  : Outcome Column :=
  if (1 <? occurrences (col_label col) df)%nat then
    Raise AttributeError                      (* df[col] is a DataFrame: no dtype *)
  else if bool_decide (col_dtype col = dtype_object) then
    match col_values col with
    | [] => Raise IndexError                  (* .iloc[0] *)
    | CStr first_val :: _ =>
        if max_size <? Z.of_nat (length first_val) then
          Return (mkColumn (col_label col) dtype_object
                    (repeat (CStr (series_str (str_slice (max_size - 3) col) ++ py "..."))
                            (df_rows df)))
        else Return col
    | _ :: _ => Return col
    end
  else Return col.

(** The polars branch: the test is on the length of the column, not of the
    first value, and a polars DataFrame refuses the item assignment
    [df_trunc[col] = ...] with a [TypeError].  On a column without rows
    [df[col][0]] is out of bounds, which polars reports as a ComputeError. *)
Definition truncate_column_polars (df : DataFrame) (max_size : Z) (col : Column)
  : Outcome Column :=
  if bool_decide (col_dtype col = dtype_Utf8) then
    match col_values col with
    | [] => Raise ComputeError                (* df[col][0] *)
    | CStr first_val :: _ =>
        if max_size <? Z.of_nat (length (col_values col)) then Raise TypeError
        else Return col
    | _ :: _ => Return col
    end
  else Return col.

Definition _truncate_head_columns (df : PyObj) (max_size : Z) : Outcome DataFrame :=
  match df_type df, df with
  | Some (pandas | modin), ODataFrame d =>
      match for_each (truncate_column_eager d max_size) (df_columns d) with
      | Return cols => Return (mkDataFrame (df_backend d) (df_rows d) cols)
      | Raise e => Raise e
      end
  | Some polars, ODataFrame d =>
      match for_each (truncate_column_polars d max_size) (df_columns d) with
      | Return cols => Return (mkDataFrame (df_backend d) (df_rows d) cols)
      | Raise e => Raise e
      end
  | _, _ => Raise UnsupportedEngine
  end.

(** [df.head(n)]. *)
Definition df_head (n : nat) (df : DataFrame) : DataFrame :=
  mkDataFrame (df_backend df) (Nat.min n (df_rows df))
    (map (fun c => mkColumn (col_label c) (col_dtype c) (firstn n (col_values c)))
         (df_columns df)).

(** The [custom_head] property: the stored CSV text, read again
    ([StringIO(None)] is an empty buffer). *)
Definition custom_head : M state DataFrame :=
  self <- get_self ;;
  call (read_csv_text (default [] (_custom_head self))).

Definition _get_sample_head : M state (option DataFrame) :=
  self <- get_self ;;
  let rows_to_display := if lake_config_enforce_privacy self then 0%nat else 3%nat in
  head <-
    (if bool_decide (_custom_head self <> None) then
       d <- custom_head ;; ret (Some d)
     else if negb (SmartDataframeCore._df_loaded (_core self))
             && bool_decide (connector self <> None)
     then
       c <- SmartDataframeCore.the_connector (connector self) ;;
       ret (conn_head c)
     else
       r <- dataframe ;;
       h <- get_heap ;;
       match r with
       | Some l =>
           match deref h l with
           | ODataFrame d => ret (Some (df_head rows_to_display d))
           | _ => raise AttributeError
           end
       | None => raise AttributeError
       end) ;;
  match head with
  | None => ret None
  | Some head =>
      let sampled_head := sample head rows_to_display in
      if lake_config_enforce_privacy self then
        ret (Some sampled_head)
      else
        d <- call (_truncate_head_columns (ODataFrame sampled_head) 25) ;;
        ret (Some d)
  end.

(** [self == other]. *)
Definition __eq__ (self : state) (other : Operand) (h : Heap) : Outcome bool :=
  match other with
  | a_SmartDataframe other =>
      if SmartDataframeCore.has_connector (_core self)
         && SmartDataframeCore.has_connector (_core other)
      then
        match connector self, connector other with
        | Some l1, Some l2 =>
            match deref h l1, deref h l2 with
            | OConnector c1, OConnector c2 => Return (connector_equals c1 c2)
            | _, _ => Raise AttributeError          (* no [equals] to call *)
            end
        | _, _ => Raise AttributeError
        end
      else Return false
  | another_object => Return false
  end.

Definition is_connector (self : state) : bool :=
  SmartDataframeCore.has_connector (_core self).

(** The strings the constructor takes for a path or a URL; any other
    string names a saved configuration. *)
Definition is_import_path (df : str) : bool :=
  endswith df (py ".csv") || endswith df (py ".parquet") || endswith df (py ".xlsx")
  || startswith df (py "https://docs.google.com/spreadsheets/").

(** [SmartDataframe(df, custom_head=..., config=...)], names and logging
    apart. *)
Definition __init__ (df : Value) (custom_head : option DataFrame) (enforce_privacy : bool)
  : M unit state :=
  df <-
    match df with
    | VStr name =>
        if is_import_path name then ret df
        else
          match load_from_config name with
          | None => raise ConfigNotFound
          | Some import_path =>
              if contains import_path (py "://") then
                c <- call (instantiate_connector import_path) ;;
                l <- alloc (OConnector c) ;;
                ret (VRef l)
              else ret (VStr import_path)
          end
    | _ => ret df
    end ;;
  core <- SmartDataframeCore.__init__ df ;;
  ret (mkSmartDataframe core (option_map to_csv custom_head) enforce_privacy).

End Methods.
End SmartDataframe.

(** ** States the properties speak of *)

Module Core := SmartDataframeCore.

(** The holder owns the DataFrame [d], at [l], and its engine tag is the one
    detected for [d]: what a successful load leaves. *)
Definition owns (self : Core.state) (h : Heap) (l : loc) (d : DataFrame) : Prop :=
  Core._df self = Some l /\ h !! l = Some (ODataFrame d)
  /\ Core._engine self = Some (df_backend d).

(** Loaded, for good or for one read. *)
Definition loaded (self : Core.state) (h : Heap) (l : loc) (d : DataFrame) : Prop :=
  Core._df_loaded self = true /\ owns self h l d.

(** The state [_unload_connector] leaves behind. *)
Definition unloaded (self : Core.state) : Core.state :=
  Core.mkCore None false false (Core._connector self) (Core._engine self).

(** The state after a read of [dataframe] in a loaded state. *)
Definition after_read (self : Core.state) : Core.state :=
  if Core.has_connector self && Core._temporary_loaded self
  then unloaded self else self.

(** The label of [col] names one column of [d], so that [d[col]] is a
    Series. *)
Definition occurrences_ok (d : DataFrame) (col : Column) : Prop :=
  (1 <? SmartDataframe.occurrences (col_label col) d)%nat = false.

(** The engine check of [_load_engine] lets the DataFrame [d] through: it is
    a polars one, or one of the configured pandas module. *)
Definition accepted `{Collaborators} (d : DataFrame) : bool :=
  bool_decide (df_backend d = polars) || bool_decide (df_backend d = eager_backend pd).

(** ** A small world to run the methods in

    The process uses pandas.  Each reader answers with a one-column table
    named after it, so that a result tells which reader was called; the only
    CSV text that can be read back is that of [names_head]; the sampler keeps
    the first [n] rows; a Series is printed one value per line. *)

Definition named_table (name : string) : DataFrame :=
  mkDataFrame pandas 1 [mkColumn (LStr (py name)) dtype_int64 [CInt 1]].

Definition names_head : DataFrame :=
  mkDataFrame pandas 2
    [mkColumn (LStr (py "name")) dtype_object [CStr (py "alice"); CStr (py "bob")]].

Definition names_csv : str := py "name" ++ [10%N] ++ py "alice" ++ [10%N] ++ py "bob" ++ [10%N].

Definition cell_str (c : Cell) : str :=
  match c with
  | CStr s => s
  | _ => py "NaN"
  end.

Definition demo : Collaborators.
Proof.
  refine {|
  pd := use_pandas;
  read_csv := fun _ => Return (named_table "read_csv");
  read_parquet := fun _ => Return (named_table "read_parquet");
  read_excel := fun _ => Return (named_table "read_excel");
  read_csv_text := fun text =>
    if decide (text = names_csv) then Return names_head else Raise (ExternalError 0);
  pd_DataFrame := fun r =>
    match r with
    | RawDict cols =>
        let n := from_option (fun c => length (snd c)) 0%nat (head cols) in
        if forallb (fun c => Nat.eqb (length (snd c)) n) cols
        then Some (mkDataFrame pandas n
                     (map (fun c => mkColumn (LStr (fst c)) dtype_object (snd c)) cols))
        else None
    | RawList rows =>
        let width := fold_right (fun r w => Nat.max (length r) w) 0%nat rows in
        Some (mkDataFrame pandas (length rows)
                (map (fun j => mkColumn (LInt (Z.of_nat j)) dtype_object
                                 (map (fun r => nth j r CNaN) rows))
                     (seq 0 width)))
    end;
  to_frame := fun s => mkDataFrame pandas (length (col_values s)) [s];
  to_csv := fun df => if decide (df = names_head) then names_csv else [];
  series_str := fun s => concat (map (fun c => cell_str c ++ [10%N]) (col_values s));
  from_google_sheets := fun _ => Return [named_table "from_google_sheets"];
  sample := fun df n => SmartDataframe.df_head n df;
  connector_equals := fun c1 c2 => Nat.eqb (conn_ident c1) (conn_ident c2);
  load_from_config := fun _ => None;
  instantiate_connector := fun _ => Raise (ExternalError 1);
  pd_makes_its_own := _
|}.
  intros d [(src & [Hd|[Hd|[Hd|Hd]]])|(data & Hd)]; cbn beta in Hd.
  - now injection Hd as <-.
  - now injection Hd as <-.
  - now injection Hd as <-.
  - destruct (decide (src = names_csv)); [now injection Hd as <-|discriminate].
  - destruct data as [rows|cols]; cbn beta iota zeta in Hd.
    + now injection Hd as <-.
    + destruct (forallb _ cols); [now injection Hd as <-|discriminate].
Defined.

(** Two tables of 40-character strings, a connector that serves the first,
    and a heap that holds them. *)
Definition forty (c : string) : str := concat (repeat (py c) 40).

Definition long_table (b : Backend) : DataFrame :=
  mkDataFrame b 2
    [mkColumn (LStr (py "text")) dtype_object [CStr (forty "a"); CStr (forty "b")];
     mkColumn (LStr (py "n")) dtype_int64 [CInt 1; CInt 2]].

Definition demo_connector : ConnectorData :=
  mkConnector (long_table pandas) (Some (long_table pandas)) (py "c0ffee") 7.

Definition demo_heap : Heap :=
  <[1%positive := ODataFrame (long_table pandas)]>
  (<[2%positive := ODataFrame (long_table modin)]>
  (<[3%positive := OConnector demo_connector]> ∅)).

(** Holders over that heap: one built on the connector and not loaded yet, the
    same after [load_connector(temporary=True)], one that owns the pandas
    table, and one whose [_df] is the modin table. *)
Definition on_connector : Core.state :=
  Core.mkCore None false false (Some 3%positive) None.

Definition loaded_once : Core.state :=
  Core.mkCore (Some 4%positive) true true (Some 3%positive) (Some pandas).

Definition loaded_once_heap : Heap :=
  <[4%positive := ODataFrame (long_table pandas)]> demo_heap.

Definition direct : Core.state :=
  Core.mkCore (Some 1%positive) true false None (Some pandas).

Definition holding_modin : Core.state :=
  Core.mkCore (Some 2%positive) true false None None.

Definition with_custom_head : SmartDataframe.state :=
  SmartDataframe.mkSmartDataframe direct (Some names_csv) true.

Definition plain (core : Core.state) : SmartDataframe.state :=
  SmartDataframe.mkSmartDataframe core None false.

(** A table with a column of dtype object whose one cell holds a list, the
    list at its place in a heap, and the table owned by [direct]. *)
Definition basket_table : DataFrame :=
  mkDataFrame pandas 1 [mkColumn (LStr (py "basket")) dtype_object [CObj 9%positive]].

Definition basket_heap : Heap :=
  <[1%positive := ODataFrame basket_table]> (<[9%positive := OList [CInt 1]]> ∅).

(** Two tables that differ by a column whose name is the empty string. *)
Definition table_a : DataFrame :=
  mkDataFrame pandas 1 [mkColumn (LStr (py "a")) dtype_int64 [CInt 1]].

Definition table_a_and_unnamed : DataFrame :=
  mkDataFrame pandas 1
    [mkColumn (LStr (py "a")) dtype_int64 [CInt 1];
     mkColumn (LStr (py "")) dtype_int64 [CInt 2]].

(** A table as [pd.DataFrame([[1, 2]])] makes it: the labels are 0 and 1. *)
Definition table_numbered : DataFrame :=
  mkDataFrame pandas 1
    [mkColumn (LInt 0) dtype_int64 [CInt 1];
     mkColumn (LInt 1) dtype_int64 [CInt 2]].

(** ** The truncation the specification describes

    Section 4.4, step 7: in a column whose first value is a string longer
    than the maximum, every value is replaced by its first [max - 3]
    characters followed by the ellipsis; other columns are left alone. *)
Definition spec_truncate_column (max_size : nat) (col : Column) : Column :=
  match col_values col with
  | CStr first_val :: _ =>
      if (max_size <? length first_val)%nat then
        mkColumn (col_label col) (col_dtype col)
          (map (fun c => match c with
                         | CStr v => CStr (firstn (max_size - 3) v ++ py "...")
                         | _ => c
                         end)
               (col_values col))
      else col
  | _ => col
  end.

Definition spec_truncate (max_size : nat) (df : DataFrame) : DataFrame :=
  mkDataFrame (df_backend df) (df_rows df)
    (map (spec_truncate_column max_size) (df_columns df)).

(** * The rest of the module

    The methods of [SmartDataframe] that read through the [dataframe]
    property, the parsing of a saved connector path, the cached heads,
    [__getattr__] and [load_smartdataframes]. *)

(** What [df[key] = value] assigns. *)
Inductive Assigned :=
| a_scalar (c : Cell)
| some_values (cs : list Cell).

(** The [connector_data] dict of [_instantiate_connector]; the key ["port"]
    is there only for a port that is not empty. *)
Record ConnectorConfig := mkConfig {
  cfg_host : str;
  cfg_database : str;
  cfg_table : str;
  cfg_port : option str
}.

(** What these methods call outside the module: two more answers of a
    connector, item assignment as the object's class does it (the object after
    the assignment, or the exception), the import of a connector class by
    name with its instantiation, and what Python and the table classes say of
    the attributes of an object. *)
Class Runtime := {
  conn_rows_count : ConnectorData -> Z;
  conn_columns_count : ConnectorData -> Z;
  obj_setitem : PyObj -> Label -> Assigned -> Outcome PyObj;
  import_and_instantiate : str -> ConnectorConfig -> Outcome ConnectorData;
  (** [object().__dir__()]: the names Python gives every object *)
  dir_of_object : list str;
  (** [obj.__dir__()] of what a read of [dataframe] returned, [None] included *)
  obj_dir : option PyObj -> list str;
  (** [getattr(obj, name)] on such an object *)
  obj_getattr : option PyObj -> str -> Outcome PyObj
}.

(** [s.partition(sep)]: the text before and after the first [sep]; [None]
    when there is none. *)
Fixpoint partition (sep s : str) : option (str * str) :=
  if startswith s sep then Some ([], drop (length sep) s)
  else match s with
       | [] => None
       | c :: s' =>
           match partition sep s' with
           | Some (before, after) => Some (c :: before, after)
           | None => None
           end
       end.

(** [s.split(sep)] for a separator that is not empty: at most [length s]
    cuts are there to make. *)
Fixpoint split_upto (cuts : nat) (sep s : str) : list str :=
  match cuts with
  | O => [s]
  | S cuts' =>
      match partition sep s with
      | Some (before, after) => before :: split_upto cuts' sep after
      | None => [s]
      end
  end.

Definition split (s sep : str) : list str := split_upto (length s) sep s.

(** [l[i]]. *)
Definition item {A} (l : list A) (i : nat) : Outcome A :=
  match l !! i with
  | Some x => Return x
  | None => Raise IndexError
  end.

Definition and_then {A B} (r : Outcome A) (k : A -> Outcome B) : Outcome B :=
  match r with
  | Return a => k a
  | Raise e => Raise e
  end.

(** The result of [rows_count] and [columns_count]: the count, or the
    [ValueError] ("Cannot determine ... No dataframe or connector loaded.")
    that the property raises itself. *)
Inductive Counted :=
| Count (n : Z)
| CannotDetermine.

(** [obj.shape[i]]. *)
Definition shape (o : PyObj) (i : nat) : Outcome Z :=
  match o with
  | ODataFrame d =>
      item [Z.of_nat (df_rows d); Z.of_nat (length (df_columns d))] i
  | OSeries s => item [Z.of_nat (length (col_values s))] i
  | _ => Raise AttributeError
  end.

(** [len(obj)]. *)
Definition len (o : option PyObj) : Outcome Z :=
  match o with
  | Some (ODataFrame d) => Return (Z.of_nat (df_rows d))
  | Some (OSeries s) => Return (Z.of_nat (length (col_values s)))
  | _ => Raise TypeError
  end.

(** The value of an attribute of the core. *)
Inductive CoreValue :=
| a_flag (b : bool)
| a_reference (r : option loc)
| a_tag (e : option Backend)
| a_bound_method (name : str)
| another_attribute (name : str).     (* the logger, and what Python provides *)

(** Where a read of an attribute found it: in the class, in the core or in
    the table, the two places [__getattr__] looks in. *)
Inductive Found (A : Type) :=
| from_the_class (a : A)
| from_the_core (v : CoreValue)
| from_the_dataframe (o : PyObj).
Arguments from_the_class {A} a.
Arguments from_the_core {A} v.
Arguments from_the_dataframe {A} o.

Module SmartDataframeMore.
Import SmartDataframe.

(** What [load_smartdataframes] is given. *)
Inductive Given :=
| is_SmartDataframe (s : state)
| anything_else (v : Value).

(** A SmartDataframe with what [cached_property] keeps in its [__dict__]. *)
Record Cached := mkCached {
  this : state;
  head_df_value : option (option DataFrame);
  head_csv_value : option str
}.

Definition set_this (s : state) (x : Cached) : Cached :=
  mkCached s (head_df_value x) (head_csv_value x).

Section Methods.
Context `{Collaborators} `{Runtime}.

(** The parsing of [_instantiate_connector]: the name of the connector class
    and the [connector_data]. *)
Definition connector_config (import_path : str) : Outcome (str * ConnectorConfig) :=
  and_then (item (split import_path (py "://")) 0) (fun connector_name =>
  and_then (item (split import_path (py "://")) 1) (fun connector_path =>
  and_then (item (split connector_path (py ":")) 0) (fun connector_host =>
  and_then (item (split connector_path (py ":")) 1) (fun after_host =>
  and_then (item (split after_host (py "/")) 0) (fun connector_port =>
  and_then (item (split after_host (py "/")) 1) (fun connector_database =>
  and_then (item (split after_host (py "/")) 2) (fun connector_table =>
  Return (connector_name,
          mkConfig connector_host connector_database connector_table
            (if bool_decide (connector_port = []) then None else Some connector_port))))))))).

Definition _instantiate_connector (import_path : str) : Outcome ConnectorData :=
  and_then (connector_config import_path) (fun '(connector_name, connector_data) =>
  import_and_instantiate connector_name connector_data).

(** The object a read of [dataframe] returned. *)
Definition read_object : M state (option PyObj) :=
  r <- dataframe ;;
  h <- get_heap ;;
  ret (option_map (deref h) r).

Definition rows_count : M state Counted :=
  self <- get_self ;;
  if SmartDataframeCore._df_loaded (_core self) then
    o <- read_object ;;
    match o with
    | Some o => n <- call (shape o 0) ;; ret (Count n)
    | None => raise AttributeError
    end
  else if bool_decide (connector self <> None) then
    c <- SmartDataframeCore.the_connector (connector self) ;;
    ret (Count (conn_rows_count c))
  else
    ret CannotDetermine.

Definition columns_count : M state Counted :=
  self <- get_self ;;
  if SmartDataframeCore._df_loaded (_core self) then
    o <- read_object ;;
    match o with
    | Some o => n <- call (shape o 1) ;; ret (Count n)
    | None => raise AttributeError
    end
  else if bool_decide (connector self <> None) then
    c <- SmartDataframeCore.the_connector (connector self) ;;
    ret (Count (conn_columns_count c))
  else
    ret CannotDetermine.

Definition __len__ : M state Z :=
  o <- read_object ;;
  call (len o).

(** [self.dataframe.__setitem__(key, value)]: the assignment is made on the
    object the read returned. *)
Definition __setitem__ (key : Label) (value : Assigned) : M state unit :=
  r <- dataframe ;;
  h <- get_heap ;;
  match r with
  | Some l =>
      o <- call (obj_setitem (deref h l) key value) ;;
      store l o
  | None => raise AttributeError
  end.

(** [head_df] and [head_csv] as [cached_property] makes them: what is kept
    in the instance comes first, and otherwise the function runs and what it
    returns is kept.  This is what the class has for the two names; a read
    of the attribute is [getattribute] below, which goes on to [__getattr__]
    when this raises AttributeError. *)
Definition head_df : M Cached (option DataFrame) :=
  x <- get_self ;;
  match head_df_value x with
  | Some v => ret v
  | None =>
      v <- zoom this set_this _get_sample_head ;;
      x <- get_self ;;
      put_self (mkCached (this x) (Some v) (head_csv_value x)) ;;
      ret v
  end.

Definition head_csv : M Cached str :=
  x <- get_self ;;
  match head_csv_value x with
  | Some v => ret v
  | None =>
      df_head <- zoom this set_this _get_sample_head ;;
      match df_head with
      | Some d =>
          x <- get_self ;;
          put_self (mkCached (this x) (head_df_value x) (Some (to_csv d))) ;;
          ret (to_csv d)
      | None => raise AttributeError
      end
  end.

(** *** Attributes the class does not find

    [name in self._core.__dir__()]: the names [SmartDataframeCore] gives its
    instances (class attributes, methods, properties), those Python gives the
    instances of a class, and those of every object. *)
Definition core_names : list str :=
  map py ["_df"; "_df_loaded"; "_temporary_loaded"; "_connector"; "_engine"; "_logger";
          "__init__"; "_load_dataframe"; "_import_from_file"; "_load_engine";
          "_validate_and_convert_dataframe"; "load_connector"; "_unload_connector";
          "dataframe"; "engine"; "connector"; "has_connector"]%string.

Definition instance_names : list str :=
  map py ["__module__"; "__dict__"; "__weakref__"; "__doc__"; "__annotations__"]%string.

Definition core_dir : list str := core_names ++ instance_names ++ dir_of_object.

(** [getattr(self._core, name)]: a field, the value of a property (the
    [dataframe] property reads as ever), a bound method, or something Python
    provides. *)
Definition core_getattr (name : str) : M SmartDataframeCore.state CoreValue :=
  self <- get_self ;;
  if bool_decide (name = py "_df") then ret (a_reference (SmartDataframeCore._df self))
  else if bool_decide (name = py "_df_loaded")
  then ret (a_flag (SmartDataframeCore._df_loaded self))
  else if bool_decide (name = py "_temporary_loaded")
  then ret (a_flag (SmartDataframeCore._temporary_loaded self))
  else if bool_decide (name = py "_connector")
  then ret (a_reference (SmartDataframeCore._connector self))
  else if bool_decide (name = py "_engine")
  then ret (a_tag (SmartDataframeCore._engine self))
  else if bool_decide (name = py "dataframe")
  then r <- SmartDataframeCore.dataframe ;; ret (a_reference r)
  else if bool_decide (name = py "engine")
  then ret (a_tag (SmartDataframeCore.engine self))
  else if bool_decide (name = py "connector")
  then ret (a_reference (SmartDataframeCore.connector self))
  else if bool_decide (name = py "has_connector")
  then ret (a_flag (SmartDataframeCore.has_connector self))
  else if bool_decide (name ∈ core_names) && negb (bool_decide (name = py "_logger"))
  then ret (a_bound_method name)
  else if bool_decide (name ∈ core_dir) then ret (another_attribute name)
  else raise AttributeError.

(** [self.dataframe], read as an attribute: the property of the class, and
    when it raises AttributeError [__getattr__], which finds the name in the
    core and reads the property there. *)
Definition the_dataframe : M Cached (option PyObj) :=
  fun st =>
    match zoom this set_this read_object st with
    | (Raise AttributeError, st') => zoom this set_this read_object st'
    | r => r
    end.

(** [__getattr__(name)], for a name whose lookup in the class is
    [__getattribute__]. *)
Definition __getattr__ {A} (name : str) (__getattribute__ : M Cached A)
  : M Cached (Found A) :=
  if bool_decide (name ∈ core_dir) then
    v <- zoom this set_this (zoom _core set_core (core_getattr name)) ;;
    ret (from_the_core v)
  else
    o <- the_dataframe ;;
    if bool_decide (name ∈ obj_dir o) then
      o' <- the_dataframe ;;
      v <- call (obj_getattr o' name) ;;
      ret (from_the_dataframe v)
    else
      a <- __getattribute__ ;;
      ret (from_the_class a).

(** [self.name]: the lookup in the class, and [__getattr__] when it raises
    AttributeError. *)
Definition getattribute {A} (name : str) (lookup : M Cached A) : M Cached (Found A) :=
  fun st =>
    match lookup st with
    | (Return a, st') => (Return (from_the_class a), st')
    | (Raise AttributeError, st') => __getattr__ name lookup st'
    | (Raise e, st') => (Raise e, st')
    end.

(** [self.head_df] and [self.head_csv]. *)
Definition get_head_df : M Cached (Found (option DataFrame)) :=
  getattribute (py "head_df") head_df.

Definition get_head_csv : M Cached (Found str) :=
  getattribute (py "head_csv") head_csv.

(** [load_smartdataframes(dfs, config)], with what the configuration says of
    privacy. *)
Fixpoint load_smartdataframes (dfs : list Given) (enforce_privacy : bool)
  : M unit (list state) :=
  match dfs with
  | [] => ret []
  | df :: rest =>
      smart_df <-
        match df with
        | anything_else v => SmartDataframe.__init__ v None enforce_privacy
        | is_SmartDataframe s => ret s
        end ;;
      smart_dfs <- load_smartdataframes rest enforce_privacy ;;
      ret (smart_df :: smart_dfs)
  end.

End Methods.
End SmartDataframeMore.

Module More := SmartDataframeMore.

(** The SmartDataframes [load_smartdataframes] has to make of the items, from
    first to last, each constructed in the heap the one before left: [out] in
    the heap [h], leaving [h']. *)
Fixpoint constructed_in_order `{Collaborators} (p : bool) (dfs : list More.Given)
    (out : list SmartDataframe.state) (h h' : Heap) : Prop :=
  match dfs, out with
  | [], [] => h' = h
  | More.is_SmartDataframe s0 :: dfs', s :: out' =>
      s = s0 /\ constructed_in_order p dfs' out' h h'
  | More.anything_else v :: dfs', s :: out' =>
      exists h1, SmartDataframe.__init__ v None p (tt, h) = (Return s, (tt, h1))
                 /\ constructed_in_order p dfs' out' h1 h'
  | _, _ => False
  end.

(** [n] reads of [dataframe], one after the other: the state they leave. *)
Fixpoint read_times `{Collaborators} (n : nat) (st : Core.state * Heap)
  : Core.state * Heap :=
  match n with
  | O => st
  | S n' => snd (Core.dataframe (read_times n' st))
  end.

(** A holder that is not loaded and has the connector [c], at [lc]. *)
Definition deferred (self : Core.state) (h : Heap) (lc : loc) (c : ConnectorData) : Prop :=
  Core._df_loaded self = false /\ Core._connector self = Some lc
  /\ h !! lc = Some (OConnector c).

(** Every column has one value per row. *)
Definition rectangular (d : DataFrame) : Prop :=
  Forall (fun col => length (col_values col) = df_rows d) (df_columns d).

(** A digit of lowercase hexadecimal. *)
Definition is_hex_digit (c : N) : bool :=
  ((48 <=? c) && (c <=? 57) || (97 <=? c) && (c <=? 102))%N.

(** [df[key] = values] on a table: the column is replaced, or added at the
    end. *)
Definition set_column (d : DataFrame) (key : Label) (values : list Cell) : DataFrame :=
  let col := mkColumn key dtype_object values in
  mkDataFrame (df_backend d) (df_rows d)
    (if existsb (fun c => bool_decide (col_label c = key)) (df_columns d)
     then map (fun c => if bool_decide (col_label c = key) then col else c) (df_columns d)
     else df_columns d ++ [col]).

(** The small world goes on: the connector knows its counts, item assignment
    is that of a table with a scalar spread over the rows, one connector
    class can be imported, and a table has its columns for attributes. *)
Definition object_names : list str :=
  map py ["__class__"; "__delattr__"; "__dir__"; "__doc__"; "__eq__"; "__format__";
          "__ge__"; "__getattribute__"; "__gt__"; "__hash__"; "__init__";
          "__init_subclass__"; "__le__"; "__lt__"; "__ne__"; "__new__"; "__reduce__";
          "__reduce_ex__"; "__repr__"; "__setattr__"; "__sizeof__"; "__str__";
          "__subclasshook__"]%string.

Definition demo_runtime : Runtime := {|
  conn_rows_count := fun _ => 1000;
  conn_columns_count := fun _ => 2;
  obj_setitem := fun o key value =>
    match o with
    | ODataFrame d =>
        let values := match value with
                      | a_scalar c => repeat c (df_rows d)
                      | some_values cs => cs
                      end in
        if Nat.eqb (length values) (df_rows d)
        then Return (ODataFrame (set_column d key values))
        else Raise (ExternalError 2)
    | _ => Raise TypeError
    end;
  import_and_instantiate := fun name cfg =>
    if decide (name = py "PostgreSQLConnector") then Return demo_connector
    else Raise AttributeError;
  dir_of_object := object_names;
  obj_dir := fun o =>
    match o with
    | None => py "__bool__" :: object_names
    | Some (ODataFrame d) =>
        object_names
        ++ flat_map (fun c => match col_label c with LStr s => [s] | LInt _ => [] end)
             (df_columns d)
    | Some _ => object_names
    end;
  obj_getattr := fun o name =>
    match o with
    | Some (ODataFrame d) =>
        match filter (fun c => bool_decide (col_label c = LStr name)) (df_columns d) with
        | c :: _ => Return (OSeries c)
        | [] => Raise AttributeError
        end
    | _ => Raise AttributeError
    end
|}.

(** What a column that went through the truncation has of the column it
    comes from. *)
Definition kept (d : DataFrame) (c c' : Column) : Prop :=
  col_label c' = col_label c /\ col_dtype c' = col_dtype c
  /\ (length (col_values c) = df_rows d -> length (col_values c') = df_rows d)
  /\ (col_dtype c <> dtype_object -> c' = c).

(** The second half of [_get_sample_head]: what it makes of the base
    preview. *)
Definition sampled `{Collaborators} (enforce_privacy : bool) (head : option DataFrame)
  : Outcome (option DataFrame) :=
  match head with
  | None => Return None
  | Some head =>
      if enforce_privacy then Return (Some (sample head 0))
      else match SmartDataframe._truncate_head_columns (ODataFrame (sample head 3)) 25 with
           | Return t => Return (Some t)
           | Raise e => Raise e
           end
  end.

(** A table in which two columns carry the same label, which the truncation
    cannot handle ([df[col]] is then a DataFrame and has no [dtype]); a
    connector that serves it, with a preview that has no such columns; and a
    holder loaded from it for one use. *)
Definition twin_table : DataFrame :=
  mkDataFrame pandas 1
    [mkColumn (LStr (py "text")) dtype_object [CStr (py "a")];
     mkColumn (LStr (py "text")) dtype_object [CStr (py "b")]].

Definition twin_connector : ConnectorData :=
  mkConnector twin_table (Some names_head) (py "bead") 9.

Definition twin_heap : Heap :=
  <[2%positive := ODataFrame twin_table]> (<[1%positive := OConnector twin_connector]> ∅).

Definition twin_loaded_once : Core.state :=
  Core.mkCore (Some 2%positive) true true (Some 1%positive) (Some pandas).

(** A connector whose table is a modin one, in a heap with the others, and a
    holder that owns the pandas table and has that connector. *)
Definition modin_connector : ConnectorData :=
  mkConnector (long_table modin) None (py "decaf") 8.

Definition modin_heap : Heap :=
  <[5%positive := OConnector modin_connector]> demo_heap.

Definition on_modin_connector : Core.state :=
  Core.mkCore (Some 1%positive) true false (Some 5%positive) (Some pandas).

(** The separators of an import path. *)
Definition colon : N := 58.
Definition slash : N := 47.

(** A world with saved configurations, in which the connector of an import
    path is made by [_instantiate_connector] itself. *)
Definition saved : Collaborators := {|
  pd := @pd demo;
  read_csv := @read_csv demo;
  read_parquet := @read_parquet demo;
  read_excel := @read_excel demo;
  read_csv_text := @read_csv_text demo;
  pd_DataFrame := @pd_DataFrame demo;
  to_frame := @to_frame demo;
  to_csv := @to_csv demo;
  series_str := @series_str demo;
  from_google_sheets := @from_google_sheets demo;
  sample := @sample demo;
  connector_equals := @connector_equals demo;
  load_from_config := fun name =>
    if decide (name = py "sheet") then Some (py "https://docs.google.com/spreadsheets/d/1")
    else if decide (name = py "orders")
    then Some (py "PostgreSQLConnector://localhost:5432/shop/orders")
    else if decide (name = py "names") then Some (py "names.csv")
    else None;
  instantiate_connector := @More._instantiate_connector demo_runtime;
  pd_makes_its_own := @pd_makes_its_own demo
|}.


(** * Properties *)

(** ** SHA-256 on the standard test vectors *)

Example sha256_empty :
  SHA256.hexdigest [] =
  py "e3b0c44298fc1c149afbf4c8996fb92427ae41e4649b934ca495991b7852b855".
Proof. vm_compute. reflexivity. Qed.

Example sha256_abc :
  option_map SHA256.hexdigest (encode (py "abc")) =
  Some (py "ba7816bf8f01cfea414140de5dae2223b00361a396177a9cb410ff61f20015ad").
Proof. vm_compute. reflexivity. Qed.

(** Padding at the block boundary: 55 bytes fill one block, 56 need two. *)
Example sha256_55_bytes :
  option_map SHA256.hexdigest (encode (repeat 97%N 55)) =
  Some (py "9f4390f8d30c2dd92ec9f095b65e2b9ae9b0a925a5258e241c9f1e910f734318").
Proof. vm_compute. reflexivity. Qed.

Example sha256_56_bytes :
  option_map SHA256.hexdigest
    (encode (py "abcdbcdecdefdefgefghfghighijhijkijkljklmklmnlmnomnopnopq")) =
  Some (py "248d6a61d20638b8e5c026930c3e6039a33ce45964ff2167f6ecedd419db06c1").
Proof. vm_compute. reflexivity. Qed.

(** Two blocks, and characters of two, three and four bytes. *)
Example sha256_two_blocks :
  option_map SHA256.hexdigest (encode (repeat 97%N 70)) =
  Some (py "6bd5e5034855a11241f0dee8fc72850ffd9955b28347a86428b5fa19119f6ad0").
Proof. vm_compute. reflexivity. Qed.

Example sha256_utf8 :
  option_map SHA256.hexdigest (encode [104; 233; 108; 108; 111; 8364; 128512]%N) =
  Some (py "c522fff833fdac5d233c5d62b4574ae1890d9b2f49db11bd21185e0e234ffc34").
Proof. vm_compute. reflexivity. Qed.

(** ** The heap and the method combinators *)

Lemma fresh_unused (h : gmap loc PyObj) : h !! fresh (dom h) = None.
Proof. apply not_elem_of_dom, is_fresh. Qed.

Lemma fresh_differs (h : gmap loc PyObj) (l : loc) (o : PyObj) :
  h !! l = Some o -> fresh (dom h) <> l.
Proof. intros Hl Heq. rewrite <- Heq, fresh_unused in Hl. discriminate. Qed.

Lemma deref_lookup (h : gmap loc PyObj) (l : loc) (o : PyObj) :
  h !! l = Some o -> deref h l = o.
Proof. intros Hl. unfold deref. now rewrite Hl. Qed.

(** Unfolding the plumbing of a method, down to its case analyses. *)
Ltac run :=
  unfold Core.assign, call_method, bind, ret, raise, call, get_self, put_self,
    get_heap, alloc, zoom, construct in *; cbn [fst snd] in *.

(** A closed statement that can be decided. *)
Ltac absent := apply (bool_decide_unpack _); vm_compute; exact I.

Section Properties.
Context `{Collaborators}.

(** ** Reading [dataframe] *)

(** A copy of a DataFrame by the method its engine tag selects. *)
Lemma copy_by_engine (d : DataFrame) :
  match df_backend d with
  | polars => method_clone (ODataFrame d)
  | pandas | modin => method_copy (ODataFrame d)
  end = Some (ODataFrame d).
Proof. unfold method_clone, method_copy. now destruct (df_backend d). Qed.

(** In a loaded state a read returns a new object holding the owned table,
    and unloads when the load was for one use. *)
Lemma dataframe_loaded self h l d :
  loaded self h l d ->
  Core.dataframe (self, h) =
    (Return (Some (fresh (dom h))),
     (after_read self, <[fresh (dom h) := ODataFrame d]> h)).
Proof.
  intros (Hld & Hdf & Hl & Heng).
  pose proof (copy_by_engine d) as Hcopy.
  unfold Core.dataframe, after_read, Core._unload_connector. run.
  rewrite Hld, Heng, Hdf.
  destruct (df_backend d); cbn; rewrite (deref_lookup _ _ _ Hl), Hcopy; cbn;
    destruct (Core.has_connector self), (Core._temporary_loaded self); reflexivity.
Qed.

(** In an unloaded state a read returns nothing and changes nothing. *)
Lemma dataframe_unloaded self h :
  Core._df_loaded self = false ->
  Core.dataframe (self, h) = (Return None, (self, h)).
Proof.
  intros Hld. unfold Core.dataframe. run. rewrite Hld.
  now destruct (Core.has_connector self).
Qed.

(** Changing other objects of the heap leaves a loaded state loaded. *)
Lemma loaded_frame self h l d l' o :
  loaded self h l d -> l' <> l -> loaded self (<[l' := o]> h) l d.
Proof.
  intros (Hld & Hdf & Hl & Heng) Hne. repeat split; try assumption.
  now rewrite lookup_insert_ne.
Qed.

(** ** Engine detection and validation *)

Lemma load_engine_table self h l d :
  Core._df self = Some l -> h !! l = Some (ODataFrame d) ->
  Core._load_engine (self, h) =
    if accepted d
    then (Return tt, (Core.set_engine (Some (df_backend d)) self, h))
    else (Raise EngineMismatch, (self, h)).
Proof.
  intros Hdf Hl. unfold Core._load_engine, accepted. run.
  rewrite Hdf, (deref_lookup _ _ _ Hl). cbn.
  destruct (df_backend d), pd; reflexivity.
Qed.

Lemma load_engine_other self h l o :
  Core._df self = Some l -> h !! l = Some o -> df_type o = None ->
  Core._load_engine (self, h) = (Raise UnrecognizedEngine, (self, h)).
Proof.
  intros Hdf Hl Hty. unfold Core._load_engine. run.
  now rewrite Hdf, (deref_lookup _ _ _ Hl), Hty.
Qed.

Lemma accepted_iff d :
  accepted d = true <-> df_backend d = polars \/ df_backend d = eager_backend pd.
Proof.
  unfold accepted. rewrite orb_true_iff, !bool_decide_eq_true. tauto.
Qed.

(** Assigning an object goes straight to the engine check. *)
Lemma dataframe_setter_ref self h l :
  Core.dataframe_setter (VRef l) (self, h) =
  Core._load_engine (Core.set_df (Some l) self, h).
Proof.
  unfold Core.dataframe_setter, Core._validate_and_convert_dataframe. run.
  now destruct (Core._load_engine _) as [[] ?].
Qed.

Lemma dataframe_setter_none self h :
  Core.dataframe_setter VNone (self, h) = (Return tt, (Core.set_df None self, h)).
Proof. reflexivity. Qed.

(** ** Loading from the connector *)

Lemma load_connector_run self h lc c temporary :
  Core._connector self = Some lc -> h !! lc = Some (OConnector c) ->
  let l := fresh (dom h) in
  let h1 := <[l := ODataFrame (conn_execute c)]> h in
  Core.load_connector temporary (self, h) =
    if accepted (conn_execute c)
    then (Return tt,
          (Core.mkCore (Some l) true temporary (Some lc)
             (Some (df_backend (conn_execute c))), h1))
    else (Raise EngineMismatch, (Core.set_df (Some l) self, h1)).
Proof.
  intros Hc Hlc l h1. unfold Core.load_connector, Core.the_connector, Core.connector.
  unfold bind at 1 2 3 4. unfold get_self, get_heap at 1, alloc. cbn [fst snd].
  rewrite Hc, (deref_lookup _ _ _ Hlc). unfold ret at 1. cbn [fst snd].
  fold l. fold h1. unfold bind at 1. rewrite dataframe_setter_ref.
  rewrite (load_engine_table _ h1 l (conn_execute c)).
  - destruct (accepted (conn_execute c)); [|reflexivity].
    unfold Core.set_engine, Core.set_df. cbn. now rewrite Hc.
  - reflexivity.
  - subst h1. apply lookup_insert_eq.
Qed.

(** Without a connector there is nothing to load from, so the flag for a
    one-use load is only ever set on a holder that has one. *)
Lemma load_connector_needs_connector self h temporary :
  Core._connector self = None ->
  Core.load_connector temporary (self, h) = (Raise AttributeError, (self, h)).
Proof.
  intros Hc. unfold Core.load_connector, Core.the_connector, Core.connector. run.
  now rewrite Hc.
Qed.

(** C1: after [load_connector(temporary=True)] on a holder that has a
    connector, the first read of [dataframe] returns a new object holding the
    table the connector produced, and leaves the holder unloaded: the table is
    dropped after the result is made.  The second read returns nothing and
    changes nothing, so every later read does the same.  The connector stays
    in place throughout, and [has_connector] stays true. *)
Theorem temporary_load_serves_one_read self h lc c self1 h1 :
  Core._connector self = Some lc -> h !! lc = Some (OConnector c) ->
  Core.load_connector true (self, h) = (Return tt, (self1, h1)) ->
  exists l h2,
    Core.dataframe (self1, h1) = (Return (Some l), (unloaded self1, h2))
    /\ h2 !! l = Some (ODataFrame (conn_execute c))
    /\ Core.dataframe (unloaded self1, h2) = (Return None, (unloaded self1, h2))
    /\ Core._df (unloaded self1) = None
    /\ Core.has_connector (unloaded self1) = true
    /\ Core._connector (unloaded self1) = Some lc
    /\ h2 !! lc = Some (OConnector c).
Proof.
  intros Hc Hlc Hload.
  rewrite (load_connector_run self h lc c true Hc Hlc) in Hload.
  destruct (accepted (conn_execute c)); [|discriminate].
  injection Hload as <- <-.
  set (l := fresh (dom h)).
  set (h1 := <[l := ODataFrame (conn_execute c)]> h).
  set (self1 := Core.mkCore (Some l) true true (Some lc) _).
  assert (Hloaded : loaded self1 h1 l (conn_execute c)).
  { repeat split. subst h1. apply lookup_insert_eq. }
  exists (fresh (dom h1)), (<[fresh (dom h1) := ODataFrame (conn_execute c)]> h1).
  rewrite (dataframe_loaded _ _ _ _ Hloaded).
  split; [reflexivity|].
  split; [apply lookup_insert_eq|].
  split; [now apply dataframe_unloaded|].
  do 3 (split; [reflexivity|]).
  rewrite lookup_insert_ne.
  - subst h1. rewrite lookup_insert_ne; [assumption|].
    apply (fresh_differs _ _ _ Hlc).
  - apply (fresh_differs h1 lc (OConnector c)).
    subst h1. rewrite lookup_insert_ne; [assumption|].
    apply (fresh_differs _ _ _ Hlc).
Qed.

(** The load itself goes through whenever the connector's table passes the
    engine check. *)
Lemma temporary_load_succeeds self h lc c temporary :
  Core._connector self = Some lc -> h !! lc = Some (OConnector c) ->
  accepted (conn_execute c) = true ->
  fst (Core.load_connector temporary (self, h)) = Return tt.
Proof.
  intros Hc Hlc Hok. rewrite (load_connector_run self h lc c temporary Hc Hlc).
  now rewrite Hok.
Qed.

(** What a table shows depends on the heap only through the objects its
    cells refer to. *)
Lemma table_shows_same h1 h2 d :
  (forall r, In r (cell_refs d) -> deref h1 r = deref h2 r) ->
  table_shows h1 d = table_shows h2 d.
Proof.
  intros Hsame. unfold table_shows. apply List.map_ext_in. intros col Hcol.
  f_equal. apply List.map_ext_in. intros c Hc.
  destruct c as [s|z| |r]; try reflexivity. cbn [cell_shows]. f_equal.
  apply Hsame. unfold cell_refs. apply List.in_flat_map. exists col. split; [assumption|].
  apply List.in_flat_map. exists (CObj r). split; [assumption|now left].
Qed.

Lemma table_shows_differ h1 h2 d r :
  In r (cell_refs d) -> deref h1 r <> deref h2 r ->
  table_shows h1 d <> table_shows h2 d.
Proof.
  intros Hin Hne Heq. unfold cell_refs in Hin.
  apply List.in_flat_map in Hin as (col & Hcol & Hin).
  apply List.in_flat_map in Hin as (c & Hc & Hr).
  unfold table_shows in Heq.
  pose proof (proj1 List.map_ext_in_iff Heq col Hcol) as Hrow.
  injection Hrow as Hrow.
  pose proof (proj1 List.map_ext_in_iff Hrow c Hc) as Hcell.
  destruct c as [s|z| |r0]; cbn in Hr; try contradiction.
  destruct Hr as [<-|[]]. cbn [cell_shows] in Hcell. now injection Hcell.
Qed.

(** C2, as the code has it: in a loaded state a read of [dataframe] returns
    a new object, at a location that was not in use and so is not the owned
    table's, holding the copy that [clone()] (polars) or [copy()] (pandas,
    modin) makes of the owned table.  Whatever the caller then puts in place of
    the returned object, the owned table is as it was and shows what it
    showed, and the next read returns nothing after a load for one use, and
    otherwise again a new object holding the owned table, in a state that is
    loaded as before: so it is with every later read.  The copy is not deep
    for the objects that cells of dtype object refer to: the returned table
    refers to the very objects the owned table refers to, so when the caller
    changes one of them in place the owned table shows the change, and so
    does the table a later read returns. *)
Theorem dataframe_read_is_a_copy self h l d :
  loaded self h l d ->
  exists l',
    Core.dataframe (self, h) =
      (Return (Some l'), (after_read self, <[l' := ODataFrame d]> h))
    /\ match df_backend d with
       | polars => method_clone (ODataFrame d)
       | pandas | modin => method_copy (ODataFrame d)
       end = Some (ODataFrame d)
    /\ l' <> l /\ h !! l' = None
    /\ (forall o' : PyObj,
         let h' := <[l' := o']> (<[l' := ODataFrame d]> h) in
         h' !! l = Some (ODataFrame d)
         /\ ((forall r, In r (cell_refs d) -> is_Some (h !! r)) ->
             table_shows h' d = table_shows h d)
         /\ forall r self'' h'',
              Core.dataframe (after_read self, h') = (r, (self'', h'')) ->
              if Core.has_connector self && Core._temporary_loaded self
              then r = Return None
              else exists l'', r = Return (Some l'')
                   /\ h'' !! l'' = Some (ODataFrame d) /\ l'' <> l' /\ l'' <> l
                   /\ loaded self'' h'' l d)
    /\ (forall r o o',
         In r (cell_refs d) -> h !! r = Some o -> r <> l -> o' <> o ->
         let h1 := <[l' := ODataFrame d]> h in
         let h2 := <[r := o']> h1 in
         h1 !! l' = Some (ODataFrame d)
         /\ cell_shows h1 (CObj r) = inr o
         /\ h2 !! l = Some (ODataFrame d)
         /\ table_shows h2 d <> table_shows h1 d
         /\ forall rr self'' h'',
              Core.dataframe (after_read self, h2) = (rr, (self'', h'')) ->
              if Core.has_connector self && Core._temporary_loaded self
              then rr = Return None
              else exists l'', rr = Return (Some l'')
                   /\ h'' !! l'' = Some (ODataFrame d)
                   /\ cell_shows h'' (CObj r) = inr o'
                   /\ table_shows h'' d <> table_shows h d).
Proof.
  intros Hloaded. exists (fresh (dom h)).
  pose proof Hloaded as (Hld & Hdf & Hl & Heng).
  pose proof (fresh_differs _ _ _ Hl) as Hne.
  split; [now apply (dataframe_loaded self h l d)|].
  split; [apply copy_by_engine|].
  split; [assumption|]. split; [apply fresh_unused|].
  split.
  - intros o' h'.
    assert (Hl' : h' !! l = Some (ODataFrame d)).
    { subst h'. now rewrite !lookup_insert_ne by assumption. }
    split; [assumption|]. split.
    + intros Hrefs. apply table_shows_same. intros r Hr.
      destruct (Hrefs r Hr) as [o Ho]. pose proof (fresh_differs _ _ _ Ho) as Hr'.
      subst h'. unfold deref. now rewrite !lookup_insert_ne by assumption.
    + intros r self'' h'' Hread. unfold after_read in Hread.
      destruct (Core.has_connector self && Core._temporary_loaded self) eqn:Honce.
      * rewrite dataframe_unloaded in Hread by reflexivity. congruence.
      * assert (Hloaded' : loaded self h' l d) by (repeat split; assumption).
        rewrite (dataframe_loaded _ _ _ _ Hloaded') in Hread.
        injection Hread as <- <- <-. exists (fresh (dom h')).
        pose proof (fresh_differs _ _ _ Hl') as Hne'.
        split; [reflexivity|].
        split; [apply lookup_insert_eq|].
        split; [apply (fresh_differs h' _ o'); subst h'; apply lookup_insert_eq|].
        split; [assumption|].
        unfold after_read. rewrite Honce. now apply loaded_frame.
  - intros r o o' Hr Ho Hrl Hoo h1 h2.
    pose proof (fresh_differs _ _ _ Ho) as Hr'.
    assert (Hr1 : h1 !! r = Some o) by (subst h1; now rewrite lookup_insert_ne).
    assert (Hr2 : h2 !! r = Some o') by (subst h2; apply lookup_insert_eq).
    assert (Hl2 : h2 !! l = Some (ODataFrame d)).
    { subst h2 h1. now rewrite !lookup_insert_ne by congruence. }
    split; [subst h1; apply lookup_insert_eq|].
    split; [cbn [cell_shows]; now rewrite (deref_lookup _ _ _ Hr1)|].
    split; [assumption|]. split.
    + apply not_eq_sym, (table_shows_differ h1 h2 d r Hr).
      rewrite (deref_lookup _ _ _ Hr1), (deref_lookup _ _ _ Hr2). congruence.
    + intros rr self'' h'' Hread. unfold after_read in Hread.
      destruct (Core.has_connector self && Core._temporary_loaded self) eqn:Honce.
      * rewrite dataframe_unloaded in Hread by reflexivity. congruence.
      * assert (Hloaded2 : loaded self h2 l d) by (repeat split; assumption).
        rewrite (dataframe_loaded _ _ _ _ Hloaded2) in Hread.
        injection Hread as <- <- <-. exists (fresh (dom h2)).
        pose proof (fresh_differs _ _ _ Hr2) as Hr''.
        assert (Hr3 : <[fresh (dom h2) := ODataFrame d]> h2 !! r = Some o')
          by now rewrite lookup_insert_ne.
        split; [reflexivity|]. split; [apply lookup_insert_eq|].
        split; [cbn [cell_shows]; now rewrite (deref_lookup _ _ _ Hr3)|].
        apply (table_shows_differ _ _ d r Hr).
        rewrite (deref_lookup _ _ _ Hr3), (deref_lookup _ _ _ Ho). congruence.
Qed.

(** C8: for the object held in [_df], detection gives the tag of its
    DataFrame class, one of pandas, modin and polars, and fails with
    UnrecognizedEngine for an object of any other class.  Validation fails
    with EngineMismatch exactly when the tag is not polars and the table is
    not a DataFrame of the configured pandas module; otherwise the tag
    becomes the engine.  A polars table always passes. *)
Theorem engine_detection_and_validation self h l o :
  Core._df self = Some l -> h !! l = Some o ->
  match o with
  | ODataFrame d =>
      df_type o = Some (df_backend d)
      /\ (Core._load_engine (self, h) = (Raise EngineMismatch, (self, h))
          <-> df_backend d <> polars /\ df_backend d <> eager_backend pd)
      /\ (Core._load_engine (self, h) =
            (Return tt, (Core.set_engine (Some (df_backend d)) self, h))
          <-> df_backend d = polars \/ df_backend d = eager_backend pd)
      /\ (df_backend d = polars -> fst (Core._load_engine (self, h)) = Return tt)
  | _ =>
      df_type o = None
      /\ Core._load_engine (self, h) = (Raise UnrecognizedEngine, (self, h))
  end.
Proof.
  intros Hdf Hl.
  destruct o as [d|s|c|items|cp cl];
    try (split; [reflexivity|]; now apply (load_engine_other self h l _ Hdf Hl)).
  rewrite (load_engine_table _ _ _ _ Hdf Hl).
  pose proof (accepted_iff d) as Hacc.
  destruct (accepted d).
  - assert (Hok : df_backend d = polars \/ df_backend d = eager_backend pd) by now apply Hacc.
    split; [reflexivity|]. split; [|split].
    + split; [discriminate|]. intros [? ?]. tauto.
    + split; [now intros _|reflexivity].
    + reflexivity.
  - assert (Hno : ~ (df_backend d = polars \/ df_backend d = eager_backend pd)).
    { intros Hok. apply Hacc in Hok. discriminate. }
    split; [reflexivity|]. split; [|split].
    + split; [|reflexivity]. intros _. tauto.
    + split; [discriminate|]. intros Hok. tauto.
    + intros Hp. tauto.
Qed.

(** ** A load that fails *)

Lemma load_engine_raises self h e self' h' :
  Core._load_engine (self, h) = (Raise e, (self', h')) ->
  self' = self /\ h' = h /\ (e = UnrecognizedEngine \/ e = EngineMismatch).
Proof.
  unfold Core._load_engine. run.
  destruct (Core._df self) as [l|]; [|intros [= <- <- <-]; tauto].
  destruct (df_type (deref h l)) as [b|]; [|intros [= <- <- <-]; tauto].
  destruct (_ && _); [intros [= <- <- <-]; tauto|discriminate].
Qed.

Lemma load_engine_returns self h u self' h' :
  Core._load_engine (self, h) = (Return u, (self', h')) ->
  exists b, self' = Core.set_engine (Some b) self /\ h' = h.
Proof.
  unfold Core._load_engine. run.
  destruct (Core._df self) as [l|]; [|discriminate].
  destruct (df_type (deref h l)) as [b|]; [|discriminate].
  destruct (_ && _); [discriminate|]. intros [= <- <- <-]. now exists b.
Qed.

(** Normalisation works on the heap alone. *)
Lemma validate_and_convert_self v self h r self' h' :
  Core._validate_and_convert_dataframe v (self, h) = (r, (self', h')) -> self' = self.
Proof.
  unfold Core._validate_and_convert_dataframe. run.
  destruct v as [|s|raw|l].
  - now intros [= <- <- <-].
  - destruct (Core._import_from_file s); now intros [= <- <- <-].
  - destruct (pd_DataFrame raw); now intros [= <- <- <-].
  - now intros [= <- <- <-].
Qed.

(** A normalisation that fails has allocated nothing. *)
Lemma validate_and_convert_raises v self h e self' h' :
  Core._validate_and_convert_dataframe v (self, h) = (Raise e, (self', h')) ->
  self' = self /\ h' = h.
Proof.
  unfold Core._validate_and_convert_dataframe. run.
  destruct v as [|s|raw|l]; try discriminate.
  - destruct (Core._import_from_file s); [discriminate|now intros [= <- <- <-]].
  - destruct (pd_DataFrame raw); [discriminate|now intros [= <- <- <-]].
Qed.

(** What the engine check has found when it raises. *)
Lemma load_engine_rejects self h l e self' h' :
  Core._df self = Some l ->
  Core._load_engine (self, h) = (Raise e, (self', h')) ->
  self' = self /\ h' = h
  /\ ((e = UnrecognizedEngine /\ df_type (deref h l) = None)
      \/ (e = EngineMismatch
          /\ exists d, h !! l = Some (ODataFrame d) /\ accepted d = false)).
Proof.
  intros Hdf. unfold Core._load_engine. run. rewrite Hdf. unfold deref.
  destruct (h !! l) as [[d|s|c|items|cp cl]|] eqn:Hl; cbn;
    try (intros [= <- <- <-]; split; [reflexivity|]; split; [reflexivity|];
         left; now split).
  unfold Core.isinstance_pd_DataFrame.
  destruct (bool_decide (df_backend d = polars)) eqn:Hp.
  - apply bool_decide_eq_true in Hp.
    rewrite (bool_decide_eq_false_2 (df_backend d <> polars)) by tauto. discriminate.
  - rewrite (bool_decide_eq_true_2 (df_backend d <> polars))
      by now apply bool_decide_eq_false in Hp.
    destruct (bool_decide (df_backend d = eager_backend pd)) eqn:He; cbn; [discriminate|].
    intros [= <- <- <-]. split; [reflexivity|]. split; [reflexivity|].
    right. split; [reflexivity|]. exists d. split; [reflexivity|].
    unfold accepted. now rewrite Hp, He.
Qed.

(** A failed assignment, by the step that failed: the normalisation, before
    anything is assigned, or the engine check, after the assignment. *)
Lemma dataframe_setter_raises v self h e self' h' :
  Core.dataframe_setter v (self, h) = (Raise e, (self', h')) ->
  (Core._validate_and_convert_dataframe v (self, h) = (Raise e, (self, h))
   /\ self' = self /\ h' = h)
  \/ (exists l,
        Core._validate_and_convert_dataframe v (self, h) = (Return (Some l), (self, h'))
        /\ self' = Core.set_df (Some l) self
        /\ Core._load_engine (Core.set_df (Some l) self, h')
           = (Raise e, (Core.set_df (Some l) self, h'))
        /\ ((e = UnrecognizedEngine /\ df_type (deref h' l) = None)
            \/ (e = EngineMismatch
                /\ exists d, h' !! l = Some (ODataFrame d) /\ accepted d = false))).
Proof.
  unfold Core.dataframe_setter. unfold bind at 1.
  destruct (Core._validate_and_convert_dataframe v (self, h)) as [r0 [self0 h0]] eqn:Hconv.
  destruct r0 as [[l|]|e0].
  - apply validate_and_convert_self in Hconv as Hself. subst self0.
    unfold bind at 1. unfold Core.assign at 1. run.
    destruct (Core._load_engine _) as [[[]|e1] [s1 h1]] eqn:Hle; [discriminate|].
    intros [= <- <- <-].
    destruct (load_engine_rejects (Core.set_df (Some l) self) h0 l e1 s1 h1 eq_refl Hle)
      as (-> & -> & Hwhy).
    right. exists l. now repeat split.
  - apply validate_and_convert_self in Hconv as Hself. subst self0. run. discriminate.
  - intros [= <- <- <-].
    destruct (validate_and_convert_raises _ _ _ _ _ _ Hconv) as (-> & ->).
    left. now repeat split.
Qed.

(** C5, as the code has it: when assigning the dataframe fails, the engine
    tag, the two load flags and the connector are as before.  The failure is
    of one of two steps.  When reading the input failed (InvalidFileFormat,
    UnconvertibleInput, or an error of a reader), nothing was assigned and
    nothing allocated: holder and heap are as before.  When engine detection
    or validation failed (UnrecognizedEngine: the object has no engine tag;
    EngineMismatch: it is a table the engine check refuses), the rejected
    object has already been assigned: [_df] is that object, while the engine
    tag is still the former one.  Assigning an object can only fail in the
    second way. *)
Theorem failed_load_keeps_engine_and_flags v self h e self' h' :
  Core.dataframe_setter v (self, h) = (Raise e, (self', h')) ->
  Core._engine self' = Core._engine self
  /\ Core._df_loaded self' = Core._df_loaded self
  /\ Core._temporary_loaded self' = Core._temporary_loaded self
  /\ Core._connector self' = Core._connector self
  /\ ((Core._validate_and_convert_dataframe v (self, h) = (Raise e, (self, h))
       /\ self' = self /\ h' = h)
      \/ (exists l,
            Core._validate_and_convert_dataframe v (self, h)
              = (Return (Some l), (self, h'))
            /\ self' = Core.set_df (Some l) self
            /\ Core._df self' = Some l
            /\ ((e = UnrecognizedEngine /\ df_type (deref h' l) = None)
                \/ (e = EngineMismatch
                    /\ exists d, h' !! l = Some (ODataFrame d) /\ accepted d = false))))
  /\ (forall l, v = VRef l ->
        self' = Core.set_df (Some l) self /\ Core._df self' = Some l /\ h' = h
        /\ (e = UnrecognizedEngine \/ e = EngineMismatch))
  /\ (e = InvalidFileFormat \/ e = UnconvertibleInput -> self' = self /\ h' = h).
Proof.
  intros Hset.
  destruct (dataframe_setter_raises _ _ _ _ _ _ Hset)
    as [(Hconv & -> & ->)|(l & Hconv & -> & Hle & Hwhy)].
  - split; [reflexivity|]. split; [reflexivity|]. split; [reflexivity|].
    split; [reflexivity|]. split; [left; now repeat split|]. split; [|now intros _].
    intros l ->. discriminate.
  - split; [reflexivity|]. split; [reflexivity|]. split; [reflexivity|].
    split; [reflexivity|]. split; [right; exists l; now repeat split|]. split.
    + intros l0 ->. injection Hconv as <- <-.
      split; [reflexivity|]. split; [reflexivity|]. split; [reflexivity|].
      destruct Hwhy as [[-> _]|[-> _]]; tauto.
    + intros [->| ->]; destruct Hwhy as [[? _]|[? _]]; discriminate.
Qed.

(** ** Reading a path *)

Lemma endswith_last (s p : list N) (x : N) :
  endswith s p = true -> last p = Some x -> last s = Some x.
Proof.
  unfold endswith. rewrite bool_decide_eq_true. intros [k ->] Hp.
  now rewrite last_app, Hp.
Qed.

Lemma csv_is_not_parquet (s : list N) :
  endswith s (py ".parquet") = true -> endswith s (py ".csv") = false.
Proof.
  intros Hp. destruct (endswith s (py ".csv")) eqn:Hc; [|reflexivity].
  pose proof (endswith_last _ _ 116%N Hp eq_refl) as H1.
  pose proof (endswith_last _ _ 118%N Hc eq_refl) as H2.
  congruence.
Qed.

Lemma xlsx_is_neither (s : list N) :
  endswith s (py ".xlsx") = true ->
  endswith s (py ".csv") = false /\ endswith s (py ".parquet") = false.
Proof.
  intros Hx. pose proof (endswith_last _ _ 120%N Hx eq_refl) as H1. split.
  - destruct (endswith s (py ".csv")) eqn:Hc; [|reflexivity].
    pose proof (endswith_last _ _ 118%N Hc eq_refl). congruence.
  - destruct (endswith s (py ".parquet")) eqn:Hp; [|reflexivity].
    pose proof (endswith_last _ _ 116%N Hp eq_refl). congruence.
Qed.

(** C9, as the code has it: a string ending in .csv, .parquet or .xlsx goes
    to the reader of that format; a string with none of these endings that
    starts with the spreadsheet URL goes to the remote-sheet importer, whose
    first sheet is the result; any other string fails with
    InvalidFileFormat.  The endings are tested first. *)
Theorem import_from_file_dispatch (file_path : list N) :
  (endswith file_path (py ".csv") = true ->
     Core._import_from_file file_path = read_csv file_path)
  /\ (endswith file_path (py ".parquet") = true ->
     Core._import_from_file file_path = read_parquet file_path)
  /\ (endswith file_path (py ".xlsx") = true ->
     Core._import_from_file file_path = read_excel file_path)
  /\ (endswith file_path (py ".csv") = false ->
      endswith file_path (py ".parquet") = false ->
      endswith file_path (py ".xlsx") = false ->
      (startswith file_path (py "https://docs.google.com/spreadsheets/") = true ->
         Core._import_from_file file_path =
           match from_google_sheets file_path with
           | Return (first_sheet :: _) => Return first_sheet
           | Return [] => Raise IndexError
           | Raise e => Raise e
           end)
      /\ (startswith file_path (py "https://docs.google.com/spreadsheets/") = false ->
         Core._import_from_file file_path = Raise InvalidFileFormat)).
Proof.
  unfold Core._import_from_file.
  split; [|split; [|split]].
  - now intros ->.
  - intros Hp. now rewrite (csv_is_not_parquet _ Hp), Hp.
  - intros Hx. destruct (xlsx_is_neither _ Hx) as [-> ->]. now rewrite Hx.
  - intros -> -> ->. split; now intros ->.
Qed.

(** ** Truncation of the sample head *)

(** A column the eager branch rewrites holds one string in every row. *)
Lemma truncate_column_eager_constant d max_size col col' :
  SmartDataframe.truncate_column_eager d max_size col = Return col' ->
  col' = col \/ exists v, col_values col' = repeat (CStr v) (df_rows d).
Proof.
  unfold SmartDataframe.truncate_column_eager.
  destruct (_ <? _)%nat; [discriminate|].
  destruct (bool_decide _); [|intros [= <-]; now left].
  destruct (col_values col) as [|[first_val| | |] rest];
    try discriminate; try (intros [= <-]; now left).
  destruct (_ <? _); intros [= <-]; [right; eauto|now left].
Qed.

(** A column whose first value is a string of at most [max_size] characters
    is left as it is. *)
Lemma truncate_column_eager_short d max_size col first_val rest :
  (occurrences_ok d col) ->
  col_values col = CStr first_val :: rest ->
  Z.of_nat (length first_val) <= max_size ->
  SmartDataframe.truncate_column_eager d max_size col = Return col.
Proof.
  unfold occurrences_ok, SmartDataframe.truncate_column_eager.
  intros Hone Hvals Hshort. rewrite Hone, Hvals.
  destruct (bool_decide _); [|reflexivity].
  destruct (Z.ltb_spec max_size (Z.of_nat (length first_val))); [lia|reflexivity].
Qed.

(** C3 at a table of two 40-character strings: the column [text] gets, in
    both rows, the printed form of the whole sliced Series followed by the
    ellipsis, which is not what the specification describes (22 letters a
    and the ellipsis in the first row, 22 letters b and the ellipsis in the
    second). *)
Theorem truncation_repeats_the_printed_series :
  let text := mkColumn (LStr (py "text")) dtype_object [CStr (forty "a"); CStr (forty "b")] in
  let v := series_str (SmartDataframe.str_slice 22 text) ++ py "..." in
  SmartDataframe._truncate_head_columns (ODataFrame (long_table pandas)) 25 =
    Return (mkDataFrame pandas 2
              [mkColumn (LStr (py "text")) dtype_object [CStr v; CStr v];
               mkColumn (LStr (py "n")) dtype_int64 [CInt 1; CInt 2]])
  /\ SmartDataframe._truncate_head_columns (ODataFrame (long_table pandas)) 25
     <> Return (spec_truncate 25 (long_table pandas)).
Proof.
  intros text v.
  assert (Hrun : SmartDataframe._truncate_head_columns (ODataFrame (long_table pandas)) 25 =
    Return (mkDataFrame pandas 2
              [mkColumn (LStr (py "text")) dtype_object [CStr v; CStr v];
               mkColumn (LStr (py "n")) dtype_int64 [CInt 1; CInt 2]])) by reflexivity.
  split; [exact Hrun|].
  rewrite Hrun. intros Heq. injection Heq as Hfirst Hsecond.
  rewrite Hfirst in Hsecond. vm_compute in Hsecond. discriminate.
Qed.

(** ** The sample head *)

Lemma sdf_dataframe_loaded (a : SmartDataframe.state) h l d :
  loaded (SmartDataframe._core a) h l d ->
  SmartDataframe.dataframe (a, h) =
    (Return (Some (fresh (dom h))),
     (SmartDataframe.set_core (after_read (SmartDataframe._core a)) a,
      <[fresh (dom h) := ODataFrame d]> h)).
Proof.
  intros Hloaded. unfold SmartDataframe.dataframe, zoom. cbn [fst snd].
  now rewrite (dataframe_loaded _ _ _ _ Hloaded).
Qed.

(** Under privacy enforcement the result, when there is one, is what the
    sampler returned for a row budget of 0. *)
Lemma sample_head_under_privacy (a : SmartDataframe.state) h t st :
  SmartDataframe.lake_config_enforce_privacy a = true ->
  SmartDataframe._get_sample_head (a, h) = (Return (Some t), st) ->
  exists base, t = sample base 0.
Proof.
  intros Hp. unfold SmartDataframe._get_sample_head.
  unfold bind at 1 2. unfold get_self at 1. cbn [fst snd]. rewrite Hp.
  match goal with |- context [let (_, _) := ?m (a, h) in _] =>
    destruct (m (a, h)) as [[[base|]|e] st0] end; try discriminate.
  unfold ret. intros [= <- _]. now exists base.
Qed.

(** C7: with privacy enforced, the sample head of a loaded holder without a
    custom head is the sampler's answer, for a row budget of 0, to the first
    0 rows of the table: the truncation step does not run.  It has no rows
    when the sampler keeps to its row budget; and whatever the state, a
    sample head returned under privacy is the sampler's answer for a budget
    of 0 and has no rows. *)
Theorem privacy_gives_an_empty_head (a : SmartDataframe.state) h l d :
  (forall t n, (df_rows (sample t n) <= n)%nat) ->
  SmartDataframe.lake_config_enforce_privacy a = true ->
  SmartDataframe._custom_head a = None ->
  loaded (SmartDataframe._core a) h l d ->
  fst (SmartDataframe._get_sample_head (a, h)) =
    Return (Some (sample (SmartDataframe.df_head 0 d) 0))
  /\ df_rows (SmartDataframe.df_head 0 d) = 0%nat
  /\ df_rows (sample (SmartDataframe.df_head 0 d) 0) = 0%nat
  /\ forall h0 t st,
       SmartDataframe._get_sample_head (a, h0) = (Return (Some t), st) ->
       df_rows t = 0%nat /\ exists base, t = sample base 0.
Proof.
  intros Hbudget Hp Hcustom Hloaded.
  assert (Hzero : forall t, df_rows (sample t 0) = 0%nat).
  { intros t. pose proof (Hbudget t 0%nat). lia. }
  split; [|split; [reflexivity|split; [apply Hzero|]]].
  - pose proof Hloaded as (Hld & _).
    unfold SmartDataframe._get_sample_head.
    unfold bind at 1 2. unfold get_self at 1. cbn [fst snd].
    rewrite Hp, Hcustom, Hld. cbn [bool_decide negb andb].
    rewrite bool_decide_eq_false_2 by (intros Hne; now apply Hne).
    unfold bind at 1. rewrite (sdf_dataframe_loaded _ _ _ _ Hloaded).
    run. unfold deref. now rewrite lookup_insert_eq.
  - intros h0 t st Hread.
    destruct (sample_head_under_privacy _ _ _ _ Hp Hread) as [base ->].
    split; [apply Hzero|now exists base].
Qed.

(** ** The custom head *)

Lemma init_fields v (ch : option DataFrame) p h0 a st :
  SmartDataframe.__init__ v ch p (tt, h0) = (Return a, st) ->
  SmartDataframe._custom_head a = option_map to_csv ch
  /\ SmartDataframe.lake_config_enforce_privacy a = p.
Proof.
  unfold SmartDataframe.__init__. unfold bind at 1.
  match goal with |- context [let (_, _) := ?m (tt, h0) in _] =>
    destruct (m (tt, h0)) as [[df|e] st0] end; [|discriminate].
  unfold bind at 1. destruct (Core.__init__ df st0) as [[core|e] st1]; [|discriminate].
  unfold ret. now intros [= <- _].
Qed.

(** The sample head of a holder that has a custom head, whatever else it
    holds. *)
Lemma sample_head_of_custom_head (a : SmartDataframe.state) text h :
  SmartDataframe._custom_head a = Some text ->
  SmartDataframe._get_sample_head (a, h) =
    (match read_csv_text text with
     | Raise e => Raise e
     | Return head =>
         if SmartDataframe.lake_config_enforce_privacy a
         then Return (Some (sample head 0))
         else match SmartDataframe._truncate_head_columns (ODataFrame (sample head 3)) 25 with
              | Return t => Return (Some t)
              | Raise e => Raise e
              end
     end, (a, h)).
Proof.
  intros Hch. unfold SmartDataframe._get_sample_head.
  unfold bind at 1 2. unfold get_self at 1. cbn [fst snd]. rewrite Hch.
  rewrite bool_decide_eq_true_2 by discriminate.
  unfold SmartDataframe.custom_head. run. rewrite Hch. cbn [default from_option id].
  destruct (read_csv_text text) as [head|e]; [|reflexivity].
  destruct (SmartDataframe.lake_config_enforce_privacy a); [reflexivity|].
  now destruct (SmartDataframe._truncate_head_columns _ _).
Qed.

(** C4, as the code has it: the custom head given to the constructor is kept
    as CSV text; the sample head reads the text again and takes the result as
    the base preview, which then goes through the sampler (row budget 0
    under privacy, 3 otherwise) and, without privacy, through the truncation,
    like any other preview. *)
Theorem custom_head_goes_through_the_pipeline v ch p h0 a st h :
  SmartDataframe.__init__ v (Some ch) p (tt, h0) = (Return a, st) ->
  SmartDataframe._get_sample_head (a, h) =
    (match read_csv_text (to_csv ch) with
     | Raise e => Raise e
     | Return head =>
         if p then Return (Some (sample head 0))
         else match SmartDataframe._truncate_head_columns (ODataFrame (sample head 3)) 25 with
              | Return t => Return (Some t)
              | Raise e => Raise e
              end
     end, (a, h)).
Proof.
  intros Hinit. destruct (init_fields _ _ _ _ _ _ Hinit) as [Hch Hp]. cbn in Hch.
  now rewrite (sample_head_of_custom_head a (to_csv ch) h Hch), Hp.
Qed.

(** ** The column hash *)

Lemma join_strings (names : list (list N)) :
  SmartDataframe.join (map LStr names) = Return (concat names).
Proof.
  induction names as [|s names IH]; [reflexivity|].
  cbn. now rewrite IH.
Qed.

Lemma column_hash_loaded (a : SmartDataframe.state) h l d :
  loaded (SmartDataframe._core a) h l d ->
  fst (SmartDataframe.column_hash (a, h)) =
    match SmartDataframe.join (map col_label (df_columns d)) with
    | Return columns_str =>
        match encode columns_str with
        | Some bytes => Return (SHA256.hexdigest bytes)
        | None => Raise UnicodeEncodeError
        end
    | Raise e => Raise e
    end.
Proof.
  intros Hloaded. pose proof Hloaded as (Hld & _).
  unfold SmartDataframe.column_hash.
  unfold bind at 1. unfold get_self at 1. cbn [fst snd]. rewrite Hld. cbn [negb andb].
  unfold bind at 1. rewrite (sdf_dataframe_loaded _ _ _ _ Hloaded).
  unfold SmartDataframe.columns_of. run. unfold deref. rewrite lookup_insert_eq. cbn.
  destruct (SmartDataframe.join _) as [columns_str|e]; [|reflexivity].
  now destruct (encode columns_str).
Qed.

Lemma rename_changes_names (pre post : list (list N)) (x y : list N) :
  x <> y -> concat (pre ++ x :: post) <> concat (pre ++ y :: post).
Proof.
  intros Hne Heq. rewrite !concat_app in Heq. cbn in Heq.
  apply app_inv_head, app_inv_tail in Heq. contradiction.
Qed.

Lemma longer_names (pre post : list (list N)) (x : list N) :
  x <> [] -> concat (pre ++ x :: post) <> concat (pre ++ post).
Proof.
  intros Hne Heq. rewrite !concat_app in Heq. cbn in Heq.
  apply app_inv_head in Heq.
  apply (f_equal (@length N)) in Heq. rewrite length_app in Heq.
  destruct x; [congruence|cbn in Heq; lia].
Qed.

(** A label whose name is the empty string adds nothing to the joined names,
    wherever it stands. *)
Lemma join_skips_unnamed (pre post : list Label) :
  SmartDataframe.join (pre ++ LStr [] :: post) = SmartDataframe.join (pre ++ post).
Proof.
  induction pre as [|[s|z] pre IH]; cbn [app SmartDataframe.join].
  - now destruct (SmartDataframe.join post).
  - now rewrite IH.
  - reflexivity.
Qed.

(** A label that is not a string makes the join raise. *)
Lemma join_number (labels : list Label) z :
  In (LInt z) labels -> SmartDataframe.join labels = Raise TypeError.
Proof.
  induction labels as [|[s|z0] labels IH]; cbn [SmartDataframe.join].
  - intros [].
  - intros [Heq|Hin]; [discriminate|]. now rewrite (IH Hin).
  - reflexivity.
Qed.

(** C6, as the code has it: for a loaded table whose column labels are
    strings that UTF-8 can encode, [column_hash] is the lowercase hex SHA-256
    digest of the encoded names, concatenated in order without a separator.
    So two loaded tables with the same labels in the same order have the same
    hash, whatever their rows.  The columns bear on the hash through the
    joined names only: renaming a column, and adding or removing a column
    whose name is not empty, changes the joined names, which is the string
    that is digested (the hash of columns a, b differs from that of a, c);
    adding or removing a column whose name is the empty string leaves the
    hash as it is; and a table with a label that is not a string has no hash:
    [column_hash] raises TypeError. *)
Theorem column_hash_digests_the_names (a : SmartDataframe.state) h l d :
  loaded (SmartDataframe._core a) h l d ->
  (forall names bytes,
     map col_label (df_columns d) = map LStr names ->
     encode (concat names) = Some bytes ->
     fst (SmartDataframe.column_hash (a, h)) = Return (SHA256.hexdigest bytes))
  /\ (forall a2 h2 l2 d2,
       loaded (SmartDataframe._core a2) h2 l2 d2 ->
       map col_label (df_columns d2) = map col_label (df_columns d) ->
       fst (SmartDataframe.column_hash (a2, h2)) = fst (SmartDataframe.column_hash (a, h)))
  /\ (forall (pre post : list (list N)) (x y : list N), x <> y ->
       SmartDataframe.join (map LStr (pre ++ x :: post))
       <> SmartDataframe.join (map LStr (pre ++ y :: post)))
  /\ (forall (pre post : list (list N)) (x : list N), x <> [] ->
       SmartDataframe.join (map LStr (pre ++ x :: post))
       <> SmartDataframe.join (map LStr (pre ++ post)))
  /\ (forall a2 h2 l2 d2,
       loaded (SmartDataframe._core a2) h2 l2 d2 ->
       map col_label (df_columns d) = [LStr (py "a"); LStr (py "b")] ->
       map col_label (df_columns d2) = [LStr (py "a"); LStr (py "c")] ->
       fst (SmartDataframe.column_hash (a, h)) <> fst (SmartDataframe.column_hash (a2, h2)))
  /\ (forall a2 h2 l2 d2 pre post,
       loaded (SmartDataframe._core a2) h2 l2 d2 ->
       map col_label (df_columns d) = pre ++ post ->
       map col_label (df_columns d2) = pre ++ LStr [] :: post ->
       fst (SmartDataframe.column_hash (a2, h2)) = fst (SmartDataframe.column_hash (a, h)))
  /\ (forall z, In (LInt z) (map col_label (df_columns d)) ->
       fst (SmartDataframe.column_hash (a, h)) = Raise TypeError).
Proof.
  intros Hloaded. rewrite (column_hash_loaded _ _ _ _ Hloaded).
  split; [|split; [|split; [|split; [|split; [|split]]]]].
  - intros names bytes -> Henc. now rewrite join_strings, Henc.
  - intros a2 h2 l2 d2 Hloaded2 Hsame.
    now rewrite (column_hash_loaded _ _ _ _ Hloaded2), Hsame.
  - intros pre post x y Hne. rewrite !join_strings. intros [= Heq].
    now apply (rename_changes_names pre post x y).
  - intros pre post x Hne. rewrite !join_strings. intros [= Heq].
    now apply (longer_names pre post x).
  - intros a2 h2 l2 d2 Hloaded2 Hab Hac.
    rewrite (column_hash_loaded _ _ _ _ Hloaded2), Hab, Hac.
    vm_compute. discriminate.
  - intros a2 h2 l2 d2 pre post Hloaded2 Hd Hd2.
    rewrite (column_hash_loaded _ _ _ _ Hloaded2), Hd, Hd2.
    now rewrite join_skips_unnamed.
  - intros z Hz. now rewrite (join_number _ z Hz).
Qed.

(** ** Direct loads and equality *)

Lemma core_init_direct h l d :
  h !! l = Some (ODataFrame d) ->
  Core.__init__ (VRef l) (tt, h) =
    if accepted d
    then (Return (Core.mkCore (Some l) true false None (Some (df_backend d))), (tt, h))
    else (Raise EngineMismatch, (tt, h)).
Proof.
  intros Hl. unfold Core.__init__, construct, Core._load_dataframe. cbn [snd].
  unfold bind at 1. unfold get_heap at 1. cbn [fst snd].
  rewrite (deref_lookup _ _ _ Hl), dataframe_setter_ref.
  rewrite (load_engine_table _ h l d); [|reflexivity|assumption].
  now destruct (accepted d).
Qed.

(** A direct load that succeeds leaves the holder loaded, owner of the table
    it was given. *)
Lemma direct_load_is_loaded h l d core st :
  h !! l = Some (ODataFrame d) ->
  Core.__init__ (VRef l) (tt, h) = (Return core, st) ->
  loaded core h l d /\ Core.has_connector core = false /\ st = (tt, h).
Proof.
  intros Hl. rewrite (core_init_direct _ _ _ Hl).
  destruct (accepted d); [|discriminate].
  intros [= <- <-]. repeat split. assumption.
Qed.

(** C10: when one of two SmartDataframes has no connector, [==] is False.
    A SmartDataframe built from a DataFrame has no connector, so it is not
    equal to another one built the same way, nor to itself. *)
Theorem eq_needs_two_connectors :
  (forall (a b : SmartDataframe.state) (h : Heap),
     Core.has_connector (SmartDataframe._core a) = false
     \/ Core.has_connector (SmartDataframe._core b) = false ->
     SmartDataframe.__eq__ a (SmartDataframe.a_SmartDataframe b) h = Return false)
  /\ (forall h l d custom_head privacy a st,
       h !! l = Some (ODataFrame d) ->
       SmartDataframe.__init__ (VRef l) custom_head privacy (tt, h) = (Return a, st) ->
       Core.has_connector (SmartDataframe._core a) = false
       /\ forall (b : SmartDataframe.state) (h' : Heap),
            SmartDataframe.__eq__ a (SmartDataframe.a_SmartDataframe b) h' = Return false
            /\ SmartDataframe.__eq__ b (SmartDataframe.a_SmartDataframe a) h' = Return false
            /\ SmartDataframe.__eq__ a (SmartDataframe.a_SmartDataframe a) h' = Return false).
Proof.
  assert (Hmain : forall (a b : SmartDataframe.state) (h : Heap),
     Core.has_connector (SmartDataframe._core a) = false
     \/ Core.has_connector (SmartDataframe._core b) = false ->
     SmartDataframe.__eq__ a (SmartDataframe.a_SmartDataframe b) h = Return false).
  { intros a b h. unfold SmartDataframe.__eq__. intros [-> | ->]; [reflexivity|].
    now rewrite andb_false_r. }
  split; [exact Hmain|].
  intros h l d custom_head privacy a st Hl.
  unfold SmartDataframe.__init__. unfold bind at 1. unfold ret at 1.
  unfold bind at 1.
  destruct (Core.__init__ (VRef l) (tt, h)) as [[core|e] st1] eqn:Hcore; [|discriminate].
  destruct (direct_load_is_loaded _ _ _ _ _ Hl Hcore) as (_ & Hnone & _).
  unfold ret. intros [= <- _]. cbn [SmartDataframe._core].
  split; [assumption|]. intros b h'. repeat split; apply Hmain; tauto.
Qed.

(** Whatever the sampler, as long as it keeps to its row budget: under
    privacy a custom head that has rows is not what the sample head is. *)
Lemma custom_head_not_verbatim_under_privacy v ch h0 a st h :
  (forall t n, (df_rows (sample t n) <= n)%nat) ->
  SmartDataframe.__init__ v (Some ch) true (tt, h0) = (Return a, st) ->
  (0 < df_rows ch)%nat ->
  fst (SmartDataframe._get_sample_head (a, h)) <> Return (Some ch).
Proof.
  intros Hbudget Hinit Hrows.
  destruct (init_fields _ _ _ _ _ _ Hinit) as [Hch Hp]. cbn in Hch.
  rewrite (sample_head_of_custom_head a (to_csv ch) h Hch), Hp. cbn [fst].
  destruct (read_csv_text (to_csv ch)) as [head|e]; [|discriminate].
  intros [= Heq]. pose proof (Hbudget head 0%nat) as Hle.
  rewrite Heq in Hle. lia.
Qed.

(** A column named by the empty string adds nothing to the digested names. *)
Lemma join_unnamed (labels : list Label) :
  SmartDataframe.join (labels ++ [LStr []]) = SmartDataframe.join labels.
Proof.
  induction labels as [|[s|z] labels IH]; [reflexivity| |reflexivity].
  cbn. rewrite IH. now destruct (SmartDataframe.join labels).
Qed.

Lemma unnamed_column_is_invisible (a a2 : SmartDataframe.state) h h2 l l2 d d2 :
  loaded (SmartDataframe._core a) h l d ->
  loaded (SmartDataframe._core a2) h2 l2 d2 ->
  map col_label (df_columns d2) = map col_label (df_columns d) ++ [LStr []] ->
  fst (SmartDataframe.column_hash (a2, h2)) = fst (SmartDataframe.column_hash (a, h)).
Proof.
  intros Hl Hl2 Hlabels.
  rewrite (column_hash_loaded _ _ _ _ Hl), (column_hash_loaded _ _ _ _ Hl2), Hlabels.
  now rewrite join_unnamed.
Qed.

End Properties.

(** * More properties *)

Section MoreProperties.
Context `{Collaborators} `{Runtime}.

(** ** What a read changes *)

(** X1: a read of [dataframe] changes the holder in one way only, the unload
    after a load for one use: the connector and the engine tag stay, the
    objects of the heap stay, at most one object is added, and a read that
    raises (the owned object has not the method of the engine tag) changes
    nothing. *)
Theorem read_changes_only_by_unloading self h r self' h' :
  Core.dataframe (self, h) = (r, (self', h')) ->
  (self' = self
   \/ (Core.has_connector self = true /\ Core._df_loaded self = true
       /\ Core._temporary_loaded self = true /\ self' = unloaded self))
  /\ Core._connector self' = Core._connector self
  /\ Core._engine self' = Core._engine self
  /\ (forall l o, h !! l = Some o -> h' !! l = Some o)
  /\ match r with
     | Raise e => e = AttributeError /\ self' = self /\ h' = h
     | Return None => h' = h
     | Return (Some l) => h !! l = None /\ exists o, h' = <[l := o]> h
     end.
Proof.
  destruct self as [df ld tmp conn eng].
  assert (Hfresh : forall o l o0, h !! l = Some o0 ->
            <[fresh (dom h) := o]> h !! l = Some o0).
  { intros o l o0 Hl. rewrite lookup_insert_ne; [assumption|].
    apply (fresh_differs _ _ _ Hl). }
  unfold Core.dataframe, Core._unload_connector, unloaded. run.
  cbn [Core._df_loaded Core._engine Core._df Core._temporary_loaded Core._connector].
  destruct ld, eng as [[]|], df as [l|]; cbn beta iota;
    repeat match goal with
    | |- context [match method_copy ?o with _ => _ end] => destruct (method_copy o)
    | |- context [match method_clone ?o with _ => _ end] => destruct (method_clone o)
    end; cbn [fst snd];
    destruct (Core.has_connector _) eqn:Hc, tmp; cbn;
    intros [= <- <- <-];
    (split; [first [left; reflexivity | right; repeat split; reflexivity]|]);
    (split; [reflexivity|]); (split; [reflexivity|]);
    (split; [first [intros; apply Hfresh; assumption | auto]|]);
    first [ split; [apply fresh_unused | eexists; reflexivity]
          | repeat split; reflexivity ].
Qed.

(** X2: in a state that is loaded for good, any number of reads leaves the
    holder as it is and the owned table in place, and the next read returns
    one more new object holding the owned table. *)
Theorem reads_can_be_repeated self h l d n :
  loaded self h l d ->
  Core.has_connector self && Core._temporary_loaded self = false ->
  fst (read_times n (self, h)) = self
  /\ loaded self (snd (read_times n (self, h))) l d
  /\ (forall l0 o, h !! l0 = Some o -> snd (read_times n (self, h)) !! l0 = Some o)
  /\ exists l',
       fst (Core.dataframe (read_times n (self, h))) = Return (Some l')
       /\ snd (read_times n (self, h)) !! l' = None
       /\ snd (snd (Core.dataframe (read_times n (self, h)))) !! l' = Some (ODataFrame d).
Proof.
  intros Hloaded Hgood.
  assert (Hstep : forall hn, loaded self hn l d ->
            Core.dataframe (self, hn) =
              (Return (Some (fresh (dom hn))), (self, <[fresh (dom hn) := ODataFrame d]> hn))).
  { intros hn Hn. rewrite (dataframe_loaded _ _ _ _ Hn). unfold after_read.
    now rewrite Hgood. }
  assert (Hinv : forall k, fst (read_times k (self, h)) = self
            /\ loaded self (snd (read_times k (self, h))) l d
            /\ (forall l0 o, h !! l0 = Some o -> snd (read_times k (self, h)) !! l0 = Some o)).
  { induction k as [|k (IH1 & IH2 & IH3)]; [split; [reflexivity|split; [assumption|auto]]|].
    cbn [read_times].
    destruct (read_times k (self, h)) as [sk hk] eqn:Hk. cbn [fst snd] in *. subst sk.
    rewrite (Hstep hk IH2). cbn [fst snd].
    pose proof IH2 as (_ & _ & Hl & _).
    split; [reflexivity|]. split.
    - apply loaded_frame; [assumption|]. apply (fresh_differs _ _ _ Hl).
    - intros l0 o Hl0. rewrite lookup_insert_ne; [now apply IH3|].
      apply (fresh_differs _ _ _ (IH3 _ _ Hl0)). }
  destruct (Hinv n) as (H1 & H2 & H3).
  split; [assumption|]. split; [assumption|]. split; [assumption|].
  destruct (read_times n (self, h)) as [sn hn] eqn:Hn. cbn [fst snd] in *. subst sn.
  exists (fresh (dom hn)). rewrite (Hstep hn H2). cbn [fst snd].
  split; [reflexivity|]. split; [apply fresh_unused|apply lookup_insert_eq].
Qed.

(** ** What a construction leaves *)

Lemma setter_ref_returns self h l u self' h' :
  Core.dataframe_setter (VRef l) (self, h) = (Return u, (self', h')) ->
  exists d, h !! l = Some (ODataFrame d) /\ accepted d = true
            /\ self' = Core.set_engine (Some (df_backend d)) (Core.set_df (Some l) self)
            /\ h' = h.
Proof.
  rewrite dataframe_setter_ref. unfold Core._load_engine. run.
  cbn [Core._df Core.set_df]. unfold deref.
  destruct (h !! l) as [[d|s|c|items|cp cl]|] eqn:Hl; cbn; try discriminate.
  unfold accepted. destruct (df_backend d) eqn:Hb, pd eqn:Hpd; cbn;
    try discriminate; intros [= <- <-]; exists d; rewrite Hb; repeat split;
    congruence.
Qed.

Lemma setter_ref_accepted self h l d :
  h !! l = Some (ODataFrame d) -> accepted d = true ->
  Core.dataframe_setter (VRef l) (self, h) =
    (Return tt, (Core.set_engine (Some (df_backend d)) (Core.set_df (Some l) self), h)).
Proof.
  intros Hl Hok. rewrite dataframe_setter_ref.
  rewrite (load_engine_table _ h l d); [now rewrite Hok|reflexivity|assumption].
Qed.

Lemma setter_ref_rejected self h l d :
  h !! l = Some (ODataFrame d) -> accepted d = false ->
  Core.dataframe_setter (VRef l) (self, h) =
    (Raise EngineMismatch, (Core.set_df (Some l) self, h)).
Proof.
  intros Hl Hok. rewrite dataframe_setter_ref.
  rewrite (load_engine_table _ h l d); [now rewrite Hok|reflexivity|assumption].
Qed.

Lemma pd_DataFrame_accepted raw d : pd_DataFrame raw = Some d -> accepted d = true.
Proof.
  intros Hd. apply accepted_iff. right. apply pd_makes_its_own. right. now exists raw.
Qed.

(** X3: what a [SmartDataframeCore] that has been constructed holds is
    decided by what it was given.  Given a connector, the construction
    returns, and the holder has the connector and nothing else: no table, no
    engine tag, not loaded, and the heap is as before, so nothing was fetched.
    Given [None], it is flagged loaded and holds nothing.  Given a DataFrame,
    it owns that very object; given a Series, a path or a list, it owns a new
    object, the table made from it; in these cases the table passed the
    engine check, the holder is loaded and has no connector.  Given any other
    object, the construction does not return. *)
Theorem constructed_core_is_deferred_or_loaded h :
  (forall l c, h !! l = Some (OConnector c) ->
     Core.__init__ (VRef l) (tt, h)
     = (Return (Core.mkCore None false false (Some l) None), (tt, h)))
  /\ Core.__init__ VNone (tt, h) = (Return Core.defaults, (tt, h))
  /\ forall v core h',
       Core.__init__ v (tt, h) = (Return core, (tt, h')) ->
       match v with
       | VNone => core = Core.defaults /\ h' = h
       | VRef l =>
           match h !! l with
           | Some (OConnector c) =>
               core = Core.mkCore None false false (Some l) None /\ h' = h
           | Some (ODataFrame d) =>
               accepted d = true
               /\ core = Core.mkCore (Some l) true false None (Some (df_backend d))
               /\ h' = h
           | Some (OSeries s) =>
               accepted (to_frame s) = true
               /\ core = Core.mkCore (Some (fresh (dom h))) true false None
                           (Some (df_backend (to_frame s)))
               /\ h' = <[fresh (dom h) := ODataFrame (to_frame s)]> h
           | _ => False
           end
       | VStr s =>
           exists d, Core._import_from_file s = Return d /\ accepted d = true
             /\ core = Core.mkCore (Some (fresh (dom h))) true false None
                         (Some (df_backend d))
             /\ h' = <[fresh (dom h) := ODataFrame d]> h
       | VRaw raw =>
           exists d, pd_DataFrame raw = Some d
             /\ core = Core.mkCore (Some (fresh (dom h))) true false None
                         (Some (eager_backend pd))
             /\ h' = <[fresh (dom h) := ODataFrame d]> h
       end.
Proof.
  assert (Hnew : forall d (st : Core.state * Heap) u,
            Core.dataframe_setter (VRef (fresh (dom h)))
              (Core.defaults, <[fresh (dom h) := ODataFrame d]> h) = (Return u, st) ->
            accepted d = true
            /\ st = (Core.mkCore (Some (fresh (dom h))) true false None (Some (df_backend d)),
                     <[fresh (dom h) := ODataFrame d]> h)).
  { intros d [s1 h1] u Hset. apply setter_ref_returns in Hset as (d' & Hl & Hok & -> & ->).
    rewrite lookup_insert_eq in Hl. injection Hl as <-. now split. }
  split; [|split].
  - intros l c Hl. unfold Core.__init__, construct, Core._load_dataframe. cbn [snd].
    unfold bind at 1. unfold get_heap at 1. cbn [fst snd].
    now rewrite (deref_lookup _ _ _ Hl).
  - reflexivity.
  - intros v core h'.
    unfold Core.__init__, construct, Core._load_dataframe. cbn [snd].
    unfold bind at 1. unfold get_heap at 1. cbn [fst snd].
    destruct v as [|s|raw|l].
    + rewrite dataframe_setter_none. now intros [= <- <-].
    + unfold bind at 1. unfold call at 1.
      destruct (Core._import_from_file s) as [d|e]; [|discriminate].
      unfold bind at 1. unfold alloc at 1. cbn [fst snd].
      destruct (Core.dataframe_setter _ _) as [[u|e] st] eqn:Hset;
        [|destruct st; discriminate].
      destruct (Hnew _ _ _ Hset) as (Hok & ->). intros [= <- <-]. now exists d.
    + unfold except_ValueError.
      destruct (pd_DataFrame raw) as [d|] eqn:Hraw; [|discriminate].
      unfold bind at 1. unfold alloc at 1. cbn [fst snd].
      destruct (Core.dataframe_setter _ _) as [[u|e] st] eqn:Hset;
        [|destruct st; discriminate].
      destruct (Hnew _ _ _ Hset) as (Hok & ->). intros [= <- <-]. exists d.
      rewrite (pd_makes_its_own d) by (right; now exists raw). now repeat split.
    + unfold deref.
      destruct (h !! l) as [[d|s|c|items|cp cl]|] eqn:Hl; cbn [default from_option id].
      * destruct (Core.dataframe_setter _ _) as [[u|e] [s1 h1]] eqn:Hset; [|discriminate].
        apply setter_ref_returns in Hset as (d' & Hl' & Hok & -> & ->).
        rewrite Hl in Hl'. injection Hl' as <-. now intros [= <- <-].
      * unfold bind at 1. unfold alloc at 1. cbn [fst snd].
        destruct (Core.dataframe_setter _ _) as [[u|e] st] eqn:Hset;
          [|destruct st; discriminate].
        destruct (Hnew _ _ _ Hset) as (Hok & ->). now intros [= <- <-].
      * now intros [= <- <-].
      * destruct (Core.dataframe_setter _ _) as [[u|e] [s1 h1]] eqn:Hset; [|discriminate].
        apply setter_ref_returns in Hset as (d' & Hl' & _). congruence.
      * destruct (Core.dataframe_setter _ _) as [[u|e] [s1 h1]] eqn:Hset; [|discriminate].
        apply setter_ref_returns in Hset as (d' & Hl' & _). congruence.
      * destruct (Core.dataframe_setter _ _) as [[u|e] [s1 h1]] eqn:Hset; [|discriminate].
        apply setter_ref_returns in Hset as (d' & Hl' & _). congruence.
Qed.

(** X4: a list or a dict fails to load only when [pd.DataFrame] refuses it:
    with UnconvertibleInput, and nothing is allocated or assigned.  When
    [pd.DataFrame] accepts it the load always succeeds, at construction and
    through the setter: the table it built is an instance of the configured
    [pd.DataFrame], so the engine check lets it through, and the engine tag
    becomes that of the configured module, pandas or modin and never
    polars. *)
Theorem list_load_passes_the_engine_check raw self h :
  Core.__init__ (VRaw raw) (tt, h) =
    match pd_DataFrame raw with
    | None => (Raise UnconvertibleInput, (tt, h))
    | Some d =>
        (Return (Core.mkCore (Some (fresh (dom h))) true false None
                   (Some (eager_backend pd))),
         (tt, <[fresh (dom h) := ODataFrame d]> h))
    end
  /\ Core.dataframe_setter (VRaw raw) (self, h) =
    match pd_DataFrame raw with
    | None => (Raise UnconvertibleInput, (self, h))
    | Some d =>
        (Return tt,
         (Core.set_engine (Some (eager_backend pd))
            (Core.set_df (Some (fresh (dom h))) self),
          <[fresh (dom h) := ODataFrame d]> h))
    end
  /\ (forall d, pd_DataFrame raw = Some d ->
      accepted d = true /\ df_backend d <> polars).
Proof.
  split; [|split].
  - unfold Core.__init__, construct, Core._load_dataframe. cbn [snd].
    unfold bind at 1. unfold get_heap at 1. cbn [fst snd]. unfold except_ValueError.
    destruct (pd_DataFrame raw) as [d|] eqn:Hraw; [|reflexivity].
    unfold bind at 1. unfold alloc at 1. cbn [fst snd].
    rewrite (setter_ref_accepted _ _ _ d);
      [|apply lookup_insert_eq|now apply (pd_DataFrame_accepted raw)].
    now rewrite (pd_makes_its_own d) by (right; now exists raw).
  - unfold Core.dataframe_setter, Core._validate_and_convert_dataframe.
    destruct (pd_DataFrame raw) as [d|] eqn:Hraw; [|reflexivity].
    unfold bind at 1 2. unfold alloc at 1. unfold ret at 1. cbn [fst snd].
    unfold bind at 1. unfold Core.assign at 1. run.
    rewrite (load_engine_table _ _ (fresh (dom h)) d);
      [|reflexivity|apply lookup_insert_eq].
    rewrite (pd_DataFrame_accepted raw d Hraw).
    now rewrite (pd_makes_its_own d) by (right; now exists raw).
  - intros d Hd. split; [now apply (pd_DataFrame_accepted raw)|].
    rewrite (pd_makes_its_own d) by (right; now exists raw). now destruct pd.
Qed.

(** ** A load from the connector that fails *)

(** X5: when the table a connector returns is rejected by the engine check,
    [load_connector] raises EngineMismatch with the rejected table already
    assigned and the flags and the engine tag as before.  So the next read of
    a holder that was not loaded returns nothing, and the next read of a
    holder that was loaded no longer serves its former table: it returns a
    copy of the rejected table when the former engine tag is pandas or modin,
    and raises AttributeError when it is polars. *)
Theorem failed_reload_serves_the_rejected_table self h lc c temporary :
  Core._connector self = Some lc -> h !! lc = Some (OConnector c) ->
  accepted (conn_execute c) = false ->
  let l1 := fresh (dom h) in
  let h1 := <[l1 := ODataFrame (conn_execute c)]> h in
  let self1 := Core.set_df (Some l1) self in
  Core.load_connector temporary (self, h) = (Raise EngineMismatch, (self1, h1))
  /\ fst (Core.dataframe (self1, h1)) =
       (if Core._df_loaded self then
          match Core._engine self with
          | Some polars => Raise AttributeError
          | Some _ => Return (Some (fresh (dom h1)))
          | None => Return None
          end
        else Return None)
  /\ (Core._df_loaded self = true ->
      Core._engine self = Some pandas \/ Core._engine self = Some modin ->
      snd (snd (Core.dataframe (self1, h1))) !! fresh (dom h1)
        = Some (ODataFrame (conn_execute c))).
Proof.
  intros Hc Hlc Hno l1 h1 self1.
  pose proof (load_connector_run self h lc c temporary Hc Hlc) as Hrun.
  cbv zeta in Hrun. rewrite Hno in Hrun. fold l1 h1 self1 in Hrun.
  split; [assumption|].
  assert (Heager : df_backend (conn_execute c) = pandas \/ df_backend (conn_execute c) = modin).
  { unfold accepted in Hno. destruct (df_backend (conn_execute c)); auto. discriminate. }
  assert (Hl1 : deref h1 l1 = ODataFrame (conn_execute c)).
  { apply deref_lookup. subst h1. apply lookup_insert_eq. }
  assert (Hread : Core.dataframe (self1, h1) =
    if Core._df_loaded self then
      match Core._engine self with
      | Some polars => (Raise AttributeError, (self1, h1))
      | Some _ => (Return (Some (fresh (dom h1))),
                   (after_read self1, <[fresh (dom h1) := ODataFrame (conn_execute c)]> h1))
      | None => (Return None, (after_read self1, h1))
      end
    else (Return None, (self1, h1))).
  { subst self1. clear Hrun. destruct self as [df ld tmp conn eng].
    unfold Core.dataframe, after_read, Core._unload_connector, unloaded,
      Core.has_connector, Core.set_df.
    run. cbn [Core._df Core._df_loaded Core._temporary_loaded Core._connector Core._engine].
    destruct ld; [|now destruct (bool_decide _)].
    destruct eng as [[]|]; cbn beta iota; cbn [fst snd]; rewrite ?Hl1;
      unfold method_copy, method_clone;
      destruct Heager as [Hb | Hb]; rewrite ?Hb; cbn beta iota; cbn [fst snd];
      first [reflexivity | destruct (bool_decide _), tmp; reflexivity]. }
  rewrite Hread. split.
  - destruct (Core._df_loaded self); [|reflexivity].
    now destruct (Core._engine self) as [[]|].
  - intros -> [-> | ->]; cbn [fst snd]; apply lookup_insert_eq.
Qed.

(** ** Methods that read through [dataframe] *)

Lemma sdf_dataframe_unloaded (a : SmartDataframe.state) h :
  Core._df_loaded (SmartDataframe._core a) = false ->
  SmartDataframe.dataframe (a, h) = (Return None, (a, h)).
Proof.
  intros Hld. unfold SmartDataframe.dataframe, zoom. cbn [fst snd].
  rewrite (dataframe_unloaded _ _ Hld). now destruct a.
Qed.

Lemma read_object_loaded (a : SmartDataframe.state) h l d :
  loaded (SmartDataframe._core a) h l d ->
  More.read_object (a, h) =
    (Return (Some (ODataFrame d)),
     (SmartDataframe.set_core (after_read (SmartDataframe._core a)) a,
      <[fresh (dom h) := ODataFrame d]> h)).
Proof.
  intros Hloaded. unfold More.read_object. unfold bind at 1.
  rewrite (sdf_dataframe_loaded _ _ _ _ Hloaded). run. cbn [option_map].
  erewrite deref_lookup; [reflexivity | apply lookup_insert_eq].
Qed.

(** X6: item assignment on a SmartDataframe is made on the copy that the
    read of [dataframe] returns, so it is lost: whatever the assignment does
    to the object, and also when it raises, the owned table is unchanged, no
    object that was in the heap changes, and a holder loaded for good serves
    the same table at the next read. *)
Theorem item_assignment_is_lost (a : SmartDataframe.state) h l d key value :
  loaded (SmartDataframe._core a) h l d ->
  exists r h',
    More.__setitem__ key value (a, h) =
      (r, (SmartDataframe.set_core (after_read (SmartDataframe._core a)) a, h'))
    /\ h' !! l = Some (ODataFrame d)
    /\ (forall l0 o, h !! l0 = Some o -> h' !! l0 = Some o)
    /\ (Core.has_connector (SmartDataframe._core a)
        && Core._temporary_loaded (SmartDataframe._core a) = false ->
        loaded (SmartDataframe._core a) h' l d
        /\ exists l',
             SmartDataframe.dataframe
               (SmartDataframe.set_core (after_read (SmartDataframe._core a)) a, h')
             = (Return (Some l'),
                (SmartDataframe.set_core (after_read (SmartDataframe._core a)) a,
                 <[l' := ODataFrame d]> h'))).
Proof.
  intros Hloaded. pose proof Hloaded as (_ & _ & Hl & _).
  pose proof (fresh_differs _ _ _ Hl) as Hne.
  set (h1 := <[fresh (dom h) := ODataFrame d]> h).
  assert (Hkeep : forall o l0 o0, h !! l0 = Some o0 ->
            <[fresh (dom h) := o]> h1 !! l0 = Some o0).
  { intros o l0 o0 Hl0. pose proof (fresh_differs _ _ _ Hl0).
    subst h1. now rewrite !lookup_insert_ne. }
  assert (Hkeep1 : forall l0 o0, h !! l0 = Some o0 -> h1 !! l0 = Some o0).
  { intros l0 o0 Hl0. pose proof (fresh_differs _ _ _ Hl0).
    subst h1. now rewrite lookup_insert_ne. }
  assert (Hnext : forall h', h' !! l = Some (ODataFrame d) ->
            Core.has_connector (SmartDataframe._core a)
            && Core._temporary_loaded (SmartDataframe._core a) = false ->
            loaded (SmartDataframe._core a) h' l d
            /\ exists l',
                 SmartDataframe.dataframe
                   (SmartDataframe.set_core (after_read (SmartDataframe._core a)) a, h')
                 = (Return (Some l'),
                    (SmartDataframe.set_core (after_read (SmartDataframe._core a)) a,
                     <[l' := ODataFrame d]> h'))).
  { intros h' Hl' Hgood.
    assert (Hloaded' : loaded (SmartDataframe._core a) h' l d).
    { destruct Hloaded as (? & ? & _ & ?). now repeat split. }
    split; [assumption|]. exists (fresh (dom h')).
    unfold after_read. rewrite Hgood.
    assert (Hsame : SmartDataframe.set_core (SmartDataframe._core a) a = a) by now destruct a.
    rewrite Hsame, (sdf_dataframe_loaded _ _ _ _ Hloaded').
    unfold after_read. now rewrite Hgood, Hsame. }
  unfold More.__setitem__. unfold bind at 1.
  rewrite (sdf_dataframe_loaded _ _ _ _ Hloaded). fold h1. run.
  unfold store. cbn [fst snd].
  rewrite (deref_lookup h1 (fresh (dom h)) (ODataFrame d)) by apply lookup_insert_eq.
  destruct (obj_setitem (ODataFrame d) key value) as [o|e].
  - exists (Return tt), (<[fresh (dom h) := o]> h1).
    split; [reflexivity|]. split; [now apply Hkeep|]. split; [now apply Hkeep|].
    apply Hnext. now apply Hkeep.
  - exists (Raise e), h1.
    split; [reflexivity|]. split; [now apply Hkeep1|]. split; [assumption|].
    apply Hnext. now apply Hkeep1.
Qed.

(** X7: for a loaded holder, [rows_count], [columns_count] and [len] are
    the numbers of rows and of columns of the owned table, with or without a
    connector. *)
Theorem counts_of_a_loaded_table (a : SmartDataframe.state) h l d :
  loaded (SmartDataframe._core a) h l d ->
  fst (More.rows_count (a, h)) = Return (Count (Z.of_nat (df_rows d)))
  /\ fst (More.columns_count (a, h)) = Return (Count (Z.of_nat (length (df_columns d))))
  /\ fst (More.__len__ (a, h)) = Return (Z.of_nat (df_rows d)).
Proof.
  intros Hloaded. pose proof Hloaded as (Hld & _).
  unfold More.rows_count, More.columns_count, More.__len__.
  split; [|split].
  - unfold bind at 1. unfold get_self at 1. cbn [fst snd]. rewrite Hld.
    unfold bind at 1. now rewrite (read_object_loaded _ _ _ _ Hloaded).
  - unfold bind at 1. unfold get_self at 1. cbn [fst snd]. rewrite Hld.
    unfold bind at 1. now rewrite (read_object_loaded _ _ _ _ Hloaded).
  - unfold bind at 1. now rewrite (read_object_loaded _ _ _ _ Hloaded).
Qed.

Lemma the_connector_found {S} (st : S) h lc c :
  h !! lc = Some (OConnector c) ->
  Core.the_connector (Some lc) (st, h) = (Return c, (st, h)).
Proof.
  intros Hlc. unfold Core.the_connector. run. now rewrite (deref_lookup _ _ _ Hlc).
Qed.

Lemma rows_count_deferred (a : SmartDataframe.state) h lc c :
  deferred (SmartDataframe._core a) h lc c ->
  More.rows_count (a, h) = (Return (Count (conn_rows_count c)), (a, h)).
Proof.
  intros (Hld & Hc & Hlc).
  assert (Hconn : SmartDataframe.connector a = Some lc) by exact Hc.
  unfold More.rows_count. unfold bind at 1. unfold get_self at 1. cbn [fst snd].
  rewrite Hld, Hconn. rewrite bool_decide_eq_true_2 by discriminate.
  unfold bind at 1. now rewrite (the_connector_found _ _ _ _ Hlc).
Qed.

Lemma column_hash_deferred (a : SmartDataframe.state) h lc c :
  deferred (SmartDataframe._core a) h lc c ->
  SmartDataframe.column_hash (a, h) = (Return (conn_column_hash c), (a, h)).
Proof.
  intros (Hld & Hc & Hlc).
  assert (Hconn : SmartDataframe.connector a = Some lc) by exact Hc.
  unfold SmartDataframe.column_hash. unfold bind at 1. unfold get_self at 1.
  cbn [fst snd]. rewrite Hld, Hconn. rewrite bool_decide_eq_true_2 by discriminate.
  cbn [negb andb]. unfold bind at 1. now rewrite (the_connector_found _ _ _ _ Hlc).
Qed.

(** X8: a holder that is not loaded answers from its connector and fetches
    nothing: [rows_count], [columns_count] and [column_hash] are the
    connector's, the holder and the heap are as before, the sample head
    without a custom head is made from the connector's [head()] (none, if
    the connector has none), and [len] raises TypeError. *)
Theorem deferred_holder_answers_from_connector (a : SmartDataframe.state) h lc c :
  deferred (SmartDataframe._core a) h lc c ->
  More.rows_count (a, h) = (Return (Count (conn_rows_count c)), (a, h))
  /\ More.columns_count (a, h) = (Return (Count (conn_columns_count c)), (a, h))
  /\ SmartDataframe.column_hash (a, h) = (Return (conn_column_hash c), (a, h))
  /\ More.__len__ (a, h) = (Raise TypeError, (a, h))
  /\ SmartDataframe.dataframe (a, h) = (Return None, (a, h))
  /\ (SmartDataframe._custom_head a = None ->
      SmartDataframe._get_sample_head (a, h) =
        (match conn_head c with
         | None => Return None
         | Some head =>
             if SmartDataframe.lake_config_enforce_privacy a
             then Return (Some (sample head 0))
             else match SmartDataframe._truncate_head_columns
                          (ODataFrame (sample head 3)) 25 with
                  | Return t => Return (Some t)
                  | Raise e => Raise e
                  end
         end, (a, h))).
Proof.
  intros Hdef. pose proof Hdef as (Hld & Hc & Hlc).
  assert (Hconn : SmartDataframe.connector a = Some lc) by exact Hc.
  pose proof (fun S (st : S) => the_connector_found st h lc c Hlc) as Hthe.
  split; [|split; [|split; [|split; [|split]]]].
  - now apply (rows_count_deferred a h lc c).
  - unfold More.columns_count. unfold bind at 1. unfold get_self at 1. cbn [fst snd].
    rewrite Hld, Hconn. rewrite bool_decide_eq_true_2 by discriminate.
    unfold bind at 1. now rewrite Hthe.
  - now apply (column_hash_deferred a h lc c).
  - unfold More.__len__, More.read_object. unfold bind at 1 2.
    now rewrite (sdf_dataframe_unloaded _ _ Hld).
  - now apply sdf_dataframe_unloaded.
  - intros Hcustom. unfold SmartDataframe._get_sample_head.
    unfold bind at 1 2. unfold get_self at 1. cbn [fst snd].
    rewrite Hcustom, Hld, Hconn.
    rewrite bool_decide_eq_false_2 by (intros Hne; now apply Hne).
    rewrite bool_decide_eq_true_2 by discriminate. cbn [negb andb].
    unfold bind at 1. rewrite Hthe. unfold ret at 1.
    destruct (conn_head c) as [head|]; [|reflexivity].
    destruct (SmartDataframe.lake_config_enforce_privacy a); [reflexivity|].
    unfold bind, call, ret.
    now destruct (SmartDataframe._truncate_head_columns _ _).
Qed.

(** X9: asking a holder that is loaded for one use for its [rows_count] or
    its [column_hash] uses the load up.  The answer is that of the loaded
    table, and the holder is left unloaded: asked again it answers from the
    connector, with the connector's count and the connector's hash, and a
    read of [dataframe] returns nothing. *)
Theorem metadata_uses_up_a_temporary_load (a : SmartDataframe.state) h l d lc c :
  loaded (SmartDataframe._core a) h l d ->
  Core._temporary_loaded (SmartDataframe._core a) = true ->
  Core._connector (SmartDataframe._core a) = Some lc ->
  h !! lc = Some (OConnector c) ->
  let a' := SmartDataframe.set_core (unloaded (SmartDataframe._core a)) a in
  let h' := <[fresh (dom h) := ODataFrame d]> h in
  More.rows_count (a, h) = (Return (Count (Z.of_nat (df_rows d))), (a', h'))
  /\ snd (SmartDataframe.column_hash (a, h)) = (a', h')
  /\ More.rows_count (a', h') = (Return (Count (conn_rows_count c)), (a', h'))
  /\ SmartDataframe.column_hash (a', h') = (Return (conn_column_hash c), (a', h'))
  /\ SmartDataframe.dataframe (a', h') = (Return None, (a', h')).
Proof.
  intros Hloaded Htmp Hc Hlc a' h'.
  pose proof Hloaded as (Hld & _).
  assert (Hafter : after_read (SmartDataframe._core a) = unloaded (SmartDataframe._core a)).
  { unfold after_read, Core.has_connector. rewrite Hc, Htmp.
    now rewrite bool_decide_eq_true_2 by discriminate. }
  assert (Hdef : deferred (SmartDataframe._core a') h' lc c).
  { subst a' h'. repeat split; [exact Hc|].
    rewrite lookup_insert_ne; [assumption|apply (fresh_differs _ _ _ Hlc)]. }
  pose proof (rows_count_deferred a' h' lc c Hdef) as Hrows.
  pose proof (column_hash_deferred a' h' lc c Hdef) as Hhash.
  assert (Hread : SmartDataframe.dataframe (a', h') = (Return None, (a', h')))
    by now apply sdf_dataframe_unloaded.
  split; [|split; [|now repeat split]].
  - unfold More.rows_count. unfold bind at 1. unfold get_self at 1. cbn [fst snd].
    rewrite Hld. unfold bind at 1.
    rewrite (read_object_loaded _ _ _ _ Hloaded), Hafter. reflexivity.
  - unfold SmartDataframe.column_hash. unfold bind at 1. unfold get_self at 1.
    cbn [fst snd]. rewrite Hld. cbn [negb andb]. unfold bind at 1.
    rewrite (sdf_dataframe_loaded _ _ _ _ Hloaded), Hafter. fold a' h'.
    unfold SmartDataframe.columns_of. run. unfold deref. subst h'.
    rewrite lookup_insert_eq. cbn.
    destruct (SmartDataframe.join _) as [columns_str|e]; [|reflexivity].
    now destruct (encode columns_str).
Qed.

(** ** Splitting an import path *)

Lemma startswith_cons x s c p :
  startswith (x :: s) (c :: p) = bool_decide (x = c) && startswith s p.
Proof.
  unfold startswith. destruct (decide (x = c)) as [->|Hne].
  - rewrite (bool_decide_eq_true_2 (c = c)) by reflexivity. cbn [andb].
    apply bool_decide_ext. split; [apply prefix_cons_inv_2|apply prefix_cons].
  - rewrite (bool_decide_eq_false_2 (x = c)) by assumption. cbn [andb].
    apply bool_decide_eq_false_2. intros Hp. apply prefix_cons_inv_1 in Hp. congruence.
Qed.

Lemma startswith_app sep a : startswith (sep ++ a) sep = true.
Proof. unfold startswith. apply bool_decide_eq_true_2. now exists a. Qed.

Lemma partition_eq sep s :
  partition sep s =
    if startswith s sep then Some ([], drop (length sep) s)
    else match s with
         | [] => None
         | c :: s' =>
             match partition sep s' with
             | Some (before, after) => Some (c :: before, after)
             | None => None
             end
         end.
Proof. now destruct s. Qed.

Lemma partition_here sep a : partition sep (sep ++ a) = Some ([], a).
Proof. now rewrite partition_eq, startswith_app, drop_app_length. Qed.

Lemma partition_skip c sep before s :
  c ∉ before ->
  partition (c :: sep) (before ++ s) =
    match partition (c :: sep) s with
    | Some (b, a) => Some (before ++ b, a)
    | None => None
    end.
Proof.
  induction before as [|x before IH]; intros Hnot.
  - cbn [app]. now destruct (partition _ s) as [[]|].
  - apply not_elem_of_cons in Hnot as [Hne Hnot].
    rewrite (partition_eq _ ((x :: before) ++ s)). cbn [app].
    rewrite startswith_cons, (bool_decide_eq_false_2 (x = c)) by congruence.
    cbn [andb]. rewrite (IH Hnot). now destruct (partition _ s) as [[]|].
Qed.

Lemma partition_none c sep s : c ∉ s -> partition (c :: sep) s = None.
Proof.
  induction s as [|x s IH]; intros Hnot.
  - reflexivity.
  - apply not_elem_of_cons in Hnot as [Hne Hnot].
    rewrite partition_eq, startswith_cons, (bool_decide_eq_false_2 (x = c)) by congruence.
    cbn [andb]. now rewrite (IH Hnot).
Qed.

Lemma startswith_drop s sep :
  startswith s sep = true -> s = sep ++ drop (length sep) s.
Proof.
  intros Hs. apply bool_decide_eq_true in Hs as [k ->]. now rewrite drop_app_length.
Qed.

Lemma partition_spec sep s : forall b a,
  partition sep s = Some (b, a) -> s = b ++ sep ++ a.
Proof.
  induction s as [|x s IH]; intros b a; rewrite partition_eq;
    destruct (startswith _ sep) eqn:Hs.
  - intros [= <- <-]. now apply startswith_drop.
  - discriminate.
  - intros [= <- <-]. now apply startswith_drop.
  - destruct (partition sep s) as [[b' a']|]; [|discriminate].
    intros [= <- <-]. cbn [app]. f_equal. now apply IH.
Qed.

(** The cuts allowed are enough. *)
Lemma split_upto_enough c sep n : forall m s,
  (length s <= n)%nat -> (length s <= m)%nat ->
  split_upto n (c :: sep) s = split_upto m (c :: sep) s.
Proof.
  induction n as [|n IH]; intros m s Hn Hm.
  - destruct s; [|cbn in Hn; lia]. now destruct m.
  - destruct m as [|m].
    + destruct s; [|cbn in Hm; lia]. reflexivity.
    + cbn [split_upto]. destruct (partition (c :: sep) s) as [[b a]|] eqn:Hp; [|reflexivity].
      apply partition_spec in Hp. rewrite Hp in Hn, Hm.
      rewrite !length_app in Hn, Hm. cbn [length] in Hn, Hm.
      f_equal. apply IH; lia.
Qed.

Lemma split_cut c sep s b a :
  partition (c :: sep) s = Some (b, a) ->
  split s (c :: sep) = b :: split a (c :: sep).
Proof.
  intros Hp. pose proof (partition_spec _ _ _ _ Hp) as Hs.
  assert (Hlen : (length a < length s)%nat).
  { rewrite Hs, !length_app. cbn [length]. lia. }
  unfold split. destruct (length s) as [|n]; [lia|].
  cbn [split_upto]. rewrite Hp. f_equal. apply split_upto_enough; lia.
Qed.

Lemma split_whole c sep s :
  partition (c :: sep) s = None -> split s (c :: sep) = [s].
Proof.
  intros Hp. unfold split. destruct (length s); cbn [split_upto]; now rewrite ?Hp.
Qed.

(** A field before a separator, and the last field. *)
Lemma split_field c sep x rest :
  c ∉ x -> split (x ++ (c :: sep) ++ rest) (c :: sep) = x :: split rest (c :: sep).
Proof.
  intros Hnot. apply split_cut.
  now rewrite (partition_skip _ _ _ _ Hnot), partition_here, app_nil_r.
Qed.

Lemma split_last c sep x : c ∉ x -> split x (c :: sep) = [x].
Proof. intros Hnot. now apply split_whole, partition_none. Qed.

Lemma contains_eq s p :
  contains s p = startswith s p || match s with [] => false | _ :: s' => contains s' p end.
Proof. now destruct s. Qed.

Lemma contains_app a p b : contains (a ++ p ++ b) p = true.
Proof.
  induction a as [|x a IH]; rewrite contains_eq.
  - cbn [app]. now rewrite startswith_app.
  - cbn [app]. rewrite IH. apply orb_true_r.
Qed.

(** After the scheme, an import path without a colon has no port to split
    off. *)
Lemma connector_config_needs_a_colon scheme rest :
  colon ∉ scheme -> colon ∉ rest ->
  More.connector_config (scheme ++ py "://" ++ rest) = Raise IndexError.
Proof.
  intros Hscheme Hrest. unfold More.connector_config.
  change (py "://") with [colon; slash; slash]. change (py ":") with [colon].
  rewrite (split_field _ _ _ _ Hscheme), (split_last _ _ _ Hrest).
  cbn [item lookup list_lookup and_then]. now rewrite (split_last _ _ _ Hrest).
Qed.

(** The fields of a well-formed import path, with or without more segments
    after the table. *)
Lemma connector_config_fields name host port db table more :
  colon ∉ name -> colon ∉ host ->
  colon ∉ port -> slash ∉ port -> colon ∉ db -> slash ∉ db ->
  colon ∉ table -> slash ∉ table ->
  port <> [] \/ db <> [] ->
  more = [] \/ (exists segments, more = slash :: segments /\ colon ∉ segments) ->
  More.connector_config
    (name ++ py "://" ++ host ++ py ":" ++ port ++ py "/" ++ db ++ py "/" ++ table ++ more)
  = Return (name, mkConfig host db table
                    (if bool_decide (port = []) then None else Some port)).
Proof.
  intros Hname Hhost Hport Hport' Hdb Hdb' Htable Htable' Hsome Hmore.
  unfold More.connector_config.
  change (py "://") with [colon; slash; slash].
  change (py ":") with [colon]. change (py "/") with [slash].
  set (after_host := port ++ [slash] ++ db ++ [slash] ++ table ++ more).
  assert (Hcolon_more : colon ∉ more).
  { destruct Hmore as [-> | (segments & -> & Hseg)].
    - apply not_elem_of_nil.
    - apply not_elem_of_cons. split; [discriminate|assumption]. }
  assert (Hafter : colon ∉ after_host).
  { subst after_host. rewrite !not_elem_of_app, !not_elem_of_cons.
    repeat split; try assumption; try discriminate; apply not_elem_of_nil. }
  assert (Hstart : startswith after_host [slash; slash] = false).
  { subst after_host. destruct port as [|p port].
    - destruct db as [|q db]; [destruct Hsome; congruence|].
      cbn [app]. rewrite !startswith_cons.
      apply not_elem_of_cons in Hdb' as [Hq _].
      rewrite (bool_decide_eq_false_2 (q = slash)) by congruence.
      now rewrite andb_false_r.
    - cbn [app]. rewrite startswith_cons.
      apply not_elem_of_cons in Hport' as [Hp _].
      now rewrite (bool_decide_eq_false_2 (p = slash)) by congruence. }
  assert (Hpath : split (host ++ [colon] ++ after_host) [colon; slash; slash]
                  = [host ++ [colon] ++ after_host]).
  { apply split_whole. rewrite (partition_skip _ _ _ _ Hhost).
    rewrite (partition_eq _ ([colon] ++ after_host)). cbn [app].
    rewrite startswith_cons, Hstart, andb_false_r.
    now rewrite (partition_none _ _ _ Hafter). }
  assert (Hslash : exists rest, split after_host [slash] = port :: db :: table :: rest).
  { subst after_host. rewrite (split_field _ _ _ _ Hport'), (split_field _ _ _ _ Hdb').
    destruct Hmore as [-> | (segments & -> & _)].
    - rewrite app_nil_r, (split_last _ _ _ Htable'). now exists [].
    - change (table ++ slash :: segments) with (table ++ [slash] ++ segments).
      rewrite (split_field _ _ _ _ Htable'). eauto. }
  destruct Hslash as (rest & Hslash).
  rewrite (split_field _ _ _ _ Hname), Hpath.
  cbn [item lookup list_lookup and_then].
  rewrite (split_field _ _ _ _ Hhost), (split_last _ _ _ Hafter).
  cbn [item lookup list_lookup and_then]. rewrite Hslash. reflexivity.
Qed.

(** X10: an import path [name://host:port/database/table], whose fields
    hold no colon and no slash (the name may hold slashes), is taken apart
    into exactly these fields; the port is left out of the connector's
    configuration when it is the empty string. *)
Theorem import_path_is_taken_apart name host port db table :
  colon ∉ name -> colon ∉ host ->
  colon ∉ port -> slash ∉ port -> colon ∉ db -> slash ∉ db ->
  colon ∉ table -> slash ∉ table ->
  port <> [] \/ db <> [] ->
  More.connector_config
    (name ++ py "://" ++ host ++ py ":" ++ port ++ py "/" ++ db ++ py "/" ++ table)
  = Return (name, mkConfig host db table
                    (if bool_decide (port = []) then None else Some port))
  /\ More._instantiate_connector
       (name ++ py "://" ++ host ++ py ":" ++ port ++ py "/" ++ db ++ py "/" ++ table)
     = import_and_instantiate name
         (mkConfig host db table (if bool_decide (port = []) then None else Some port)).
Proof.
  intros Hname Hhost Hport Hport' Hdb Hdb' Htable Htable' Hsome.
  pose proof (connector_config_fields name host port db table []
                Hname Hhost Hport Hport' Hdb Hdb' Htable Htable' Hsome (or_introl eq_refl))
    as Hfields.
  rewrite app_nil_r in Hfields.
  split; [assumption|]. unfold More._instantiate_connector. now rewrite Hfields.
Qed.

(** X11: what follows the table in an import path is ignored: with one more
    slash and any segments after it, the fields are those of the path
    without them. *)
Theorem import_path_ignores_what_follows_the_table name host port db table segments :
  colon ∉ name -> colon ∉ host ->
  colon ∉ port -> slash ∉ port -> colon ∉ db -> slash ∉ db ->
  colon ∉ table -> slash ∉ table ->
  port <> [] \/ db <> [] ->
  colon ∉ segments ->
  More.connector_config
    (name ++ py "://" ++ host ++ py ":" ++ port ++ py "/" ++ db ++ py "/" ++ table
       ++ py "/" ++ segments)
  = More.connector_config
      (name ++ py "://" ++ host ++ py ":" ++ port ++ py "/" ++ db ++ py "/" ++ table).
Proof.
  intros Hname Hhost Hport Hport' Hdb Hdb' Htable Htable' Hsome Hseg.
  pose proof (connector_config_fields name host port db table []
                Hname Hhost Hport Hport' Hdb Hdb' Htable Htable' Hsome (or_introl eq_refl))
    as Hshort.
  rewrite app_nil_r in Hshort. rewrite Hshort.
  apply (connector_config_fields name host port db table (slash :: segments));
    try assumption.
  right. now exists segments.
Qed.


(** ** The truncation keeps the shape *)

Lemma for_each_Forall2 {A B} (f : A -> Outcome B) l : forall ys,
  SmartDataframe.for_each f l = Return ys -> Forall2 (fun x y => f x = Return y) l ys.
Proof.
  induction l as [|x l IH]; intros ys; cbn [SmartDataframe.for_each].
  - intros [= <-]. constructor.
  - destruct (f x) as [y|e] eqn:Hx; [|discriminate].
    destruct (SmartDataframe.for_each f l) as [ys'|e]; [|discriminate].
    intros [= <-]. constructor; [assumption|now apply IH].
Qed.

Lemma truncate_column_eager_kept d max_size c c' :
  SmartDataframe.truncate_column_eager d max_size c = Return c' -> kept d c c'.
Proof.
  unfold SmartDataframe.truncate_column_eager, kept.
  destruct (_ <? _)%nat; [discriminate|].
  destruct (bool_decide (col_dtype c = dtype_object)) eqn:Hobj;
    [apply bool_decide_eq_true in Hobj|intros [= <-]; now repeat split].
  destruct (col_values c) as [|[first_val| | |] rest] eqn:Hvals;
    try discriminate; try (intros [= <-]; rewrite Hvals; now repeat split).
  destruct (_ <? _); intros [= <-]; [|rewrite Hvals; now repeat split].
  cbn [col_label col_dtype col_values]. rewrite repeat_length.
  split; [reflexivity|]. split; [congruence|]. split; [reflexivity|congruence].
Qed.

Lemma truncate_column_polars_same d max_size c c' :
  SmartDataframe.truncate_column_polars d max_size c = Return c' -> c' = c.
Proof.
  unfold SmartDataframe.truncate_column_polars.
  destruct (bool_decide _); [|now intros [= <-]].
  destruct (col_values c) as [|[first_val| | |] rest];
    try discriminate; try (now intros [= <-]).
  destruct (_ <? _); [discriminate|now intros [= <-]].
Qed.

Lemma kept_columns d cols cols' :
  Forall2 (kept d) cols cols' ->
  map col_label cols' = map col_label cols
  /\ map col_dtype cols' = map col_dtype cols
  /\ (Forall (fun col => length (col_values col) = df_rows d) cols ->
      Forall (fun col => length (col_values col) = df_rows d) cols')
  /\ Forall2 (fun c c' => col_dtype c <> dtype_object -> c' = c) cols cols'.
Proof.
  induction 1 as [|c c' cols cols' (Hl & Ht & Hlen & Hsame) _ (IHl & IHt & IHlen & IHsame)].
  - repeat split; constructor.
  - cbn [map]. rewrite Hl, Ht, IHl, IHt. split; [reflexivity|]. split; [reflexivity|].
    split; [|now constructor].
    intros Hall. apply Forall_cons in Hall as [Hc Hall].
    constructor; [now apply Hlen|now apply IHlen].
Qed.

(** X13: when [_truncate_head_columns] returns, its result has the engine,
    the number of rows, the column labels in their order and the dtypes of
    the table it was given; every column has one value per row if that was so
    before; columns that are not of dtype object are as they were; and a
    polars table comes back as it was given (the branch never shortens
    anything: it returns the table or raises). *)
Theorem truncation_keeps_the_shape o max_size t :
  SmartDataframe._truncate_head_columns o max_size = Return t ->
  exists d,
    o = ODataFrame d
    /\ df_backend t = df_backend d /\ df_rows t = df_rows d
    /\ map col_label (df_columns t) = map col_label (df_columns d)
    /\ map col_dtype (df_columns t) = map col_dtype (df_columns d)
    /\ (rectangular d -> rectangular t)
    /\ Forall2 (fun c c' => col_dtype c <> dtype_object -> c' = c)
         (df_columns d) (df_columns t)
    /\ (df_backend d = polars -> t = d).
Proof.
  unfold SmartDataframe._truncate_head_columns.
  destruct o as [d| | | |]; cbn [df_type]; try discriminate.
  - assert (Heager : forall cols,
      SmartDataframe.for_each (SmartDataframe.truncate_column_eager d max_size) (df_columns d)
        = Return cols ->
      df_backend d <> polars ->
      let t := mkDataFrame (df_backend d) (df_rows d) cols in
      df_backend t = df_backend d /\ df_rows t = df_rows d
      /\ map col_label (df_columns t) = map col_label (df_columns d)
      /\ map col_dtype (df_columns t) = map col_dtype (df_columns d)
      /\ (rectangular d -> rectangular t)
      /\ Forall2 (fun c c' => col_dtype c <> dtype_object -> c' = c)
           (df_columns d) (df_columns t)
      /\ (df_backend d = polars -> t = d)).
    { intros cols Hcols Hnot. apply for_each_Forall2 in Hcols.
      assert (Hkept : Forall2 (kept d) (df_columns d) cols).
      { eapply Forall2_impl; [exact Hcols|].
        intros c c'. apply truncate_column_eager_kept. }
      destruct (kept_columns _ _ _ Hkept) as (Hl & Ht & Hlen & Hsame).
      cbn [df_backend df_rows df_columns]. unfold rectangular.
      cbn [df_rows df_columns]. now repeat split. }
    destruct (df_backend d) eqn:Hb.
    + destruct (SmartDataframe.for_each _ _) as [cols|e] eqn:Hcols; [|discriminate].
      intros [= <-]. exists d. split; [reflexivity|].
      rewrite Hb. apply (Heager cols eq_refl). discriminate.
    + destruct (SmartDataframe.for_each _ _) as [cols|e] eqn:Hcols; [|discriminate].
      intros [= <-]. exists d. split; [reflexivity|].
      rewrite Hb. apply (Heager cols eq_refl). discriminate.
    + clear Heager.
      destruct (SmartDataframe.for_each _ _) as [cols|e] eqn:Hcols; [|discriminate].
      intros [= <-]. exists d. split; [reflexivity|].
      apply for_each_Forall2 in Hcols.
      assert (Hsame : cols = df_columns d).
      { clear Hb. induction Hcols as [|c c' l l' Hc _ IH]; [reflexivity|].
        apply truncate_column_polars_same in Hc. now rewrite Hc, IH. }
      assert (Ht : mkDataFrame polars (df_rows d) (df_columns d) = d)
        by (rewrite <- Hb; now destruct d).
      rewrite Hsame, Ht.
      split; [reflexivity|]. split; [reflexivity|]. split; [reflexivity|].
      split; [reflexivity|]. split; [auto|]. split; [|reflexivity].
      clear. induction (df_columns d); constructor; auto.
Qed.

(** ** The column hash is a hexadecimal string *)

Lemma hex_digit_ok d : 0 <= d < 16 -> is_hex_digit (SHA256.hex_digit d) = true.
Proof.
  intros Hd. unfold is_hex_digit, SHA256.hex_digit.
  destruct (Z.ltb_spec d 10);
    rewrite orb_true_iff, !andb_true_iff, !N.leb_le; lia.
Qed.

Lemma hex_byte_ok b :
  0 <= b < 256 -> forallb is_hex_digit (SHA256.hex_byte b) = true.
Proof.
  intros Hb. unfold SHA256.hex_byte. cbn [forallb].
  rewrite Z.shiftr_div_pow2 by lia. change 15 with (Z.ones 4).
  rewrite Z.land_ones by lia.
  rewrite !hex_digit_ok; [reflexivity| |].
  - apply Z.mod_pos_bound. lia.
  - change (2 ^ 4) with 16. split; [apply Z.div_pos; lia|].
    apply Z.div_lt_upper_bound; lia.
Qed.

Lemma be_bytes_range n x : Forall (fun b => 0 <= b < 256) (SHA256.be_bytes n x).
Proof.
  unfold SHA256.be_bytes. apply Forall_map, Forall_forall. intros i _. cbn beta.
  change 255 with (Z.ones 8). rewrite Z.land_ones by lia.
  apply Z.mod_pos_bound. lia.
Qed.

Lemma hexdigest_shape msg :
  length (SHA256.hexdigest msg) = 64%nat
  /\ forallb is_hex_digit (SHA256.hexdigest msg) = true.
Proof.
  unfold SHA256.hexdigest, SHA256.digest.
  set (r := fold_left _ _ _). cbn [flat_map]. rewrite app_nil_r.
  split.
  - rewrite flat_map_concat_map, length_concat, map_map.
    unfold SHA256.hex_byte. cbn [length].
    rewrite !map_app. unfold SHA256.be_bytes. cbn. reflexivity.
  - apply forallb_forall. intros c Hc. apply in_flat_map in Hc as (b & Hb & Hc).
    assert (Hrange : 0 <= b < 256).
    { repeat (apply in_app_or in Hb as [Hb|Hb];
              [exact (proj1 (List.Forall_forall _ _) (be_bytes_range _ _) b Hb)|]).
      exact (proj1 (List.Forall_forall _ _) (be_bytes_range _ _) b Hb). }
    pose proof (hex_byte_ok b Hrange) as Hall.
    rewrite forallb_forall in Hall. now apply Hall.
Qed.

(** X14: for a loaded table whose column labels are strings that UTF-8
    can encode, [column_hash] returns, and what it returns is a string of 64
    lowercase hexadecimal digits. *)
Theorem column_hash_is_64_hex_digits (a : SmartDataframe.state) h l d names bytes :
  loaded (SmartDataframe._core a) h l d ->
  SmartDataframe.join (map col_label (df_columns d)) = Return names ->
  encode names = Some bytes ->
  exists s,
    fst (SmartDataframe.column_hash (a, h)) = Return s
    /\ length s = 64%nat /\ forallb is_hex_digit s = true.
Proof.
  intros Hloaded Hnames Hbytes. exists (SHA256.hexdigest bytes).
  rewrite (column_hash_loaded _ _ _ _ Hloaded), Hnames, Hbytes.
  split; [reflexivity|apply hexdigest_shape].
Qed.

(** ** The cached heads *)

Lemma head_df_eq (x : More.Cached) h :
  More.head_df (x, h) =
    match More.head_df_value x with
    | Some v => (Return v, (x, h))
    | None =>
        match SmartDataframe._get_sample_head (More.this x, h) with
        | (Return v, (s1, h1)) =>
            (Return v, (More.mkCached s1 (Some v) (More.head_csv_value x), h1))
        | (Raise e, (s1, h1)) => (Raise e, (More.set_this s1 x, h1))
        end
    end.
Proof.
  unfold More.head_df. run. destruct (More.head_df_value x); [reflexivity|].
  now destruct (SmartDataframe._get_sample_head _) as [[v|e] [s1 h1]].
Qed.

Lemma head_csv_eq (x : More.Cached) h :
  More.head_csv (x, h) =
    match More.head_csv_value x with
    | Some v => (Return v, (x, h))
    | None =>
        match SmartDataframe._get_sample_head (More.this x, h) with
        | (Return (Some d), (s1, h1)) =>
            (Return (to_csv d),
             (More.mkCached s1 (More.head_df_value x) (Some (to_csv d)), h1))
        | (Return None, (s1, h1)) => (Raise AttributeError, (More.set_this s1 x, h1))
        | (Raise e, (s1, h1)) => (Raise e, (More.set_this s1 x, h1))
        end
    end.
Proof.
  unfold More.head_csv. run. destruct (More.head_csv_value x); [reflexivity|].
  now destruct (SmartDataframe._get_sample_head _) as [[[d|]|e] [s1 h1]].
Qed.

(** ** Building SmartDataframes *)

(** X17: [load_smartdataframes] leaves SmartDataframes as they are: on a
    list of SmartDataframes it returns the list, and constructs nothing. *)
Theorem load_smartdataframes_passes_through (sdfs : list SmartDataframe.state) p st :
  More.load_smartdataframes (map More.is_SmartDataframe sdfs) p st = (Return sdfs, st).
Proof.
  induction sdfs as [|s sdfs IH]; cbn [map More.load_smartdataframes].
  - now destruct st.
  - unfold bind at 1. unfold ret at 1. unfold bind at 1. rewrite IH.
    unfold ret. now destruct st.
Qed.

Lemma load_smartdataframes_app pre post p st :
  More.load_smartdataframes (pre ++ post) p st =
    match More.load_smartdataframes pre p st with
    | (Return mid, st1) =>
        match More.load_smartdataframes post p st1 with
        | (Return rest, st2) => (Return (mid ++ rest), st2)
        | (Raise e, st2) => (Raise e, st2)
        end
    | (Raise e, st1) => (Raise e, st1)
    end.
Proof.
  revert st. induction pre as [|df pre IH]; intros st; cbn [app More.load_smartdataframes].
  - unfold ret at 1. now destruct (More.load_smartdataframes post p st) as [[rest|e] st2].
  - unfold bind at 1 3.
    match goal with |- context [let (_, _) := ?m st in _] =>
      destruct (m st) as [[s|e] st0] end; [|reflexivity].
    unfold bind. rewrite IH.
    destruct (More.load_smartdataframes pre p st0) as [[mid|e] st1]; [|reflexivity].
    unfold ret.
    now destruct (More.load_smartdataframes post p st1) as [[rest|e] st2].
Qed.

Lemma load_smartdataframes_returns dfs p : forall h out h',
  More.load_smartdataframes dfs p (tt, h) = (Return out, (tt, h')) ->
  constructed_in_order p dfs out h h'.
Proof.
  induction dfs as [|df dfs IH]; intros h out h'; cbn [More.load_smartdataframes].
  - unfold ret. now intros [= <- <-].
  - unfold bind at 1. destruct df as [s0|v].
    + unfold ret at 1. unfold bind at 1.
      destruct (More.load_smartdataframes dfs p (tt, h)) as [[rest|e] [[] h1]] eqn:Hrest;
        [|discriminate].
      unfold ret. intros [= <- <-]. cbn [constructed_in_order].
      split; [reflexivity|now apply IH].
    + destruct (SmartDataframe.__init__ v None p (tt, h)) as [[s|e] [[] h1]] eqn:Hinit;
        [|discriminate].
      unfold bind at 1.
      destruct (More.load_smartdataframes dfs p (tt, h1)) as [[rest|e] [[] h2]] eqn:Hrest;
        [|discriminate].
      unfold ret. intros [= <- <-]. cbn [constructed_in_order].
      exists h1. split; [assumption|now apply IH].
Qed.

Lemma load_smartdataframes_constructs dfs p : forall h out h',
  constructed_in_order p dfs out h h' ->
  More.load_smartdataframes dfs p (tt, h) = (Return out, (tt, h')).
Proof.
  induction dfs as [|df dfs IH]; intros h out h';
    cbn [More.load_smartdataframes constructed_in_order].
  - destruct out; [now intros ->|intros []].
  - destruct df as [s0|v]; destruct out as [|s out].
    + intros [].
    + intros [-> Hout]. unfold bind at 1. unfold ret at 1. unfold bind at 1.
      now rewrite (IH _ _ _ Hout).
    + intros [].
    + intros (h1 & Hinit & Hout). unfold bind at 1. rewrite Hinit. unfold bind at 1.
      now rewrite (IH _ _ _ Hout).
Qed.

(** X18: [load_smartdataframes] returns exactly when every item that is not
    a SmartDataframe can be constructed, one after the other, each in the
    heap the one before left; what it returns is then, in the order of the
    items, the item itself where it was a SmartDataframe and the
    SmartDataframe constructed from the item where it was not, with the
    privacy setting of the configuration and without a custom head.  When the
    construction of an item raises, so does [load_smartdataframes], with the
    same exception, and the items after it are not looked at.  A list of
    DataFrames that pass the engine check gives holders that own these very
    objects, in order, and the heap is as before. *)
Theorem load_smartdataframes_keeps_order dfs p h :
  (forall out h',
     More.load_smartdataframes dfs p (tt, h) = (Return out, (tt, h'))
     <-> constructed_in_order p dfs out h h')
  /\ (forall pre v post mid hm e st,
        dfs = pre ++ More.anything_else v :: post ->
        More.load_smartdataframes pre p (tt, h) = (Return mid, (tt, hm)) ->
        SmartDataframe.__init__ v None p (tt, hm) = (Raise e, st) ->
        More.load_smartdataframes dfs p (tt, h) = (Raise e, st))
  /\ (forall ls,
        dfs = map (fun l => More.anything_else (VRef l)) ls ->
        (forall l, In l ls -> exists d, h !! l = Some (ODataFrame d) /\ accepted d = true) ->
        More.load_smartdataframes dfs p (tt, h)
        = (Return (map (fun l => SmartDataframe.mkSmartDataframe
                                   (Core.mkCore (Some l) true false None (df_type (deref h l)))
                                   None p) ls),
           (tt, h))).
Proof.
  split; [|split].
  - intros out h'. split.
    + apply load_smartdataframes_returns.
    + apply load_smartdataframes_constructs.
  - intros pre v post mid hm e st -> Hpre Hinit.
    rewrite load_smartdataframes_app, Hpre. cbn [More.load_smartdataframes].
    unfold bind at 1. now rewrite Hinit.
  - intros ls -> Hall. induction ls as [|l ls IH]; [reflexivity|].
    cbn [map More.load_smartdataframes]. unfold bind at 1.
    destruct (Hall l (or_introl eq_refl)) as (d & Hl & Hok).
    assert (Hinit : SmartDataframe.__init__ (VRef l) None p (tt, h) =
              (Return (SmartDataframe.mkSmartDataframe
                         (Core.mkCore (Some l) true false None (df_type (deref h l)))
                         None p), (tt, h))).
    { unfold SmartDataframe.__init__. run.
      rewrite (core_init_direct _ _ _ Hl), Hok.
      now rewrite (deref_lookup _ _ _ Hl). }
    rewrite Hinit. unfold bind at 1.
    rewrite IH by (intros l0 Hl0; apply Hall; now right). reflexivity.
Qed.

Lemma not_an_import_path name :
  SmartDataframe.is_import_path name = false ->
  Core._import_from_file name = Raise InvalidFileFormat.
Proof.
  unfold SmartDataframe.is_import_path, Core._import_from_file.
  rewrite !orb_false_iff. intros [[[-> ->] ->] ->]. reflexivity.
Qed.

Lemma core_init_not_a_path name h :
  SmartDataframe.is_import_path name = false ->
  Core.__init__ (VStr name) (tt, h) = (Raise InvalidFileFormat, (tt, h)).
Proof.
  intros Hname. unfold Core.__init__, construct, Core._load_dataframe. cbn [snd].
  unfold bind at 1. unfold get_heap at 1. cbn [fst snd].
  unfold bind at 1. unfold call at 1. now rewrite (not_an_import_path _ Hname).
Qed.

(** X19: a string that is no path and no spreadsheet URL is the name of a
    saved configuration for [SmartDataframe], while the core alone refuses
    it as a file of no known format.  Without such a configuration the
    constructor raises ConfigNotFound and allocates nothing.  With one whose
    import path is a path, the SmartDataframe is the one the path itself
    gives; and an import path that is again a mere name is not looked up a
    second time: InvalidFileFormat. *)
Theorem a_name_is_looked_up_once name ch p h :
  SmartDataframe.is_import_path name = false ->
  Core.__init__ (VStr name) (tt, h) = (Raise InvalidFileFormat, (tt, h))
  /\ (load_from_config name = None ->
      SmartDataframe.__init__ (VStr name) ch p (tt, h) = (Raise ConfigNotFound, (tt, h)))
  /\ (forall path,
        load_from_config name = Some path -> contains path (py "://") = false ->
        if SmartDataframe.is_import_path path
        then SmartDataframe.__init__ (VStr name) ch p (tt, h)
             = SmartDataframe.__init__ (VStr path) ch p (tt, h)
        else SmartDataframe.__init__ (VStr name) ch p (tt, h)
             = (Raise InvalidFileFormat, (tt, h))).
Proof.
  intros Hname. split; [now apply core_init_not_a_path|]. split.
  - intros Hnone. unfold SmartDataframe.__init__. unfold bind at 1.
    now rewrite Hname, Hnone.
  - intros path Hsome Hplain.
    unfold SmartDataframe.__init__. unfold bind at 1. rewrite Hname, Hsome, Hplain.
    unfold ret at 1.
    destruct (SmartDataframe.is_import_path path) eqn:Hpath.
    + reflexivity.
    + run. now rewrite (core_init_not_a_path _ _ Hpath).
Qed.

(** X20: a saved configuration whose import path is a connector URL gives
    a SmartDataframe that holds the connector and is not loaded: the heap has
    gained the connector and nothing else, so nothing has been fetched. *)
Theorem saved_connector_is_deferred name path c ch p h :
  SmartDataframe.is_import_path name = false ->
  load_from_config name = Some path ->
  contains path (py "://") = true ->
  instantiate_connector path = Return c ->
  exists a,
    SmartDataframe.__init__ (VStr name) ch p (tt, h)
      = (Return a, (tt, <[fresh (dom h) := OConnector c]> h))
    /\ deferred (SmartDataframe._core a) (<[fresh (dom h) := OConnector c]> h)
         (fresh (dom h)) c
    /\ Core._df (SmartDataframe._core a) = None
    /\ Core._engine (SmartDataframe._core a) = None
    /\ SmartDataframe._custom_head a = option_map to_csv ch
    /\ SmartDataframe.lake_config_enforce_privacy a = p.
Proof.
  intros Hname Hsome Hurl Hconn.
  exists (SmartDataframe.mkSmartDataframe
            (Core.mkCore None false false (Some (fresh (dom h))) None)
            (option_map to_csv ch) p).
  split.
  - unfold SmartDataframe.__init__. unfold bind at 1. rewrite Hname, Hsome, Hurl.
    unfold bind at 1. unfold call at 1. rewrite Hconn.
    unfold bind at 1. unfold alloc at 1. cbn [fst snd]. unfold ret at 1.
    unfold bind at 1.
    unfold Core.__init__, construct, Core._load_dataframe. cbn [snd].
    unfold bind at 1. unfold get_heap at 1. cbn [fst snd].
    rewrite (deref_lookup _ _ (OConnector c)) by apply lookup_insert_eq.
    reflexivity.
  - cbn [SmartDataframe._core SmartDataframe._custom_head
         SmartDataframe.lake_config_enforce_privacy Core._df Core._engine].
    repeat split. apply lookup_insert_eq.
Qed.

(** X21: when the connector of an import path is made by
    [_instantiate_connector], a saved configuration whose import path has no
    colon after the scheme cannot be loaded: the constructor raises
    IndexError.  The URL of a remote spreadsheet is such a path, although the
    constructor takes the same URL when it is given directly. *)
Theorem saved_url_without_port_cannot_be_loaded name scheme rest ch p h :
  (forall s, instantiate_connector s = More._instantiate_connector s) ->
  SmartDataframe.is_import_path name = false ->
  load_from_config name = Some (scheme ++ py "://" ++ rest) ->
  colon ∉ scheme -> colon ∉ rest ->
  SmartDataframe.__init__ (VStr name) ch p (tt, h) = (Raise IndexError, (tt, h)).
Proof.
  intros Hsame Hname Hsome Hscheme Hrest.
  unfold SmartDataframe.__init__. unfold bind at 1.
  rewrite Hname, Hsome, contains_app.
  unfold bind at 1. unfold call at 1.
  rewrite Hsame. unfold More._instantiate_connector.
  now rewrite (connector_config_needs_a_colon _ _ Hscheme Hrest).
Qed.

(** ** The two heads of a load for one use *)

Lemma sample_head_loaded (a : SmartDataframe.state) h l d :
  SmartDataframe._custom_head a = None ->
  loaded (SmartDataframe._core a) h l d ->
  SmartDataframe._get_sample_head (a, h) =
    (sampled (SmartDataframe.lake_config_enforce_privacy a)
       (Some (SmartDataframe.df_head
                (if SmartDataframe.lake_config_enforce_privacy a then 0 else 3)%nat d)),
     (SmartDataframe.set_core (after_read (SmartDataframe._core a)) a,
      <[fresh (dom h) := ODataFrame d]> h)).
Proof.
  intros Hcustom Hloaded. pose proof Hloaded as (Hld & _).
  unfold SmartDataframe._get_sample_head, sampled.
  unfold bind at 1 2. unfold get_self at 1. cbn [fst snd].
  rewrite Hcustom, Hld. cbn [negb andb].
  rewrite bool_decide_eq_false_2 by (intros Hne; now apply Hne).
  unfold bind at 1. rewrite (sdf_dataframe_loaded _ _ _ _ Hloaded).
  run. rewrite (deref_lookup _ _ (ODataFrame d)) by apply lookup_insert_eq.
  destruct (SmartDataframe.lake_config_enforce_privacy a); [reflexivity|].
  now destruct (SmartDataframe._truncate_head_columns _ _).
Qed.

Lemma sample_head_deferred (a : SmartDataframe.state) h lc c :
  SmartDataframe._custom_head a = None ->
  deferred (SmartDataframe._core a) h lc c ->
  SmartDataframe._get_sample_head (a, h) =
    (sampled (SmartDataframe.lake_config_enforce_privacy a) (conn_head c), (a, h)).
Proof.
  intros Hcustom (Hld & Hc & Hlc).
  assert (Hconn : SmartDataframe.connector a = Some lc) by exact Hc.
  unfold SmartDataframe._get_sample_head, sampled.
  unfold bind at 1 2. unfold get_self at 1. cbn [fst snd].
  rewrite Hcustom, Hld, Hconn.
  rewrite bool_decide_eq_false_2 by (intros Hne; now apply Hne).
  rewrite bool_decide_eq_true_2 by discriminate. cbn [negb andb].
  unfold bind at 1. rewrite (the_connector_found _ _ _ _ Hlc). unfold ret at 1.
  destruct (conn_head c) as [head|]; [|reflexivity].
  destruct (SmartDataframe.lake_config_enforce_privacy a); [reflexivity|].
  unfold bind, call, ret.
  now destruct (SmartDataframe._truncate_head_columns _ _).
Qed.

(** X22: on a holder that is loaded for one use and has no custom head,
    building the sample head uses the load up: the head is made from the
    first rows of the loaded table, and the holder is left unloaded.  The
    next sample head is made from the connector's [head()].  So [head_df]
    and, after it, [head_csv] of one SmartDataframe are made from two
    different previews. *)
Theorem the_two_heads_of_a_temporary_load (x : More.Cached) h l d lc c :
  More.head_df_value x = None -> More.head_csv_value x = None ->
  SmartDataframe._custom_head (More.this x) = None ->
  loaded (SmartDataframe._core (More.this x)) h l d ->
  Core._temporary_loaded (SmartDataframe._core (More.this x)) = true ->
  Core._connector (SmartDataframe._core (More.this x)) = Some lc ->
  h !! lc = Some (OConnector c) ->
  let a := More.this x in
  let p := SmartDataframe.lake_config_enforce_privacy a in
  let a' := SmartDataframe.set_core (unloaded (SmartDataframe._core a)) a in
  let h' := <[fresh (dom h) := ODataFrame d]> h in
  SmartDataframe._get_sample_head (a, h)
    = (sampled p (Some (SmartDataframe.df_head (if p then 0 else 3)%nat d)), (a', h'))
  /\ SmartDataframe._get_sample_head (a', h') = (sampled p (conn_head c), (a', h'))
  /\ forall v,
       sampled p (Some (SmartDataframe.df_head (if p then 0 else 3)%nat d)) = Return v ->
       More.head_df (x, h) = (Return v, (More.mkCached a' (Some v) None, h'))
       /\ More.head_csv (More.mkCached a' (Some v) None, h') =
            match sampled p (conn_head c) with
            | Return (Some t) =>
                (Return (to_csv t), (More.mkCached a' (Some v) (Some (to_csv t)), h'))
            | Return None => (Raise AttributeError, (More.mkCached a' (Some v) None, h'))
            | Raise e => (Raise e, (More.mkCached a' (Some v) None, h'))
            end.
Proof.
  intros Hdfv Hcsv Hcustom Hloaded Htmp Hc Hlc a p a' h'.
  assert (Hafter : after_read (SmartDataframe._core a) = unloaded (SmartDataframe._core a)).
  { unfold after_read, Core.has_connector. subst a. rewrite Hc, Htmp.
    now rewrite bool_decide_eq_true_2 by discriminate. }
  assert (Hdef : deferred (SmartDataframe._core a') h' lc c).
  { subst a' h'. repeat split; [exact Hc|].
    rewrite lookup_insert_ne; [assumption|apply (fresh_differs _ _ _ Hlc)]. }
  assert (Hfirst : SmartDataframe._get_sample_head (a, h)
    = (sampled p (Some (SmartDataframe.df_head (if p then 0 else 3)%nat d)), (a', h'))).
  { subst a' h'. rewrite <- Hafter. now apply (sample_head_loaded a h l d). }
  assert (Hsecond : SmartDataframe._get_sample_head (a', h')
    = (sampled p (conn_head c), (a', h'))).
  { apply (sample_head_deferred a' h' lc c); [|assumption]. exact Hcustom. }
  split; [assumption|]. split; [assumption|].
  intros v Hv. split.
  - rewrite head_df_eq, Hdfv. fold a. rewrite Hfirst, Hv. now rewrite Hcsv.
  - rewrite head_csv_eq. cbn [More.head_csv_value More.this More.head_df_value].
    rewrite Hsecond.
    now destruct (sampled p (conn_head c)) as [[t|]|e].
Qed.

(** ** Reading the heads as attributes *)

Lemma not_in_core_dir name :
  name ∉ More.core_names -> name ∉ More.instance_names -> name ∉ dir_of_object ->
  bool_decide (name ∈ More.core_dir) = false.
Proof.
  intros H1 H2 H3. apply bool_decide_eq_false_2. unfold More.core_dir.
  rewrite !elem_of_app. tauto.
Qed.

Lemma head_df_is_no_core_name :
  py "head_df" ∉ dir_of_object -> bool_decide (py "head_df" ∈ More.core_dir) = false.
Proof. intros Hobj. apply not_in_core_dir; [absent|absent|assumption]. Qed.

Lemma head_csv_is_no_core_name :
  py "head_csv" ∉ dir_of_object -> bool_decide (py "head_csv" ∈ More.core_dir) = false.
Proof. intros Hobj. apply not_in_core_dir; [absent|absent|assumption]. Qed.

(** On a holder that is not loaded, [self.dataframe] is [None] and changes
    nothing. *)
Lemma the_dataframe_unloaded (x : More.Cached) h :
  Core._df_loaded (SmartDataframe._core (More.this x)) = false ->
  More.the_dataframe (x, h) = (Return None, (x, h)).
Proof.
  intros Hld. unfold More.the_dataframe, zoom, More.read_object. cbn [fst snd].
  unfold bind at 1. rewrite (sdf_dataframe_unloaded _ _ Hld). run.
  now destruct x.
Qed.

(** [__getattr__] on a holder that is not loaded, for a name that neither the
    core nor [None] has: the lookup in the class, once more. *)
Lemma getattr_unloaded {A} name (lookup : M More.Cached A) (x : More.Cached) h :
  bool_decide (name ∈ More.core_dir) = false -> name ∉ obj_dir None ->
  Core._df_loaded (SmartDataframe._core (More.this x)) = false ->
  More.__getattr__ name lookup (x, h) =
    match lookup (x, h) with
    | (Return a, st) => (Return (from_the_class a), st)
    | (Raise e, st) => (Raise e, st)
    end.
Proof.
  intros Hcore Hnone Hld. unfold More.__getattr__. rewrite Hcore.
  unfold bind at 1. rewrite (the_dataframe_unloaded _ _ Hld).
  rewrite (bool_decide_eq_false_2 _ Hnone). run.
  now destruct (lookup (x, h)) as [[a|e] st].
Qed.

(** X15: a read of [head_df] or [head_csv] whose build raises
    AttributeError is not over: [__getattr__] reads [dataframe], and, the
    name being no attribute of what that returns, builds the head a second
    time, in the state the first build left.  So on a holder loaded for one
    use whose table makes the build raise AttributeError, the first build
    uses the load up and the read nevertheless returns: [head_df] is the head
    made from the connector's [head()], [head_csv] its CSV text, and that is
    what is kept.  When the second build raises the read raises. *)
Theorem heads_are_built_again_after_AttributeError (x : More.Cached) h l d lc c :
  py "head_df" ∉ dir_of_object -> py "head_df" ∉ obj_dir None ->
  py "head_csv" ∉ dir_of_object -> py "head_csv" ∉ obj_dir None ->
  More.head_df_value x = None -> More.head_csv_value x = None ->
  SmartDataframe._custom_head (More.this x) = None ->
  loaded (SmartDataframe._core (More.this x)) h l d ->
  Core._temporary_loaded (SmartDataframe._core (More.this x)) = true ->
  Core._connector (SmartDataframe._core (More.this x)) = Some lc ->
  h !! lc = Some (OConnector c) ->
  let a := More.this x in
  let p := SmartDataframe.lake_config_enforce_privacy a in
  let a' := SmartDataframe.set_core (unloaded (SmartDataframe._core a)) a in
  let h' := <[fresh (dom h) := ODataFrame d]> h in
  sampled p (Some (SmartDataframe.df_head (if p then 0 else 3)%nat d))
    = Raise AttributeError ->
  More.head_df (x, h) = (Raise AttributeError, (More.set_this a' x, h'))
  /\ More.get_head_df (x, h) =
       match sampled p (conn_head c) with
       | Return v =>
           (Return (from_the_class v), (More.mkCached a' (Some v) None, h'))
       | Raise e => (Raise e, (More.set_this a' x, h'))
       end
  /\ More.head_csv (x, h) = (Raise AttributeError, (More.set_this a' x, h'))
  /\ More.get_head_csv (x, h) =
       match sampled p (conn_head c) with
       | Return (Some t) =>
           (Return (from_the_class (to_csv t)),
            (More.mkCached a' None (Some (to_csv t)), h'))
       | Return None => (Raise AttributeError, (More.set_this a' x, h'))
       | Raise e => (Raise e, (More.set_this a' x, h'))
       end.
Proof.
  intros Hdf1 Hdf2 Hcsv1 Hcsv2 Hdfv Hcsv Hcustom Hloaded Htmp Hc Hlc a p a' h' Hfail.
  assert (Hafter : after_read (SmartDataframe._core a) = unloaded (SmartDataframe._core a)).
  { unfold after_read, Core.has_connector. subst a. rewrite Hc, Htmp.
    now rewrite bool_decide_eq_true_2 by discriminate. }
  assert (Hdef : deferred (SmartDataframe._core a') h' lc c).
  { subst a' h'. repeat split; [exact Hc|].
    rewrite lookup_insert_ne; [assumption|apply (fresh_differs _ _ _ Hlc)]. }
  assert (Hfirst : SmartDataframe._get_sample_head (a, h)
                   = (Raise AttributeError, (a', h'))).
  { rewrite (sample_head_loaded a h l d Hcustom Hloaded). fold p. rewrite Hfail.
    subst a' h'. now rewrite Hafter. }
  assert (Hsecond : SmartDataframe._get_sample_head (a', h')
                    = (sampled p (conn_head c), (a', h'))).
  { apply (sample_head_deferred a' h' lc c); [|assumption]. exact Hcustom. }
  assert (Hdf : More.head_df (x, h) = (Raise AttributeError, (More.set_this a' x, h'))).
  { rewrite head_df_eq, Hdfv. fold a. now rewrite Hfirst. }
  assert (Hcs : More.head_csv (x, h) = (Raise AttributeError, (More.set_this a' x, h'))).
  { rewrite head_csv_eq, Hcsv. fold a. now rewrite Hfirst. }
  split; [assumption|]. split; [|split; [assumption|]].
  - unfold More.get_head_df, More.getattribute. rewrite Hdf.
    rewrite getattr_unloaded;
      [|now apply head_df_is_no_core_name|assumption|reflexivity].
    rewrite head_df_eq. cbn [More.set_this More.head_df_value More.this More.head_csv_value].
    rewrite Hdfv, Hcsv, Hsecond.
    now destruct (sampled p (conn_head c)) as [v|e].
  - unfold More.get_head_csv, More.getattribute. rewrite Hcs.
    rewrite getattr_unloaded;
      [|now apply head_csv_is_no_core_name|assumption|reflexivity].
    rewrite head_csv_eq. cbn [More.set_this More.head_df_value More.this More.head_csv_value].
    rewrite Hdfv, Hcsv, Hsecond.
    now destruct (sampled p (conn_head c)) as [[t|]|e].
Qed.

(** X16: on a holder that is not loaded and whose connector has no preview
    ([head()] is [None]), and that has no custom head, a read of [head_df]
    returns [None] and keeps it, while a read of [head_csv] raises
    AttributeError, after a second build that fails as the first, keeps
    nothing, and leaves the holder and the heap as they are. *)
Theorem heads_of_a_connector_without_preview (x : More.Cached) h lc c :
  py "head_csv" ∉ dir_of_object -> py "head_csv" ∉ obj_dir None ->
  More.head_df_value x = None -> More.head_csv_value x = None ->
  SmartDataframe._custom_head (More.this x) = None ->
  deferred (SmartDataframe._core (More.this x)) h lc c ->
  conn_head c = None ->
  More.get_head_df (x, h)
    = (Return (from_the_class None), (More.mkCached (More.this x) (Some None) None, h))
  /\ More.get_head_csv (x, h) = (Raise AttributeError, (x, h))
  /\ More.get_head_csv (More.mkCached (More.this x) (Some None) None, h)
     = (Raise AttributeError, (More.mkCached (More.this x) (Some None) None, h)).
Proof.
  intros Hcsv1 Hcsv2 Hdfv Hcsv Hcustom Hdef Hnone.
  pose proof Hdef as (Hld & _).
  assert (Hhead : SmartDataframe._get_sample_head (More.this x, h)
                  = (Return None, (More.this x, h))).
  { rewrite (sample_head_deferred _ _ _ _ Hcustom Hdef), Hnone. reflexivity. }
  assert (Hsame : More.set_this (More.this x) x = x) by now destruct x.
  assert (Hraise : forall v, More.head_csv (More.mkCached (More.this x) v None, h)
            = (Raise AttributeError, (More.mkCached (More.this x) v None, h))).
  { intros v. rewrite head_csv_eq. cbn [More.head_csv_value More.this]. now rewrite Hhead. }
  assert (Hx : x = More.mkCached (More.this x) None None).
  { destruct x as [s v w]. cbn in Hdfv, Hcsv. now subst. }
  split; [|split].
  - unfold More.get_head_df, More.getattribute.
    now rewrite head_df_eq, Hdfv, Hhead, Hcsv.
  - rewrite Hx at 1 2. cbn [More.this].
    unfold More.get_head_csv, More.getattribute. rewrite Hraise.
    rewrite getattr_unloaded;
      [|now apply head_csv_is_no_core_name|assumption|exact Hld].
    now rewrite Hraise.
  - unfold More.get_head_csv, More.getattribute. rewrite Hraise.
    rewrite getattr_unloaded;
      [|now apply head_csv_is_no_core_name|assumption|exact Hld].
    now rewrite Hraise.
Qed.

(** ** Equality *)

(** X23: [==] between two SmartDataframes that have connectors is what
    [equals] of the first connector says of the second, and nothing else is
    looked at: not whether they are loaded, nor the tables they hold, nor
    their custom heads or privacy settings. *)
Theorem eq_looks_at_the_connectors_only (a b : SmartDataframe.state) h l1 l2 c1 c2 :
  SmartDataframe.connector a = Some l1 -> SmartDataframe.connector b = Some l2 ->
  h !! l1 = Some (OConnector c1) -> h !! l2 = Some (OConnector c2) ->
  SmartDataframe.__eq__ a (SmartDataframe.a_SmartDataframe b) h
    = Return (connector_equals c1 c2)
  /\ forall a' b',
       SmartDataframe.connector a' = Some l1 -> SmartDataframe.connector b' = Some l2 ->
       SmartDataframe.__eq__ a' (SmartDataframe.a_SmartDataframe b') h
       = SmartDataframe.__eq__ a (SmartDataframe.a_SmartDataframe b) h.
Proof.
  intros Ha Hb Hl1 Hl2.
  assert (Heq : forall a' b',
    SmartDataframe.connector a' = Some l1 -> SmartDataframe.connector b' = Some l2 ->
    SmartDataframe.__eq__ a' (SmartDataframe.a_SmartDataframe b') h
      = Return (connector_equals c1 c2)).
  { intros a' b' Ha' Hb'. unfold SmartDataframe.__eq__, Core.has_connector.
    unfold SmartDataframe.connector, Core.connector in Ha', Hb' |- *.
    rewrite Ha', Hb'. rewrite !bool_decide_eq_true_2 by discriminate. cbn [andb].
    now rewrite (deref_lookup _ _ _ Hl1), (deref_lookup _ _ _ Hl2). }
  split; [now apply Heq|].
  intros a' b' Ha' Hb'. now rewrite !Heq.
Qed.

(** ** Loading without a connector *)

(** X24: a holder constructed from a DataFrame has no connector to load
    from: [load_connector] raises AttributeError, and the holder is as it
    was, loaded and owner of its table. *)
Theorem direct_holder_cannot_load_connector h l d core st temporary :
  h !! l = Some (ODataFrame d) ->
  Core.__init__ (VRef l) (tt, h) = (Return core, st) ->
  Core.load_connector temporary (core, h) = (Raise AttributeError, (core, h))
  /\ loaded core h l d
  /\ forall a, SmartDataframe._core a = core ->
       SmartDataframe.load_connector temporary (a, h) = (Raise AttributeError, (a, h)).
Proof.
  intros Hl Hinit.
  destruct (direct_load_is_loaded _ _ _ _ _ Hl Hinit) as (Hloaded & Hnone & _).
  assert (Hc : Core._connector core = None).
  { unfold Core.has_connector in Hnone. apply bool_decide_eq_false in Hnone.
    destruct (Core._connector core); [exfalso; apply Hnone; discriminate|reflexivity]. }
  pose proof (load_connector_needs_connector core h temporary Hc) as Hload.
  split; [assumption|]. split; [assumption|].
  intros a <-. unfold SmartDataframe.load_connector, zoom. cbn [fst snd].
  rewrite Hload. now destruct a.
Qed.

End MoreProperties.

(** * The properties in the small world *)

#[local] Existing Instance demo.

Lemma temporary_load_serves_one_read_witness :
  exists l h2,
    Core.dataframe (loaded_once, loaded_once_heap) = (Return (Some l), (unloaded loaded_once, h2))
    /\ h2 !! l = Some (ODataFrame (conn_execute demo_connector))
    /\ Core.dataframe (unloaded loaded_once, h2) = (Return None, (unloaded loaded_once, h2))
    /\ Core._df (unloaded loaded_once) = None
    /\ Core.has_connector (unloaded loaded_once) = true
    /\ Core._connector (unloaded loaded_once) = Some 3%positive
    /\ h2 !! 3%positive = Some (OConnector demo_connector).
Proof.
  apply (temporary_load_serves_one_read on_connector demo_heap 3%positive demo_connector).
  - reflexivity.
  - reflexivity.
  - vm_compute. reflexivity.
Defined.

Lemma dataframe_read_is_a_copy_witness :
  exists l',
    Core.dataframe (direct, basket_heap)
      = (Return (Some l'), (direct, <[l' := ODataFrame basket_table]> basket_heap))
    /\ l' <> 1%positive
    /\ <[l' := OList []]> (<[l' := ODataFrame basket_table]> basket_heap) !! 1%positive
       = Some (ODataFrame basket_table)
    /\ table_shows (<[9%positive := OList [CInt 1; CInt 2]]>
                      (<[l' := ODataFrame basket_table]> basket_heap)) basket_table
       <> table_shows (<[l' := ODataFrame basket_table]> basket_heap) basket_table.
Proof.
  destruct (dataframe_read_is_a_copy direct basket_heap 1%positive basket_table)
    as (l' & Hread & _ & Hne & _ & Hreplace & Hshared).
  - repeat split; reflexivity.
  - exists l'. split; [exact Hread|]. split; [exact Hne|]. split.
    + destruct (Hreplace (OList [])) as (Hl & _). exact Hl.
    + destruct (Hshared 9%positive (OList [CInt 1]) (OList [CInt 1; CInt 2]))
        as (_ & _ & _ & Hdiff & _).
      * now left.
      * reflexivity.
      * discriminate.
      * discriminate.
      * exact Hdiff.
Defined.

(** C2 fails as stated: the one cell of the owned table holds a list; a
    read returns a copy, at a place of its own; the caller appends to the
    list found in the cell of the copy; and the owned table, which is the
    same object as before, shows the longer list, as does the table the next
    read returns. *)
Lemma mutating_a_cell_object_reaches_the_owned_table :
  Core.dataframe (direct, basket_heap)
    = (Return (Some 10%positive),
       (direct, <[10%positive := ODataFrame basket_table]> basket_heap))
  /\ call_on_cell 10%positive 0 0 (list_append (CInt 2))
       (direct, <[10%positive := ODataFrame basket_table]> basket_heap)
     = (Return tt,
        (direct, <[9%positive := OList [CInt 1; CInt 2]]>
                   (<[10%positive := ODataFrame basket_table]> basket_heap)))
  /\ table_shows basket_heap basket_table
     = [(LStr (py "basket"), [inr (OList [CInt 1])])]
  /\ <[9%positive := OList [CInt 1; CInt 2]]>
       (<[10%positive := ODataFrame basket_table]> basket_heap) !! 1%positive
     = Some (ODataFrame basket_table)
  /\ table_shows (<[9%positive := OList [CInt 1; CInt 2]]>
                    (<[10%positive := ODataFrame basket_table]> basket_heap)) basket_table
     = [(LStr (py "basket"), [inr (OList [CInt 1; CInt 2])])]
  /\ exists l'' h'',
       Core.dataframe (direct, <[9%positive := OList [CInt 1; CInt 2]]>
                                 (<[10%positive := ODataFrame basket_table]> basket_heap))
         = (Return (Some l''), (direct, h''))
       /\ h'' !! l'' = Some (ODataFrame basket_table)
       /\ table_shows h'' basket_table
          = [(LStr (py "basket"), [inr (OList [CInt 1; CInt 2])])].
Proof.
  split; [vm_compute; reflexivity|].
  split; [vm_compute; reflexivity|].
  split; [vm_compute; reflexivity|].
  split; [vm_compute; reflexivity|].
  split; [vm_compute; reflexivity|].
  eexists. eexists. split; [vm_compute; reflexivity|].
  split; vm_compute; reflexivity.
Qed.

Lemma engine_detection_and_validation_witness :
  Core._load_engine (holding_modin, demo_heap) = (Raise EngineMismatch, (holding_modin, demo_heap)).
Proof.
  destruct (engine_detection_and_validation holding_modin demo_heap 2%positive
              (ODataFrame (long_table modin)) eq_refl eq_refl) as (_ & Hmismatch & _).
  apply Hmismatch. split; discriminate.
Defined.

(** C4 fails as stated: a SmartDataframe built with the two-row custom head
    [names_head] and privacy enforced gives a sample head without rows, not
    the custom head. *)
Lemma custom_head_is_resampled :
  SmartDataframe.__init__ (VRef 1%positive) (Some names_head) true (tt, demo_heap)
    = (Return with_custom_head, (tt, demo_heap))
  /\ fst (SmartDataframe._get_sample_head (with_custom_head, demo_heap))
     = Return (Some (SmartDataframe.df_head 0 names_head))
  /\ df_rows (SmartDataframe.df_head 0 names_head) = 0%nat
  /\ df_rows names_head = 2%nat
  /\ SmartDataframe.df_head 0 names_head <> names_head.
Proof.
  split; [vm_compute; reflexivity|].
  split; [vm_compute; reflexivity|].
  split; [reflexivity|]. split; [reflexivity|]. discriminate.
Qed.

Lemma custom_head_goes_through_the_pipeline_witness :
  SmartDataframe._get_sample_head (with_custom_head, demo_heap) =
    (match read_csv_text (to_csv names_head) with
     | Raise e => Raise e
     | Return head =>
         if true then Return (Some (sample head 0))
         else match SmartDataframe._truncate_head_columns (ODataFrame (sample head 3)) 25 with
              | Return t => Return (Some t)
              | Raise e => Raise e
              end
     end, (with_custom_head, demo_heap)).
Proof.
  apply (custom_head_goes_through_the_pipeline (VRef 1%positive) names_head true
           demo_heap with_custom_head (tt, demo_heap) demo_heap).
  vm_compute. reflexivity.
Defined.

(** C5 fails as stated: a holder that owns the pandas table is assigned the
    modin table; the assignment fails with EngineMismatch, and the holder
    now owns the modin table. *)
Lemma failed_load_replaces_the_table :
  Core.dataframe_setter (VRef 2%positive) (direct, demo_heap)
    = (Raise EngineMismatch, (Core.set_df (Some 2%positive) direct, demo_heap))
  /\ Core._df direct = Some 1%positive
  /\ Core._df (Core.set_df (Some 2%positive) direct) = Some 2%positive
  /\ Core._df (Core.set_df (Some 2%positive) direct) <> Core._df direct.
Proof.
  split; [vm_compute; reflexivity|].
  split; [reflexivity|]. split; [reflexivity|]. discriminate.
Qed.

Lemma failed_load_keeps_engine_and_flags_witness :
  Core._engine (Core.set_df (Some 2%positive) direct) = Some pandas
  /\ Core._df_loaded (Core.set_df (Some 2%positive) direct) = true
  /\ Core._temporary_loaded (Core.set_df (Some 2%positive) direct) = false
  /\ Core._connector (Core.set_df (Some 2%positive) direct) = None
  /\ Core._df (Core.set_df (Some 2%positive) direct) = Some 2%positive.
Proof.
  destruct (failed_load_keeps_engine_and_flags (VRef 2%positive) direct demo_heap
              EngineMismatch (Core.set_df (Some 2%positive) direct) demo_heap)
    as (He & Hl & Ht & Hc & _ & Hobject & _).
  - vm_compute. reflexivity.
  - destruct (Hobject 2%positive eq_refl) as (_ & Hdf & _).
    now rewrite He, Hl, Ht, Hc, Hdf.
Defined.

(** C6 fails as stated: adding a column whose name is the empty string
    leaves the hash as it was, and a loaded table whose labels are numbers
    has no hash: joining the labels raises [TypeError]. *)
Lemma column_hash_misses_an_unnamed_column :
  fst (SmartDataframe.column_hash (plain direct, {[1%positive := ODataFrame table_a]}))
    = Return (py "ca978112ca1bbdcafac231b39a23dc4da786eff8147c4e72b9807785afee48bb")
  /\ fst (SmartDataframe.column_hash
            (plain direct, {[1%positive := ODataFrame table_a_and_unnamed]}))
    = Return (py "ca978112ca1bbdcafac231b39a23dc4da786eff8147c4e72b9807785afee48bb")
  /\ map col_label (df_columns table_a) = [LStr (py "a")]
  /\ map col_label (df_columns table_a_and_unnamed) = [LStr (py "a"); LStr (py "")]
  /\ loaded direct {[1%positive := ODataFrame table_numbered]} 1%positive table_numbered
  /\ fst (SmartDataframe.column_hash
            (plain direct, {[1%positive := ODataFrame table_numbered]}))
    = Raise TypeError.
Proof.
  split; [vm_compute; reflexivity|].
  split; [vm_compute; reflexivity|].
  split; [reflexivity|]. split; [reflexivity|].
  split; [repeat split; reflexivity|].
  vm_compute. reflexivity.
Qed.

Lemma column_hash_digests_the_names_witness :
  fst (SmartDataframe.column_hash (plain direct, demo_heap))
    = Return (py "7fd195e4529500c72fe67557c8ebed179cbb1baf51175e57e993be63eb059d1a").
Proof.
  destruct (column_hash_digests_the_names (plain direct) demo_heap 1%positive
              (long_table pandas)) as (Hdigest & _).
  - repeat split; reflexivity.
  - rewrite (Hdigest [py "text"; py "n"]
               (map (fun c => Z.of_N c) (py "textn")) eq_refl eq_refl).
    vm_compute. reflexivity.
Defined.

Lemma privacy_gives_an_empty_head_witness :
  fst (SmartDataframe._get_sample_head
         (SmartDataframe.mkSmartDataframe direct None true, demo_heap)) =
    Return (Some (sample (SmartDataframe.df_head 0 (long_table pandas)) 0))
  /\ df_rows (SmartDataframe.df_head 0 (long_table pandas)) = 0%nat
  /\ df_rows (sample (SmartDataframe.df_head 0 (long_table pandas)) 0) = 0%nat
  /\ forall h0 t st,
       SmartDataframe._get_sample_head
         (SmartDataframe.mkSmartDataframe direct None true, h0) = (Return (Some t), st) ->
       df_rows t = 0%nat /\ exists base, t = sample base 0.
Proof.
  apply (privacy_gives_an_empty_head
           (SmartDataframe.mkSmartDataframe direct None true) demo_heap 1%positive
           (long_table pandas)).
  - intros t n. cbn. lia.
  - reflexivity.
  - reflexivity.
  - repeat split; reflexivity.
Defined.

(** C9 fails as stated: a spreadsheet URL that ends in .csv goes to the CSV
    reader, not to the remote-sheet importer. *)
Lemma spreadsheet_url_ending_in_csv :
  startswith (py "https://docs.google.com/spreadsheets/d/1/export.csv")
             (py "https://docs.google.com/spreadsheets/") = true
  /\ Core._import_from_file (py "https://docs.google.com/spreadsheets/d/1/export.csv")
     = Return (named_table "read_csv")
  /\ from_google_sheets (py "https://docs.google.com/spreadsheets/d/1/export.csv")
     = Return [named_table "from_google_sheets"]
  /\ named_table "read_csv" <> named_table "from_google_sheets".
Proof.
  split; [vm_compute; reflexivity|].
  split; [vm_compute; reflexivity|].
  split; [reflexivity|]. vm_compute. discriminate.
Qed.

Lemma import_from_file_dispatch_witness :
  Core._import_from_file (py "https://docs.google.com/spreadsheets/d/1/edit")
    = Return (named_table "from_google_sheets")
  /\ Core._import_from_file (py "notes.txt") = Raise InvalidFileFormat
  /\ Core._import_from_file (py "loans.parquet") = Return (named_table "read_parquet").
Proof.
  split; [|split].
  - destruct (import_from_file_dispatch (py "https://docs.google.com/spreadsheets/d/1/edit"))
      as (_ & _ & _ & Hrest).
    destruct Hrest as [Hsheet _]; [vm_compute; reflexivity..|].
    rewrite Hsheet; [reflexivity|vm_compute; reflexivity].
  - destruct (import_from_file_dispatch (py "notes.txt")) as (_ & _ & _ & Hrest).
    destruct Hrest as [_ Hother]; [vm_compute; reflexivity..|].
    apply Hother. vm_compute. reflexivity.
  - destruct (import_from_file_dispatch (py "loans.parquet")) as (_ & Hparquet & _).
    rewrite Hparquet; [reflexivity|vm_compute; reflexivity].
Defined.

Lemma eq_needs_two_connectors_witness :
  SmartDataframe.__eq__ (plain direct) (SmartDataframe.a_SmartDataframe (plain direct)) demo_heap
    = Return false.
Proof.
  destruct eq_needs_two_connectors as [Hmain _].
  apply Hmain. left. reflexivity.
Defined.

(** ** The rest of the module in the small world *)

#[local] Existing Instance demo_runtime.

Lemma read_changes_only_by_unloading_witness :
  Core._connector (fst (snd (Core.dataframe (loaded_once, loaded_once_heap)))) = Some 3%positive
  /\ Core._engine (fst (snd (Core.dataframe (loaded_once, loaded_once_heap)))) = Some pandas.
Proof.
  destruct (read_changes_only_by_unloading loaded_once loaded_once_heap
              (fst (Core.dataframe (loaded_once, loaded_once_heap)))
              (fst (snd (Core.dataframe (loaded_once, loaded_once_heap))))
              (snd (snd (Core.dataframe (loaded_once, loaded_once_heap)))))
    as (_ & Hconn & Heng & _).
  - now destruct (Core.dataframe (loaded_once, loaded_once_heap)) as [r [self' h']].
  - split; assumption.
Defined.

Lemma reads_can_be_repeated_witness :
  fst (read_times 3 (direct, demo_heap)) = direct
  /\ loaded direct (snd (read_times 3 (direct, demo_heap))) 1%positive (long_table pandas).
Proof.
  destruct (reads_can_be_repeated direct demo_heap 1%positive (long_table pandas) 3)
    as (Hself & Hloaded & _).
  - repeat split; reflexivity.
  - reflexivity.
  - split; assumption.
Defined.

Lemma constructed_core_is_deferred_or_loaded_witness :
  Core.__init__ (VRef 3%positive) (tt, demo_heap) = (Return on_connector, (tt, demo_heap)).
Proof.
  destruct (constructed_core_is_deferred_or_loaded demo_heap) as (Hconnector & _).
  apply (Hconnector 3%positive demo_connector). reflexivity.
Defined.

Lemma failed_reload_serves_the_rejected_table_witness :
  exists self1 h1,
    Core.load_connector false (on_modin_connector, modin_heap)
      = (Raise EngineMismatch, (self1, h1))
    /\ Core._df self1 <> Core._df on_modin_connector
    /\ fst (Core.dataframe (self1, h1)) = Return (Some (fresh (dom h1)))
    /\ snd (snd (Core.dataframe (self1, h1))) !! fresh (dom h1)
       = Some (ODataFrame (long_table modin)).
Proof.
  pose proof (failed_reload_serves_the_rejected_table on_modin_connector modin_heap
                5%positive modin_connector false eq_refl eq_refl eq_refl) as Hw.
  cbv zeta in Hw. destruct Hw as (Hload & Hread & Hcopy).
  eexists. eexists. split; [exact Hload|]. split; [vm_compute; discriminate|].
  split; [exact Hread|]. apply Hcopy; [reflexivity|left; reflexivity].
Defined.

Lemma item_assignment_is_lost_witness :
  exists r h',
    More.__setitem__ (LStr (py "text")) (a_scalar (CInt 0)) (plain direct, demo_heap)
      = (r, (SmartDataframe.set_core (after_read direct) (plain direct), h'))
    /\ h' !! 1%positive = Some (ODataFrame (long_table pandas)).
Proof.
  destruct (item_assignment_is_lost (plain direct) demo_heap 1%positive (long_table pandas)
              (LStr (py "text")) (a_scalar (CInt 0)))
    as (r & h' & Hrun & Hkept & _).
  - repeat split; reflexivity.
  - exists r, h'. split; assumption.
Defined.

Lemma counts_of_a_loaded_table_witness :
  fst (More.rows_count (plain direct, demo_heap)) = Return (Count 2)
  /\ fst (More.columns_count (plain direct, demo_heap)) = Return (Count 2)
  /\ fst (More.__len__ (plain direct, demo_heap)) = Return 2.
Proof.
  apply (counts_of_a_loaded_table (plain direct) demo_heap 1%positive (long_table pandas)).
  repeat split; reflexivity.
Defined.

Lemma deferred_holder_answers_from_connector_witness :
  More.rows_count (plain on_connector, demo_heap)
    = (Return (Count 1000), (plain on_connector, demo_heap))
  /\ More.__len__ (plain on_connector, demo_heap)
     = (Raise TypeError, (plain on_connector, demo_heap)).
Proof.
  destruct (deferred_holder_answers_from_connector (plain on_connector) demo_heap
              3%positive demo_connector)
    as (Hrows & _ & _ & Hlen & _).
  - repeat split; reflexivity.
  - split; assumption.
Defined.

Lemma metadata_uses_up_a_temporary_load_witness :
  fst (More.rows_count (plain loaded_once, loaded_once_heap)) = Return (Count 2)
  /\ fst (More.rows_count (snd (More.rows_count (plain loaded_once, loaded_once_heap))))
     = Return (Count 1000).
Proof.
  assert (Hloaded : loaded loaded_once loaded_once_heap 4%positive (long_table pandas))
    by (repeat split; reflexivity).
  pose proof (metadata_uses_up_a_temporary_load (plain loaded_once) loaded_once_heap
                4%positive (long_table pandas) 3%positive demo_connector
                Hloaded eq_refl eq_refl eq_refl) as Hw.
  cbv zeta in Hw. destruct Hw as (Hfirst & _ & Hsecond & _).
  rewrite Hfirst. cbn [fst snd]. rewrite Hsecond. split; reflexivity.
Defined.

Lemma import_path_is_taken_apart_witness :
  More.connector_config (py "PostgreSQLConnector://localhost:5432/shop/orders")
    = Return (py "PostgreSQLConnector",
              mkConfig (py "localhost") (py "shop") (py "orders") (Some (py "5432")))
  /\ More._instantiate_connector (py "PostgreSQLConnector://localhost:5432/shop/orders")
     = Return demo_connector.
Proof.
  refine (import_path_is_taken_apart (py "PostgreSQLConnector") (py "localhost")
            (py "5432") (py "shop") (py "orders") _ _ _ _ _ _ _ _ _); absent.
Defined.

Lemma import_path_ignores_what_follows_the_table_witness :
  More.connector_config (py "PostgreSQLConnector://localhost:5432/shop/orders/2024/q1")
  = More.connector_config (py "PostgreSQLConnector://localhost:5432/shop/orders").
Proof.
  refine (import_path_ignores_what_follows_the_table (py "PostgreSQLConnector")
            (py "localhost") (py "5432") (py "shop") (py "orders") (py "2024/q1")
            _ _ _ _ _ _ _ _ _ _); absent.
Defined.

Lemma truncation_keeps_the_shape_witness :
  exists t,
    SmartDataframe._truncate_head_columns (ODataFrame (long_table pandas)) 25 = Return t
    /\ df_rows t = 2%nat
    /\ map col_label (df_columns t) = [LStr (py "text"); LStr (py "n")].
Proof.
  destruct (SmartDataframe._truncate_head_columns (ODataFrame (long_table pandas)) 25)
    as [t|e] eqn:Ht.
  - destruct (truncation_keeps_the_shape _ _ _ Ht) as (d & [= <-] & _ & Hrows & Hlabels & _).
    exists t. split; [reflexivity|]. split; assumption.
  - vm_compute in Ht. discriminate.
Defined.

Lemma column_hash_is_64_hex_digits_witness :
  exists s,
    fst (SmartDataframe.column_hash (plain direct, demo_heap)) = Return s
    /\ length s = 64%nat /\ forallb is_hex_digit s = true.
Proof.
  apply (column_hash_is_64_hex_digits (plain direct) demo_heap 1%positive
           (long_table pandas) (py "textn") (map (fun c => Z.of_N c) (py "textn"))).
  - repeat split; reflexivity.
  - reflexivity.
  - reflexivity.
Defined.

Lemma heads_are_built_again_after_AttributeError_witness :
  More.head_df (More.mkCached (plain twin_loaded_once) None None, twin_heap)
    = (Raise AttributeError,
       (More.mkCached (plain (unloaded twin_loaded_once)) None None,
        <[3%positive := ODataFrame twin_table]> twin_heap))
  /\ More.get_head_df (More.mkCached (plain twin_loaded_once) None None, twin_heap)
     = (Return (from_the_class (Some names_head)),
        (More.mkCached (plain (unloaded twin_loaded_once)) (Some (Some names_head)) None,
         <[3%positive := ODataFrame twin_table]> twin_heap)).
Proof.
  assert (Hloaded : loaded twin_loaded_once twin_heap 2%positive twin_table)
    by (repeat split; reflexivity).
  assert (Hnames : ((py "head_df" ∉ dir_of_object) /\ (py "head_df" ∉ obj_dir None))
                   /\ (py "head_csv" ∉ dir_of_object) /\ (py "head_csv" ∉ obj_dir None))
    by (repeat split; absent).
  destruct Hnames as ((Hdf1 & Hdf2) & Hcsv1 & Hcsv2).
  assert (Hfail : sampled false (Some (SmartDataframe.df_head 3 twin_table))
                  = Raise AttributeError) by (vm_compute; reflexivity).
  pose proof (heads_are_built_again_after_AttributeError
                (More.mkCached (plain twin_loaded_once) None None) twin_heap
                2%positive twin_table 1%positive twin_connector
                Hdf1 Hdf2 Hcsv1 Hcsv2 eq_refl eq_refl eq_refl Hloaded eq_refl eq_refl
                eq_refl Hfail) as Hw.
  cbv zeta in Hw. destruct Hw as (Hdf & Hget & _).
  split; [exact Hdf|]. rewrite Hget. vm_compute. reflexivity.
Defined.

Lemma heads_of_a_connector_without_preview_witness :
  More.get_head_df
    (More.mkCached (plain (Core.mkCore None false false (Some 5%positive) None)) None None,
     modin_heap)
  = (Return (from_the_class None),
     (More.mkCached (plain (Core.mkCore None false false (Some 5%positive) None))
        (Some None) None, modin_heap))
  /\ More.get_head_csv
       (More.mkCached (plain (Core.mkCore None false false (Some 5%positive) None)) None None,
        modin_heap)
     = (Raise AttributeError,
        (More.mkCached (plain (Core.mkCore None false false (Some 5%positive) None)) None None,
         modin_heap)).
Proof.
  assert (Hnames : (py "head_csv" ∉ dir_of_object) /\ (py "head_csv" ∉ obj_dir None))
    by (split; absent).
  destruct Hnames as (Hcsv1 & Hcsv2).
  assert (Hdef : deferred (Core.mkCore None false false (Some 5%positive) None) modin_heap
                   5%positive modin_connector) by (repeat split; reflexivity).
  destruct (heads_of_a_connector_without_preview
              (More.mkCached (plain (Core.mkCore None false false (Some 5%positive) None))
                 None None)
              modin_heap 5%positive modin_connector
              Hcsv1 Hcsv2 eq_refl eq_refl eq_refl Hdef eq_refl)
    as (Hdf & Hcsv & _).
  split; assumption.
Defined.

Lemma load_smartdataframes_keeps_order_witness :
  More.load_smartdataframes
    [More.anything_else (VRef 1%positive); More.anything_else (VRef 1%positive)]
    true (tt, demo_heap)
  = (Return [SmartDataframe.mkSmartDataframe direct None true;
             SmartDataframe.mkSmartDataframe direct None true],
     (tt, demo_heap)).
Proof.
  destruct (load_smartdataframes_keeps_order
              [More.anything_else (VRef 1%positive); More.anything_else (VRef 1%positive)]
              true demo_heap) as (_ & _ & Hrefs).
  refine (Hrefs [1%positive; 1%positive] eq_refl _).
  intros l [<-|[<-|[]]]; exists (long_table pandas); split; reflexivity.
Defined.

Lemma a_name_is_looked_up_once_witness :
  Core.__init__ (H := saved) (VStr (py "names")) (tt, demo_heap)
    = (Raise InvalidFileFormat, (tt, demo_heap))
  /\ SmartDataframe.__init__ (H := saved) (VStr (py "loans")) None false (tt, demo_heap)
     = (Raise ConfigNotFound, (tt, demo_heap))
  /\ SmartDataframe.__init__ (H := saved) (VStr (py "names")) None false (tt, demo_heap)
     = SmartDataframe.__init__ (H := saved) (VStr (py "names.csv")) None false (tt, demo_heap).
Proof.
  destruct (a_name_is_looked_up_once (H := saved) (py "names") None false demo_heap)
    as (Hcore & _ & Hpath); [vm_compute; reflexivity|].
  destruct (a_name_is_looked_up_once (H := saved) (py "loans") None false demo_heap)
    as (_ & Hnone & _); [vm_compute; reflexivity|].
  split; [exact Hcore|]. split; [apply Hnone; reflexivity|].
  apply (Hpath (py "names.csv")); reflexivity.
Defined.

Lemma saved_connector_is_deferred_witness :
  exists a,
    SmartDataframe.__init__ (H := saved) (VStr (py "orders")) None false (tt, demo_heap)
      = (Return a, (tt, <[fresh (dom demo_heap) := OConnector demo_connector]> demo_heap))
    /\ Core._df_loaded (SmartDataframe._core a) = false
    /\ Core._connector (SmartDataframe._core a) = Some (fresh (dom demo_heap)).
Proof.
  destruct (saved_connector_is_deferred (H := saved) (py "orders")
              (py "PostgreSQLConnector://localhost:5432/shop/orders") demo_connector
              None false demo_heap)
    as (a & Hinit & (Hld & Hconn & _) & _); try (vm_compute; reflexivity).
  exists a. split; [exact Hinit|]. split; assumption.
Defined.

Lemma saved_url_without_port_cannot_be_loaded_witness :
  SmartDataframe.__init__ (H := saved) (VStr (py "sheet")) None false (tt, demo_heap)
    = (Raise IndexError, (tt, demo_heap))
  /\ SmartDataframe.is_import_path (py "https://docs.google.com/spreadsheets/d/1") = true.
Proof.
  split; [|vm_compute; reflexivity].
  apply (saved_url_without_port_cannot_be_loaded (H := saved) (H0 := demo_runtime)
           (py "sheet") (py "https") (py "docs.google.com/spreadsheets/d/1")).
  - intros s. reflexivity.
  - vm_compute. reflexivity.
  - vm_compute. reflexivity.
  - absent.
  - absent.
Defined.

Lemma the_two_heads_of_a_temporary_load_witness :
  fst (SmartDataframe._get_sample_head (plain loaded_once, loaded_once_heap))
    = sampled false (Some (SmartDataframe.df_head 3 (long_table pandas)))
  /\ fst (SmartDataframe._get_sample_head
            (snd (SmartDataframe._get_sample_head (plain loaded_once, loaded_once_heap))))
     = sampled false (conn_head demo_connector).
Proof.
  assert (Hloaded : loaded loaded_once loaded_once_heap 4%positive (long_table pandas))
    by (repeat split; reflexivity).
  pose proof (the_two_heads_of_a_temporary_load
                (More.mkCached (plain loaded_once) None None) loaded_once_heap
                4%positive (long_table pandas) 3%positive demo_connector
                eq_refl eq_refl eq_refl Hloaded eq_refl eq_refl eq_refl) as Hw.
  cbv zeta in Hw. cbn [More.this] in Hw. destruct Hw as (Hfirst & Hsecond & _).
  rewrite Hfirst. cbn [fst snd]. rewrite Hsecond. split; reflexivity.
Defined.

Lemma eq_looks_at_the_connectors_only_witness :
  SmartDataframe.__eq__ (plain on_connector)
    (SmartDataframe.a_SmartDataframe (plain loaded_once)) loaded_once_heap
  = Return true.
Proof.
  destruct (eq_looks_at_the_connectors_only (plain on_connector) (plain loaded_once)
              loaded_once_heap 3%positive 3%positive demo_connector demo_connector
              eq_refl eq_refl eq_refl eq_refl) as (Heq & _).
  exact Heq.
Defined.

Lemma direct_holder_cannot_load_connector_witness :
  Core.load_connector true (direct, demo_heap) = (Raise AttributeError, (direct, demo_heap))
  /\ loaded direct demo_heap 1%positive (long_table pandas).
Proof.
  destruct (direct_holder_cannot_load_connector demo_heap 1%positive (long_table pandas)
              direct (tt, demo_heap) true) as (Hload & Hloaded & _).
  - reflexivity.
  - vm_compute. reflexivity.
  - split; assumption.
Defined.
